(** * TradingView alert pipeline of the Mastra trading agent

    A shallow embedding of the alert-to-decision pipeline:

    - the webhook handler ([src/webhook-handler.ts], found after
      [src/mastra/mcp.ts]): the webhook schema [tradingViewWebhookSchema],
      the normalisation into [alertData], the analysis prompt and the HTTP
      responses of [POST /webhook/tradingview];
    - [src/mastra/workflows/trading-workflow.ts]: the steps [analyzeAlert]
      (prompt, agent call, regular-expression extraction) and [executeTrade]
      (the decision gate), and [logTradeEvent].

    JavaScript strings are sequences of UTF-16 code units, numbers are the
    rationals plus [NaN] and the infinities, and the asynchronous handlers
    are functions in a
    small state-and-exception monad over a [World] that records the clock
    reads and every call made to the agent.  Console output is not part of
    the model. *)

From Stdlib Require Import String Ascii Bool ZArith NArith QArith Lia.
From Stdlib Require Import DecimalString List.
Import ListNotations.
Close Scope Q_scope.
Open Scope list_scope.

(* ================================================================== *)
(** * JavaScript values *)
(* ================================================================== *)

Module JS.

(** A string is its sequence of UTF-16 code units. *)
Definition jsstring := list N.

(** An ASCII literal of the source as a [jsstring]. *)
Definition str (s : string) : jsstring :=
  map N_of_ascii (list_ascii_of_string s).

Definition nl : jsstring := [10%N].

Fixpoint eqb (a b : jsstring) : bool :=
  match a, b with
  | [], [] => true
  | x :: a', y :: b' => N.eqb x y && eqb a' b'
  | _, _ => false
  end.

(** [a.join(sep)] *)
Fixpoint join (sep : jsstring) (parts : list jsstring) : jsstring :=
  match parts with
  | [] => []
  | [p] => p
  | p :: rest => p ++ sep ++ join sep rest
  end.

(** [s.substring(0, n)] for a non-negative integer [n]. *)
Definition substring0 (s : jsstring) (n : nat) : jsstring := firstn n s.

(** Numbers.  A finite double is the rational it denotes; beside them
    there are [NaN] and the two infinities.  The code does no arithmetic
    on numbers: it tests them for zero, compares them with a constant,
    prints them, and reads one out of a string with [parseInt]. *)
Inductive number :=
| NaN
| Fin (q : Q)
| Infinity
| NegInfinity.

Definition num (z : Z) : number := Fin (inject_Z z).

(** [a < b] on numbers: false as soon as one side is [NaN]. *)
Definition Lt (a b : number) : Prop :=
  match a, b with
  | Fin x, Fin y => (x < y)%Q
  | Fin _, Infinity => True
  | NegInfinity, Fin _ => True
  | NegInfinity, Infinity => True
  | _, _ => False
  end.

Definition ltb (a b : number) : bool :=
  match a, b with
  | Fin x, Fin y => negb (Qle_bool y x)
  | Fin _, Infinity => true
  | NegInfinity, Fin _ => true
  | NegInfinity, Infinity => true
  | _, _ => false
  end.

(** The values the pipeline handles: fields of JSON objects after
    validation, possibly absent. *)
Inductive value :=
| Undefined
| Num (n : number)
| Str (s : jsstring).

(** ToBoolean: [undefined], [0], [NaN] and [""] are falsy. *)
Definition ToBoolean (v : value) : bool :=
  match v with
  | Undefined => false
  | Num NaN => false
  | Num (Fin q) => negb (Qeq_bool q 0)
  | Num Infinity => true
  | Num NegInfinity => true
  | Str [] => false
  | Str (_ :: _) => true
  end.

(** [a || b] when evaluating [b] has no effect. *)
Definition or (a b : value) : value := if ToBoolean a then a else b.

(** [a ?? b]: only [undefined] (and [null], which no validated field can
    be) falls through. *)
Definition nullish (a b : value) : value :=
  match a with
  | Undefined => b
  | _ => a
  end.

Definition of_str (o : option jsstring) : value :=
  match o with Some s => Str s | None => Undefined end.

Definition of_num (o : option number) : value :=
  match o with Some n => Num n | None => Undefined end.

(** The host's number printing and wall clock.  [Number_toString] is
    [Number.prototype.toString]: the shortest decimal that reads back as the
    same double, which the model takes as given.  [clock k] is what the
    [k]-th read of the clock ([Date.now()], [new Date()]) returns. *)
Class Host := {
  Number_toString : number -> jsstring;
  clock : nat -> Z
}.

Section WithHost.
Context {host : Host}.

(** ToString, as a template literal applies it to [${...}]. *)
Definition ToString (v : value) : jsstring :=
  match v with
  | Undefined => str "undefined"
  | Num n => Number_toString n
  | Str s => s
  end.

End WithHost.

(** ** parseInt *)

Definition is_digit (c : N) : bool := (48 <=? c)%N && (c <=? 57)%N.

(** WhiteSpace and LineTerminator code units, the class that [\s] matches
    and that [parseInt] skips. *)
Definition is_space (c : N) : bool :=
  ((9 <=? c)%N && (c <=? 13)%N) || (c =? 32)%N || (c =? 160)%N
  || (c =? 5760)%N || ((8192 <=? c)%N && (c <=? 8202)%N)
  || (c =? 8232)%N || (c =? 8233)%N || (c =? 8239)%N || (c =? 8287)%N
  || (c =? 12288)%N || (c =? 65279)%N.

(** Value of a code unit as a digit in [radix], if it is one. *)
Definition digit_value (radix : N) (c : N) : option N :=
  let v :=
    if is_digit c then Some (c - 48)%N
    else if (97 <=? c)%N && (c <=? 122)%N then Some (c - 87)%N
    else if (65 <=? c)%N && (c <=? 90)%N then Some (c - 55)%N
    else None in
  match v with
  | Some d => if (d <? radix)%N then Some d else None
  | None => None
  end.

(** Longest prefix of digits, accumulated most significant first; the
    second component tells whether a digit was read at all. *)
Fixpoint read_digits (radix : N) (s : jsstring) (acc : N) (seen : bool)
  : N * bool :=
  match s with
  | [] => (acc, seen)
  | c :: s' =>
      match digit_value radix c with
      | Some d => read_digits radix s' (acc * radix + d)%N true
      | None => (acc, seen)
      end
  end.

Fixpoint skip_space (s : jsstring) : jsstring :=
  match s with
  | c :: s' => if is_space c then skip_space s' else s
  | [] => []
  end.

(** An integer rounded to the 53 significant bits of a double, ties to
    the even significand: the bits below the 53 leading ones are cut off,
    and the result goes one step up when they amount to more than half a
    step, or to exactly half a step with the last bit kept being set. *)
Definition round_N (n : N) : N :=
  let e := (N.size n - 53)%N in
  let q := N.shiftr n e in
  let r := (n - N.shiftl q e)%N in
  let half := N.shiftl 1 (e - 1) in
  let up := (half <? r)%N || ((r =? half)%N && N.odd q) in
  N.shiftl (if up then q + 1 else q)%N e.

(** The Number value of an integer given by sign and magnitude: the
    nearest double, and an infinity when that would be 2^1024 or more. *)
Definition to_double (negative : bool) (n : N) : number :=
  let m := round_N n in
  if (m <? 2 ^ 1024)%N
  then num (if negative then - Z.of_N m else Z.of_N m)
  else if negative then NegInfinity else Infinity.
Arguments to_double : simpl never.

(** [parseInt(s)] without a radix argument: leading white space, a sign,
    an optional [0x] prefix, then as many digits as there are; [NaN] when
    there is none.  The result is the double nearest to the integer the
    digits denote.  (The language lets an implementation take the decimal
    digits after the twentieth for zeros; V8 rounds the exact integer.) *)
Definition parseInt (s : jsstring) : number :=
  let s1 := skip_space s in
  let '(neg, s2) :=
    match s1 with
    | 45%N :: r => (true, r)
    | 43%N :: r => (false, r)
    | _ => (false, s1)
    end in
  let '(radix, s3) :=
    match s2 with
    | 48%N :: x :: r =>
        if (x =? 120)%N || (x =? 88)%N then (16%N, r) else (10%N, s2)
    | _ => (10%N, s2)
    end in
  match read_digits radix s3 0%N false with
  | (n, true) => to_double neg n
  | (_, false) => NaN
  end.

End JS.

Import JS.

(* ================================================================== *)
(** * Regular expressions: a backtracking matcher *)
(* ================================================================== *)

Module Regex.

(** The fragment of the pattern language the source uses.  [Chr p] is one
    code unit of a class; a literal under the [i] flag is the class of its
    two cases.  There is one capture group. *)
Inductive regex :=
| Eps
| Chr (p : N -> bool)
| Cat (a b : regex)
| Alt (a b : regex)
| Star (a : regex)
| Group (a : regex).

Definition Plus (a : regex) : regex := Cat a (Star a).

(** The matcher's state: what group 1 holds and the input still to read. *)
Definition state := (option jsstring * jsstring)%type.

(** Greedy iteration of [step], most iterations first.  An iteration that
    reads nothing is dropped, as the RepeatMatcher of the language does,
    so [length] of the input bounds the depth. *)
Fixpoint star_loop (step : state -> list state) (fuel : nat) (st : state)
  : list state :=
  match fuel with
  | O => [st]
  | S fuel' =>
      flat_map
        (fun st' =>
           if length (snd st') <? length (snd st)
           then star_loop step fuel' st' else [])
        (step st)
      ++ [st]
  end.

(** All ways [r] matches at the start of the input, in the order the
    backtracking matcher tries them. *)
Fixpoint run (r : regex) (st : state) : list state :=
  match r with
  | Eps => [st]
  | Chr p =>
      match snd st with
      | c :: s' => if p c then [(fst st, s')] else []
      | [] => []
      end
  | Cat a b => flat_map (run b) (run a st)
  | Alt a b => run a st ++ run b st
  | Star a => star_loop (run a) (length (snd st)) st
  | Group a =>
      map (fun st' =>
             (Some (firstn (length (snd st) - length (snd st')) (snd st)),
              snd st'))
          (run a st)
  end.

(** What [exec] returns on success: [m[0]] and [m[1]]. *)
Record MatchResult := {
  matched : jsstring;
  group1 : option jsstring
}.

Definition match_at (r : regex) (s : jsstring) : option MatchResult :=
  match run r (None, s) with
  | (cap, s') :: _ =>
      Some {| matched := firstn (length s - length s') s; group1 := cap |}
  | [] => None
  end.

(** [s.match(r)] for a pattern without the [g] flag: the match at the
    leftmost position that has one. *)
Fixpoint search (r : regex) (s : jsstring) : option MatchResult :=
  match match_at r s with
  | Some m => Some m
  | None =>
      match s with
      | [] => None
      | _ :: s' => search r s'
      end
  end.

(** [m[1]] at the type the source gives it.  A group that took no part in
    the match would be [undefined]; [sets_group] below shows that this
    does not happen for the patterns of the pipeline. *)
Definition capture1 (m : MatchResult) : jsstring :=
  match group1 m with
  | Some w => w
  | None => []
  end.

(** Canonicalize of the [i] flag (without [u]): upper case, and a code unit
    outside ASCII never folds onto an ASCII one. *)
Definition canonicalize (c : N) : N :=
  if (97 <=? c)%N && (c <=? 122)%N then (c - 32)%N else c.

Definition chr (c : N) : regex := Chr (N.eqb c).
Definition chr_i (c : N) : regex :=
  Chr (fun x => (canonicalize x =? canonicalize c)%N).

Definition seq (rs : list regex) : regex := fold_right Cat Eps rs.

(** A literal word under the [i] flag. *)
Definition lit_i (w : string) : regex := seq (map chr_i (str w)).

Definition alt (rs : list regex) : regex :=
  match rs with
  | [] => Chr (fun _ => false)
  | r :: rs' => fold_left Alt rs' r
  end.

(** [[:\s]] and [\d] *)
Definition colon_or_space : regex := Chr (fun c => (c =? 58)%N || is_space c).
Definition digit : regex := Chr is_digit.

(** ** The language of a pattern *)

Fixpoint lang (r : regex) : jsstring -> Prop :=
  match r with
  | Eps => fun w => w = []
  | Chr p => fun w => exists c, w = [c] /\ p c = true
  | Cat a b => fun w => exists u v, w = u ++ v /\ lang a u /\ lang b v
  | Alt a b => fun w => lang a w \/ lang b w
  | Star a => fun w => exists ws, w = concat ws /\ Forall (lang a) ws
  | Group a => lang a
  end.

(** [s] has a substring in the language of [r]. *)
Definition occurs (r : regex) (s : jsstring) : Prop :=
  exists pre w post, s = pre ++ w ++ post /\ lang r w.

(** Bodies of the groups of a pattern. *)
Fixpoint groups (r : regex) : list regex :=
  match r with
  | Eps | Chr _ => []
  | Cat a b | Alt a b => groups a ++ groups b
  | Star a => groups a
  | Group a => a :: groups a
  end.

(** Every match of the pattern goes through a group. *)
Fixpoint sets_group (r : regex) : bool :=
  match r with
  | Eps | Chr _ | Star _ => false
  | Cat a b => sets_group a || sets_group b
  | Alt a b => sets_group a && sets_group b
  | Group _ => true
  end.

End Regex.

(* ================================================================== *)
(** * Zod schemas over parsed JSON *)
(* ================================================================== *)

Module Zod.

(** A request body as [express.json()] hands it over.  An object is the
    list of its own properties. *)
#[local] Unset Elimination Schemes.
Inductive json :=
| JNull
| JBool (b : bool)
| JNum (q : Q)
| JStr (s : jsstring)
| JArr (items : list json)
| JObj (props : list (jsstring * json)).
#[local] Set Elimination Schemes.

(** [o[k]], [None] standing for [undefined]. *)
Fixpoint get {A : Type} (k : jsstring) (o : list (jsstring * A)) : option A :=
  match o with
  | [] => None
  | (k', x) :: o' => if JS.eqb k k' then Some x else get k o'
  end.

(** The schema combinators in use: [z.string()], [z.number()],
    [z.enum([...])] and [.optional()] on top of them. *)
Inductive ztype :=
| ZString
| ZNumber
| ZEnum (options : list jsstring).

Record field := { ty : ztype; is_optional : bool }.

Definition string_ : field := {| ty := ZString; is_optional := false |}.
Definition number_ : field := {| ty := ZNumber; is_optional := false |}.
Definition enum_ (options : list jsstring) : field :=
  {| ty := ZEnum options; is_optional := false |}.
Definition optional (f : field) : field :=
  {| ty := ty f; is_optional := true |}.

(** [z.object({...})]: the keys in declaration order. *)
Definition shape := list (jsstring * field).

Inductive ZodIssueCode :=
| invalid_type
| invalid_enum_value.

(** One entry of [error.errors]: what is wrong and at which path. *)
Record ZodIssue := {
  code : ZodIssueCode;
  path : list jsstring
}.

(** A validated object: the declared keys that were given, with their
    values; unknown keys are stripped. *)
Definition object := list (jsstring * value).

(** [validatedData.k] *)
Definition prop (o : object) (k : string) : value :=
  match get (str k) o with
  | Some v => v
  | None => Undefined
  end.

Definition parse_type (t : ztype) (j : json) : ZodIssueCode + value :=
  match t, j with
  | ZString, JStr s => inr (Str s)
  | ZNumber, JNum q => inr (Num (Fin q))
  | ZEnum options, JStr s =>
      if existsb (JS.eqb s) options then inr (Str s)
      else inl invalid_enum_value
  | _, _ => inl invalid_type
  end.

(** A key that is absent reads as [undefined]: accepted by an optional
    field, a type error for a required one. *)
Definition parse_field (f : field) (x : option json) : ZodIssueCode + value :=
  match x with
  | None => if is_optional f then inr Undefined else inl invalid_type
  | Some j => parse_type (ty f) j
  end.

(** The issues of all keys, in declaration order, next to the values of
    the keys that passed. *)
Fixpoint parse_shape (sh : shape) (o : list (jsstring * json))
  : list ZodIssue * object :=
  match sh with
  | [] => ([], [])
  | (k, f) :: sh' =>
      let (issues, vs) := parse_shape sh' o in
      match parse_field f (get k o) with
      | inl c => ({| code := c; path := [k] |} :: issues, vs)
      | inr Undefined => (issues, vs)
      | inr v => (issues, (k, v) :: vs)
      end
  end.

(** [schema.parse(body)]: the validated object, or the issues a [ZodError]
    carries. *)
Definition parse (sh : shape) (body : json) : list ZodIssue + object :=
  match body with
  | JObj o =>
      match parse_shape sh o with
      | ([], vs) => inr vs
      | (issues, _) => inl issues
      end
  | _ => inl [ {| code := invalid_type; path := [] |} ]
  end.

End Zod.

(* ================================================================== *)
(** * Effects: the clock, the agent and exceptions *)
(* ================================================================== *)

Module Effects.

(** What is thrown: an [Error] with its message (the pipeline's own, or
    what a collaborator fails with), the [ZodError] of a failed [parse],
    which is an [Error] too, or any value that is no instance of [Error]:
    a collaborator may reject with a string or a plain object.  The code
    never looks into such a value; [id] tells two of them apart. *)
Inductive exn :=
| Error (message : jsstring)
| ZodError (errors : list Zod.ZodIssue)
| NotAnError (id : nat).

Record Message := { role : jsstring; content : jsstring }.

(** [response.textStream]: the fragments it yields, and the error it ends
    with when the stream breaks after them. *)
Record TextStream := {
  chunks : list jsstring;
  failure : option exn
}.

(** The agent is an opaque collaborator: [stream] either rejects or
    resolves to a response with a text stream. *)
Record Agent := { stream : list Message -> exn + TextStream }.

(** The Mastra instance, as far as the pipeline uses it.  [getAgent] is
    as the code reads it: a lookup whose result is tested for being
    there. *)
Record Mastra := { getAgent : jsstring -> option Agent }.

(** What a request leaves behind: how often the clock was read and the
    calls made to the agent, oldest first. *)
Record World := {
  ticks : nat;
  calls : list (list Message)
}.

Inductive Outcome (A : Type) :=
| Return (a : A)
| Throw (e : exn).
Arguments Return {A} a.
Arguments Throw {A} e.

Definition M (A : Type) := World -> Outcome A * World.

Definition ret {A} (a : A) : M A := fun w => (Return a, w).

Definition throw {A} (e : exn) : M A := fun w => (Throw e, w).

Definition bind {A B} (c : M A) (k : A -> M B) : M B :=
  fun w =>
    match c w with
    | (Return a, w') => k a w'
    | (Throw e, w') => (Throw e, w')
    end.

(** [try { c } catch (error) { handler }] *)
Definition try_catch {A} (c : M A) (handler : exn -> M A) : M A :=
  fun w =>
    match c w with
    | (Return a, w') => (Return a, w')
    | (Throw e, w') => handler e w'
    end.

Declare Scope js_scope.
Delimit Scope js_scope with js.
Notation "x <- c ;; k" := (bind c (fun x => k))
  (at level 61, c at next level, right associativity) : js_scope.
Notation "c ;;; k" := (bind c (fun _ => k))
  (at level 61, right associativity) : js_scope.

Section WithHost.
Context {host : Host}.

(** [Date.now()] *)
Definition Date_now : M number :=
  fun w => (Return (num (clock (ticks w))),
            {| ticks := S (ticks w); calls := calls w |}).

(** [await agent.stream(messages)] *)
Definition call_stream (agent : Agent) (messages : list Message)
  : M TextStream :=
  fun w =>
    let w' := {| ticks := ticks w; calls := calls w ++ [messages] |} in
    match stream agent messages with
    | inl e => (Throw e, w')
    | inr response => (Return response, w')
    end.

(** The text a stream adds up to: [text += chunk] for every fragment. *)
Definition text_of (textStream : TextStream) : jsstring :=
  fold_left (fun text chunk => text ++ chunk) (chunks textStream) [].

(** [let text = ''; for await (const chunk of textStream) text += chunk;]
    A stream that breaks throws out of the loop. *)
Definition read_all (textStream : TextStream) : M jsstring :=
  match failure textStream with
  | None => ret (text_of textStream)
  | Some e => throw e
  end.

End WithHost.

End Effects.

Import Effects.
Local Open Scope js_scope.

(* ================================================================== *)
(** * The analysis prompt *)
(* ================================================================== *)

Module Prompt.
Section WithHost.
Context {host : Host}.

Definition header : list jsstring :=
  [ str "Analyze this TradingView alert and provide a detailed trading recommendation:";
    [];
    str "ALERT DATA:" ].

Definition footer : list jsstring :=
  [ [];
    str "Please provide a comprehensive analysis including:";
    str "1. Current market sentiment for this symbol";
    str "2. Technical analysis based on the alert data";
    str "3. Risk assessment";
    str "4. Recommended action (buy/sell/hold) with confidence level";
    str "5. Target price and stop loss if applicable";
    str "6. Position sizing recommendation";
    str "7. Reasoning for the recommendation";
    [];
    str "Format your response as a structured analysis that can be used for automated trading decisions." ].

(** A line of the ALERT DATA block: [- Label: text]. *)
Definition labelled (label : string) (text : jsstring) : jsstring :=
  str "- " ++ str label ++ str ": " ++ text.

(** [${field || 'placeholder'}] *)
Definition or_else (field : value) (placeholder : string) : jsstring :=
  ToString (JS.or field (Str (str placeholder))).

(** The ten lines of the ALERT DATA block.  The arguments are the fields
    of the alert as the template reads them. *)
Definition alertLines
  (symbol price action strategy timeframe exchange volume rsi macd message
   : value) : list jsstring :=
  [ str "- Symbol: " ++ ToString symbol;
    str "- Price: $" ++ ToString price;
    str "- Action: " ++ ToString action;
    str "- Strategy: " ++ or_else strategy "Not specified";
    str "- Timeframe: " ++ or_else timeframe "Not specified";
    str "- Exchange: " ++ or_else exchange "Not specified";
    str "- Volume: " ++ or_else volume "Not available";
    str "- RSI: " ++ or_else rsi "Not available";
    str "- MACD: " ++ or_else macd "Not available";
    str "- Message: " ++ or_else message "No additional message" ].

(** The template literal both the webhook handler and [analyzeAlert]
    build, line by line. *)
Definition prompt
  (symbol price action strategy timeframe exchange volume rsi macd message
   : value) : jsstring :=
  join nl
    (header
     ++ alertLines symbol price action strategy timeframe exchange
          volume rsi macd message
     ++ footer).

End WithHost.
End Prompt.

(* ================================================================== *)
(** * The webhook handler *)
(* ================================================================== *)

Module Webhook.

(** Validation schema for the TradingView webhook payload. *)
Definition tradingViewWebhookSchema : Zod.shape :=
  [ (str "symbol", Zod.string_);
    (str "price", Zod.number_);
    (str "action", Zod.enum_ [str "buy"; str "sell"; str "alert"]);
    (str "strategy", Zod.optional Zod.string_);
    (str "timeframe", Zod.optional Zod.string_);
    (str "exchange", Zod.optional Zod.string_);
    (str "timestamp", Zod.optional Zod.number_);
    (str "message", Zod.optional Zod.string_);
    (str "volume", Zod.optional Zod.number_);
    (str "rsi", Zod.optional Zod.number_);
    (str "macd", Zod.optional Zod.string_);
    (str "alert_name", Zod.optional Zod.string_);
    (str "chart_time", Zod.optional Zod.number_);
    (str "bar_index", Zod.optional Zod.number_);
    (str "bar_time", Zod.optional Zod.number_);
    (str "close", Zod.optional Zod.number_);
    (str "high", Zod.optional Zod.number_);
    (str "low", Zod.optional Zod.number_);
    (str "open", Zod.optional Zod.number_);
    (str "volume_24h", Zod.optional Zod.number_) ].

(** The object literal [alertData]. *)
Record AlertData := {
  symbol : value;
  price : value;
  action : value;
  strategy : value;
  timeframe : value;
  exchange : value;
  timestamp : value;
  message : value;
  volume : value;
  rsi : value;
  macd : value
}.

(** The three JSON bodies the handler sends; [success] is [true] in the
    first and [false] in the other two. *)
Inductive ResponseBody :=
| Processed (message logId analysis : jsstring)
| Invalid (message : jsstring) (errors : list Zod.ZodIssue)
| Failed (message error : jsstring).

Record Response := { status : nat; body : ResponseBody }.

Section WithHost.
Context {host : Host}.

(** Transform TradingView data to our format.  The clock is read only
    when neither [timestamp] nor [bar_time] is truthy. *)
Definition alertData (validatedData : Zod.object) : M AlertData :=
  timestamp <-
    (let given :=
       JS.or (Zod.prop validatedData "timestamp")
             (Zod.prop validatedData "bar_time") in
     if ToBoolean given then ret given
     else (now <- Date_now ;; ret (Num now))) ;;
  ret {| symbol := Zod.prop validatedData "symbol";
         price :=
           JS.or (JS.or (Zod.prop validatedData "price")
                        (Zod.prop validatedData "close"))
                 (Num (num 0));
         action := Zod.prop validatedData "action";
         strategy :=
           JS.or (Zod.prop validatedData "strategy")
                 (Zod.prop validatedData "alert_name");
         timeframe := Zod.prop validatedData "timeframe";
         exchange := Zod.prop validatedData "exchange";
         timestamp := timestamp;
         message := Zod.prop validatedData "message";
         volume :=
           JS.or (Zod.prop validatedData "volume")
                 (Zod.prop validatedData "volume_24h");
         rsi := Zod.prop validatedData "rsi";
         macd := Zod.prop validatedData "macd" |}.

Definition prompt (a : AlertData) : jsstring :=
  Prompt.prompt (symbol a) (price a) (action a) (strategy a) (timeframe a)
    (exchange a) (volume a) (rsi a) (macd a) (message a).

(** The body of the [try] block of [POST /webhook/tradingview]. *)
Definition process (mastra : Mastra) (req_body : Zod.json) : M Response :=
  validatedData <-
    match Zod.parse tradingViewWebhookSchema req_body with
    | inr v => ret v
    | inl issues => throw (ZodError issues)
    end ;;
  alert <- alertData validatedData ;;
  tradingAgent <-
    match getAgent mastra (str "tradingAgent") with
    | Some agent => ret agent
    | None => throw (Error (str "Trading agent not found"))
    end ;;
  response <-
    call_stream tradingAgent
      [ {| role := str "user"; content := prompt alert |} ] ;;
  analysisText <- read_all response ;;
  logId <- (now <- Date_now ;; ret (str "log_" ++ ToString (Num now))) ;;
  Date_now ;;;
  ret {| status := 200;
         body := Processed (str "TradingView alert processed successfully")
                   logId analysisText |}.

(** [app.post('/webhook/tradingview', ...)]: the response sent. *)
Definition post_webhook_tradingview (mastra : Mastra) (req_body : Zod.json)
  : M Response :=
  try_catch (process mastra req_body)
    (fun error =>
       match error with
       | ZodError errors =>
           ret {| status := 400;
                  body := Invalid (str "Invalid webhook data") errors |}
       | Error message =>
           ret {| status := 500;
                  body := Failed (str "Internal server error") message |}
       | NotAnError _ =>
           ret {| status := 500;
                  body := Failed (str "Internal server error")
                            (str "Unknown error") |}
       end).

End WithHost.
End Webhook.

(* ================================================================== *)
(** * The trading workflow *)
(* ================================================================== *)

Module Workflow.

(** [tradingViewAlertSchema]: what [analyzeAlert] takes. *)
Module Alert.
Record t := {
  symbol : jsstring;
  price : number;
  action : jsstring;
  strategy : option jsstring;
  timeframe : option jsstring;
  exchange : option jsstring;
  timestamp : number;
  message : option jsstring;
  volume : option number;
  rsi : option number;
  macd : option jsstring
}.
End Alert.

(** [tradingAnalysisSchema]: what [analyzeAlert] returns and
    [executeTrade] takes.  The schema declares [recommendedAction] and
    [riskLevel] as enums and [confidence] as a number between 0 and 100;
    the fields hold whatever the step puts there. *)
Module Analysis.
Record t := {
  symbol : jsstring;
  currentPrice : number;
  recommendedAction : jsstring;
  confidence : number;
  reasoning : jsstring;
  riskLevel : jsstring;
  targetPrice : option number;
  stopLoss : option number;
  positionSize : option number;
  timeframe : jsstring
}.
End Analysis.

(** The output of [executeTrade]. *)
Module Execution.
Record t := {
  executed : bool;
  tradeId : option jsstring;
  message : jsstring;
  timestamp : number
}.
End Execution.

Module Logging.
Record t := { logged : bool; logId : jsstring }.
End Logging.

(** [/confidence[:\s]*(\d+)%/i] *)
Definition confidence_re : Regex.regex :=
  Regex.seq [ Regex.lit_i "confidence";
              Regex.Star Regex.colon_or_space;
              Regex.Group (Regex.Plus Regex.digit);
              Regex.chr 37 ].

(** [/recommended action[:\s]*(buy|sell|hold)/i] *)
Definition action_re : Regex.regex :=
  Regex.seq [ Regex.lit_i "recommended action";
              Regex.Star Regex.colon_or_space;
              Regex.Group (Regex.alt [ Regex.lit_i "buy";
                                       Regex.lit_i "sell";
                                       Regex.lit_i "hold" ]) ].

(** [/risk level[:\s]*(low|medium|high)/i] *)
Definition risk_re : Regex.regex :=
  Regex.seq [ Regex.lit_i "risk level";
              Regex.Star Regex.colon_or_space;
              Regex.Group (Regex.alt [ Regex.lit_i "low";
                                       Regex.lit_i "medium";
                                       Regex.lit_i "high" ]) ].

(** Parse the analysis to extract structured data. *)
Definition extract_confidence (analysisText : jsstring) : number :=
  match Regex.search confidence_re analysisText with
  | Some confidenceMatch => parseInt (Regex.capture1 confidenceMatch)
  | None => num 50
  end.

Definition extract_action (analysisText : jsstring) : jsstring :=
  match Regex.search action_re analysisText with
  | Some actionMatch => Regex.capture1 actionMatch
  | None => str "hold"
  end.

Definition extract_risk (analysisText : jsstring) : jsstring :=
  match Regex.search risk_re analysisText with
  | Some riskMatch => Regex.capture1 riskMatch
  | None => str "medium"
  end.

Section WithHost.
Context {host : Host}.

Definition alertLines (inputData : Alert.t) : list jsstring :=
  Prompt.alertLines
    (Str (Alert.symbol inputData))
    (Num (Alert.price inputData))
    (Str (Alert.action inputData))
    (of_str (Alert.strategy inputData))
    (of_str (Alert.timeframe inputData))
    (of_str (Alert.exchange inputData))
    (of_num (Alert.volume inputData))
    (of_num (Alert.rsi inputData))
    (of_str (Alert.macd inputData))
    (of_str (Alert.message inputData)).

Definition analysisPrompt (inputData : Alert.t) : jsstring :=
  Prompt.prompt
    (Str (Alert.symbol inputData))
    (Num (Alert.price inputData))
    (Str (Alert.action inputData))
    (of_str (Alert.strategy inputData))
    (of_str (Alert.timeframe inputData))
    (of_str (Alert.exchange inputData))
    (of_num (Alert.volume inputData))
    (of_num (Alert.rsi inputData))
    (of_str (Alert.macd inputData))
    (of_str (Alert.message inputData)).

(** [const agent = mastra?.getAgent('tradingAgent'); if (!agent) throw ...] *)
Definition requireAgent (mastra : option Mastra) : M Agent :=
  match mastra with
  | Some m =>
      match getAgent m (str "tradingAgent") with
      | Some agent => ret agent
      | None => throw (Error (str "Trading agent not found"))
      end
  | None => throw (Error (str "Trading agent not found"))
  end.

(** The tail of [analyzeAlert]: the three extractions and the object the
    step returns. *)
Definition parseAnalysis (inputData : Alert.t) (analysisText : jsstring)
  : Analysis.t :=
  let confidence := extract_confidence analysisText in
  let recommendedAction := extract_action analysisText in
  let riskLevel := extract_risk analysisText in
  {| Analysis.symbol := Alert.symbol inputData;
     Analysis.currentPrice := Alert.price inputData;
     Analysis.recommendedAction := recommendedAction;
     Analysis.confidence := confidence;
     Analysis.reasoning := analysisText;
     Analysis.riskLevel := riskLevel;
     Analysis.targetPrice := None;
     Analysis.stopLoss := None;
     Analysis.positionSize := None;
     Analysis.timeframe :=
       match JS.or (of_str (Alert.timeframe inputData)) (Str (str "1h")) with
       | Str s => s
       | _ => str "1h"
       end |}.

(** Step 1: analyze the TradingView alert. *)
Definition analyzeAlert (inputData : option Alert.t) (mastra : option Mastra)
  : M Analysis.t :=
  match inputData with
  | None => throw (Error (str "Alert data not found"))
  | Some inputData =>
      agent <- requireAgent mastra ;;
      response <-
        call_stream agent
          [ {| role := str "user"; content := analysisPrompt inputData |} ] ;;
      analysisText <- read_all response ;;
      ret (parseAnalysis inputData analysisText)
  end.

Definition executionPrompt (inputData : Analysis.t) : jsstring :=
  join nl
    [ str "Execute a " ++ Analysis.recommendedAction inputData
        ++ str " trade for " ++ Analysis.symbol inputData ++ str ":";
      [];
      str "    Analysis Summary:";
      str "    - Symbol: " ++ Analysis.symbol inputData;
      str "    - Current Price: $"
        ++ ToString (Num (Analysis.currentPrice inputData));
      str "    - Action: " ++ Analysis.recommendedAction inputData;
      str "    - Confidence: "
        ++ ToString (Num (Analysis.confidence inputData)) ++ str "%";
      str "    - Risk Level: " ++ Analysis.riskLevel inputData;
      str "    - Reasoning: "
        ++ substring0 (Analysis.reasoning inputData) 200 ++ str "...";
      [];
      str "    Please execute this trade using the available trading tools." ].

(** Step 2: execute the trading decision. *)
Definition executeTrade (inputData : option Analysis.t) (mastra : option Mastra)
  : M Execution.t :=
  match inputData with
  | None => throw (Error (str "Analysis data not found"))
  | Some inputData =>
      agent <- requireAgent mastra ;;
      (* Only execute if confidence is high enough and action is not 'hold' *)
      if ltb (Analysis.confidence inputData) (num 70)
         || JS.eqb (Analysis.recommendedAction inputData) (str "hold")
      then
        now <- Date_now ;;
        ret {| Execution.executed := false;
               Execution.tradeId := None;
               Execution.message :=
                 str "Trade not executed: "
                 ++ (if JS.eqb (Analysis.recommendedAction inputData)
                              (str "hold")
                     then str "Hold recommendation"
                     else str "Low confidence");
               Execution.timestamp := now |}
      else
        response <-
          call_stream agent
            [ {| role := str "user";
                 content := executionPrompt inputData |} ] ;;
        executionResult <- read_all response ;;
        id <- Date_now ;;
        now <- Date_now ;;
        ret {| Execution.executed := true;
               Execution.tradeId := Some (str "trade_" ++ ToString (Num id));
               Execution.message :=
                 str "Trade executed: "
                 ++ Analysis.recommendedAction inputData ++ str " "
                 ++ Analysis.symbol inputData ++ str " at $"
                 ++ ToString (Num (Analysis.currentPrice inputData));
               Execution.timestamp := now |}
  end.

(** Step 3: log the trading event. *)
Definition logTradeEvent (inputData : option Execution.t) : M Logging.t :=
  match inputData with
  | None => throw (Error (str "Trade event data not found"))
  | Some _ =>
      id <- Date_now ;;
      Date_now ;;;
      ret {| Logging.logged := true;
             Logging.logId := str "log_" ++ ToString (Num id) |}
  end.

End WithHost.
End Workflow.

(* ================================================================== *)
(** * The specification's own wording, for comparison *)
(* ================================================================== *)

Module Spec.

(** The Decision Gate of the specification: [Skip] if
    [recommendedAction == hold] or [confidence < 70]. *)
Definition skips (a : Workflow.Analysis.t) : Prop :=
  Workflow.Analysis.recommendedAction a = str "hold"
  \/ Lt (Workflow.Analysis.confidence a) (num 70).

(** The Alert Normalizer of the specification:
    [price := price ?? close ?? 0], [strategy := strategy ?? alert_name],
    [timestamp := timestamp ?? bar_time ?? currentTime()],
    [volume := volume ?? volume_24h].  [now] is [currentTime()]. *)
Definition normalize (raw : Zod.object) (now : number) : Webhook.AlertData :=
  {| Webhook.symbol := Zod.prop raw "symbol";
     Webhook.price :=
       nullish (nullish (Zod.prop raw "price") (Zod.prop raw "close"))
         (Num (num 0));
     Webhook.action := Zod.prop raw "action";
     Webhook.strategy :=
       nullish (Zod.prop raw "strategy") (Zod.prop raw "alert_name");
     Webhook.timeframe := Zod.prop raw "timeframe";
     Webhook.exchange := Zod.prop raw "exchange";
     Webhook.timestamp :=
       nullish (nullish (Zod.prop raw "timestamp") (Zod.prop raw "bar_time"))
         (Num now);
     Webhook.message := Zod.prop raw "message";
     Webhook.volume :=
       nullish (Zod.prop raw "volume") (Zod.prop raw "volume_24h");
     Webhook.rsi := Zod.prop raw "rsi";
     Webhook.macd := Zod.prop raw "macd" |}.

(** [body.k] of a request body, [None] when the body is no object or has
    no such key. *)
Definition field_of (body : Zod.json) (k : string) : option Zod.json :=
  match body with
  | Zod.JObj o => Zod.get (str k) o
  | _ => None
  end.

(** The offending fields of the Validator contract: a [symbol] that is not
    a non-empty string, a [price] that is not numeric, an [action] that is
    not one of the accepted values; and, for comparison, a field that is
    not a string at all. *)
Definition not_a_nonempty_string (x : option Zod.json) : Prop :=
  forall c s, x <> Some (Zod.JStr (c :: s)).

Definition not_a_string (x : option Zod.json) : Prop :=
  forall s, x <> Some (Zod.JStr s).

Definition not_numeric (x : option Zod.json) : Prop :=
  forall q, x <> Some (Zod.JNum q).

Definition not_among (options : list jsstring) (x : option Zod.json) : Prop :=
  forall s, In s options -> x <> Some (Zod.JStr s).

Definition actions : list jsstring := [str "buy"; str "sell"; str "alert"].

(** A field that is given is truthy: not [0], not [""]. *)
Definition given_is_truthy (raw : Zod.object) (k : string) : Prop :=
  Zod.prop raw k = Undefined \/ ToBoolean (Zod.prop raw k) = true.

End Spec.

(* ================================================================== *)
(** * Concrete hosts, agents and inputs *)
(* ================================================================== *)

Module Examples.

Definition show_int (z : Z) : jsstring :=
  str (NilEmpty.string_of_int (Z.to_int z)).

(** A host whose clock starts at a fixed instant and advances by a
    millisecond per read.  Integer-valued numbers print in decimal, as
    JavaScript prints them below 1e21; the examples use no others. *)
#[local] Instance host : Host := {|
  Number_toString := fun n =>
    match n with
    | NaN => str "NaN"
    | Fin q =>
        let r := Qred q in
        if (Qden r =? 1)%positive then show_int (Qnum r)
        else show_int (Qnum r) ++ str "/" ++ show_int (Zpos (Qden r))
    | Infinity => str "Infinity"
    | NegInfinity => str "-Infinity"
    end;
  clock := fun k => (1700000000000 + Z.of_nat k)%Z
|}.

Definition registry (a : Agent) : Mastra :=
  {| getAgent := fun name =>
       if JS.eqb name (str "tradingAgent") then Some a else None |}.

(** An agent that answers every prompt with the given fragments. *)
Definition answering (fragments : list jsstring) : Agent :=
  {| stream := fun _ => inr {| chunks := fragments; failure := None |} |}.

(** An agent whose call is rejected. *)
Definition rejecting : Agent :=
  {| stream := fun _ => inl (Error (str "429 quota exceeded")) |}.

(** An agent whose stream breaks after a first fragment. *)
Definition breaking : Agent :=
  {| stream := fun _ =>
       inr {| chunks := [str "Submitting order"];
              failure := Some (Error (str "socket hang up")) |} |}.

Definition start : World := {| ticks := 0; calls := [] |}.

Definition analysis (action : string) (confidence : Z) : Workflow.Analysis.t :=
  {| Workflow.Analysis.symbol := str "BTCUSDT";
     Workflow.Analysis.currentPrice := num 45000;
     Workflow.Analysis.recommendedAction := str action;
     Workflow.Analysis.confidence := num confidence;
     Workflow.Analysis.reasoning := str "RSI below 30, momentum turning up";
     Workflow.Analysis.riskLevel := str "low";
     Workflow.Analysis.targetPrice := None;
     Workflow.Analysis.stopLoss := None;
     Workflow.Analysis.positionSize := None;
     Workflow.Analysis.timeframe := str "1h" |}.

Definition alert : Workflow.Alert.t :=
  {| Workflow.Alert.symbol := str "BTCUSDT";
     Workflow.Alert.price := num 45000;
     Workflow.Alert.action := str "buy";
     Workflow.Alert.strategy := None;
     Workflow.Alert.timeframe := Some (str "1h");
     Workflow.Alert.exchange := Some (str "binance");
     Workflow.Alert.timestamp := num 1700000000000;
     Workflow.Alert.message := Some (str "RSI below 30");
     Workflow.Alert.volume := None;
     Workflow.Alert.rsi := None;
     Workflow.Alert.macd := None |}.

(** An alert with the required fields only. *)
Definition bare_alert : Workflow.Alert.t :=
  {| Workflow.Alert.symbol := str "ETHUSDT";
     Workflow.Alert.price := num 3000;
     Workflow.Alert.action := str "sell";
     Workflow.Alert.strategy := None;
     Workflow.Alert.timeframe := None;
     Workflow.Alert.exchange := None;
     Workflow.Alert.timestamp := num 1700000000000;
     Workflow.Alert.message := None;
     Workflow.Alert.volume := None;
     Workflow.Alert.rsi := None;
     Workflow.Alert.macd := None |}.

(** The same alert with every optional field given but falsy. *)
Definition falsy_alert : Workflow.Alert.t :=
  {| Workflow.Alert.symbol := str "BTCUSDT";
     Workflow.Alert.price := num 45000;
     Workflow.Alert.action := str "buy";
     Workflow.Alert.strategy := Some [];
     Workflow.Alert.timeframe := Some [];
     Workflow.Alert.exchange := Some [];
     Workflow.Alert.timestamp := num 1700000000000;
     Workflow.Alert.message := Some [];
     Workflow.Alert.volume := Some (num 0);
     Workflow.Alert.rsi := Some (num 0);
     Workflow.Alert.macd := Some [] |}.

(** [{symbol:"BTCUSDT"}]: no [price], no [action]. *)
Definition malformed : Zod.json :=
  Zod.JObj [ (str "symbol", Zod.JStr (str "BTCUSDT")) ].

(** [{symbol:"", price:45000, action:"buy"}] *)
Definition empty_symbol : Zod.json :=
  Zod.JObj [ (str "symbol", Zod.JStr []);
             (str "price", Zod.JNum (inject_Z 45000));
             (str "action", Zod.JStr (str "buy")) ].

(** [{symbol:"BTCUSDT", price:0, action:"buy", close:45000}] *)
Definition zero_price : Zod.json :=
  Zod.JObj [ (str "symbol", Zod.JStr (str "BTCUSDT"));
             (str "price", Zod.JNum (inject_Z 0));
             (str "action", Zod.JStr (str "buy"));
             (str "close", Zod.JNum (inject_Z 45000)) ].

(** The payload of [test-webhook.js]. *)
Definition testAlert : Zod.json :=
  Zod.JObj [ (str "symbol", Zod.JStr (str "BTCUSDT"));
             (str "price", Zod.JNum (inject_Z 45000));
             (str "action", Zod.JStr (str "buy"));
             (str "timeframe", Zod.JStr (str "1h"));
             (str "exchange", Zod.JStr (str "binance"));
             (str "message",
              Zod.JStr (str "RSI below 30, potential buy signal detected")) ].

End Examples.

(* ================================================================== *)
(** * The rest of the webhook server *)
(* ================================================================== *)

Module Server.

(** [error.message] of a [ZodError] is the issues printed as JSON, which
    the model takes as given. *)
Class ErrorText := { ZodError_message : list Zod.ZodIssue -> jsstring }.

(** The two JSON bodies of [POST /test/trigger-analysis]. *)
Inductive TestBody :=
| Executed (message analysis : jsstring)
| TestFailed (message error : jsstring).

Record TestResponse := { status : nat; body : TestBody }.

Section WithHost.
Context {host : Host} {errorText : ErrorText}.

(** [error instanceof Error ? error.message : 'Unknown error'] *)
Definition message_of (error : exn) : jsstring :=
  match error with
  | Error message => message
  | ZodError errors => ZodError_message errors
  | NotAnError _ => str "Unknown error"
  end.

(** The prompt of the test endpoint: the fields of [testData] printed as
    they are, without placeholders. *)
Definition testPrompt : jsstring :=
  join nl
    ([ str "Analyze this test TradingView alert and provide a detailed trading recommendation:";
       [];
       str "ALERT DATA:";
       str "- Symbol: " ++ str "BTCUSDT";
       str "- Price: $" ++ ToString (Num (num 45000));
       str "- Action: " ++ str "buy";
       str "- Strategy: " ++ str "RSI Oversold";
       str "- Timeframe: " ++ str "1h";
       str "- Exchange: " ++ str "binance";
       str "- Volume: " ++ ToString (Num (num 1000000));
       str "- RSI: " ++ ToString (Num (num 30));
       str "- MACD: " ++ str "bullish";
       str "- Message: " ++ str "Test alert from manual trigger" ]
     ++ Prompt.footer).

(** [app.post('/test/trigger-analysis', ...)].  Building [testData] reads
    the clock once; the request is not looked at. *)
Definition post_test_trigger_analysis (mastra : Mastra) : M TestResponse :=
  try_catch
    (Date_now ;;;
     tradingAgent <-
       match getAgent mastra (str "tradingAgent") with
       | Some agent => ret agent
       | None => throw (Error (str "Trading agent not found"))
       end ;;
     response <-
       call_stream tradingAgent
         [ {| role := str "user"; content := testPrompt |} ] ;;
     analysisText <- read_all response ;;
     ret {| status := 200;
            body := Executed (str "Test analysis executed successfully")
                      analysisText |})
    (fun error =>
       ret {| status := 500;
              body := TestFailed (str "Error executing test analysis")
                        (message_of error) |}).

End WithHost.
End Server.

(* ================================================================== *)
(** * The demonstration server *)
(* ================================================================== *)

Module Demo.

(** The validation schema of the demo handler: six keys, and no
    ['alert'] among the actions. *)
Definition tradingViewWebhookSchema : Zod.shape :=
  [ (str "symbol", Zod.string_);
    (str "price", Zod.number_);
    (str "action", Zod.enum_ [str "buy"; str "sell"]);
    (str "timeframe", Zod.optional Zod.string_);
    (str "exchange", Zod.optional Zod.string_);
    (str "message", Zod.optional Zod.string_) ].

End Demo.

(* ================================================================== *)
(** * The workflow as a whole *)
(* ================================================================== *)

Module Pipeline.
Import Workflow.

(** What a run of the workflow leaves: the output of each step. *)
Record Output := {
  analysis : Analysis.t;
  execution : Execution.t;
  logging : Logging.t
}.

Section WithHost.
Context {host : Host}.

(** [createWorkflow(...).then(analyzeAlert).then(executeTrade)
    .then(logTradeEvent)]: every step takes what the step before it
    returned, and a step that throws ends the run. *)
Definition tradingWorkflow (inputData : Alert.t) (mastra : option Mastra)
  : M Output :=
  analysis <- analyzeAlert (Some inputData) mastra ;;
  execution <- executeTrade (Some analysis) mastra ;;
  logging <- logTradeEvent (Some execution) ;;
  ret {| analysis := analysis; execution := execution; logging := logging |}.

End WithHost.
End Pipeline.

(* ================================================================== *)
(** * The Recall tools *)
(* ================================================================== *)

Module Recall.

Record Request := {
  url : jsstring;
  method : jsstring;
  headers : list (jsstring * jsstring);
  body : option jsstring
}.

(** A response of [fetch]: [json] is what [response.json()] resolves to,
    or the error it rejects with. *)
Record HttpResponse := {
  status : Z;
  statusText : jsstring;
  json : exn + Zod.json
}.

(** [response.ok]: the status is in the range 200-299. *)
Definition ok (response : HttpResponse) : bool :=
  (200 <=? status response)%Z && (status response <=? 299)%Z.

(** [fetch] is a collaborator: it rejects or resolves to a response. *)
Definition Fetch := Request -> exn + HttpResponse.

(** The environment variables, and the two serialisers the tools rely on:
    [new URLSearchParams(entries).toString()] and [JSON.stringify] of an
    object of strings, both taken as given. *)
Class Platform := {
  env : string -> option jsstring;
  URLSearchParams_toString : list (jsstring * jsstring) -> jsstring;
  JSON_stringify : list (jsstring * jsstring) -> jsstring
}.

(** [fromChain?: string] and the like: the input of the quote tool. *)
Module Quote.
Record t := {
  fromToken : jsstring;
  toToken : jsstring;
  amount : jsstring;
  fromChain : option jsstring;
  fromSpecificChain : option jsstring;
  toChain : option jsstring;
  toSpecificChain : option jsstring
}.
End Quote.

(** The input of the trade tool. *)
Module Trade.
Record t := {
  fromToken : jsstring;
  toToken : jsstring;
  amount : jsstring;
  reason : jsstring;
  slippageTolerance : option jsstring;
  fromChain : option jsstring;
  fromSpecificChain : option jsstring;
  toChain : option jsstring;
  toSpecificChain : option jsstring
}.
End Trade.

(** [...(x ? { k: x } : {})] *)
Definition spread_if (k : string) (x : option jsstring)
  : list (jsstring * jsstring) :=
  match x with
  | Some v => if ToBoolean (Str v) then [(str k, v)] else []
  | None => []
  end.

Section WithHost.
Context {host : Host} {platform : Platform}.

Definition BASE_URL : jsstring :=
  str "https://api.sandbox.competitions.recall.network/api".

Definition getHeaders : list (jsstring * jsstring) :=
  [ (str "accept", str "application/json");
    (str "Authorization",
     str "Bearer " ++ ToString (of_str (env "RECALL_API_KEY"))) ].

(** The tail every tool shares: one [fetch], then
    [if (!response.ok) throw new Error(`<label>: ${status} ${statusText}`)],
    then [return await response.json()].  The second component is the
    requests sent. *)
Definition send (fetch : Fetch) (request : Request) (label : string)
  : Outcome Zod.json * list Request :=
  (match fetch request with
   | inl e => Throw e
   | inr response =>
       if ok response then
         match json response with
         | inl e => Throw e
         | inr data => Return data
         end
       else
         Throw (Error (str label ++ str ": "
                       ++ ToString (Num (num (status response)))
                       ++ str " " ++ statusText response))
   end,
   [request]).

Definition get (path : string) : Request :=
  {| url := BASE_URL ++ str path;
     method := str "GET";
     headers := getHeaders;
     body := None |}.

Definition getRecallAgent (fetch : Fetch) :=
  send fetch (get "/agent/profile") "Recall API error".

Definition getRecallAgentPortfolio (fetch : Fetch) :=
  send fetch (get "/agent/portfolio") "Recall API error".

Definition getRecallAgentBalances (fetch : Fetch) :=
  send fetch (get "/agent/balances") "Recall API error".

Definition getRecallAgentTrades (fetch : Fetch) :=
  send fetch (get "/agent/trades") "Recall API error".

(** The entries the quote tool hands to [URLSearchParams]. *)
Definition quoteParams (context : Quote.t) : list (jsstring * jsstring) :=
  [ (str "fromToken", Quote.fromToken context);
    (str "toToken", Quote.toToken context);
    (str "amount", Quote.amount context) ]
  ++ spread_if "fromChain" (Quote.fromChain context)
  ++ spread_if "fromSpecificChain" (Quote.fromSpecificChain context)
  ++ spread_if "toChain" (Quote.toChain context)
  ++ spread_if "toSpecificChain" (Quote.toSpecificChain context).

Definition getRecallTradeQuote (fetch : Fetch) (context : Quote.t) :=
  send fetch
    {| url := BASE_URL ++ str "/trade/quote?"
              ++ URLSearchParams_toString (quoteParams context);
       method := str "GET";
       headers := getHeaders;
       body := None |}
    "Recall Trade Quote API error".

(** The object the trade tool posts. *)
Definition tradeBody (context : Trade.t) : list (jsstring * jsstring) :=
  [ (str "fromToken", Trade.fromToken context);
    (str "toToken", Trade.toToken context);
    (str "amount", Trade.amount context);
    (str "reason", Trade.reason context) ]
  ++ spread_if "slippageTolerance" (Trade.slippageTolerance context)
  ++ spread_if "fromChain" (Trade.fromChain context)
  ++ spread_if "fromSpecificChain" (Trade.fromSpecificChain context)
  ++ spread_if "toChain" (Trade.toChain context)
  ++ spread_if "toSpecificChain" (Trade.toSpecificChain context).

Definition executeRecallTrade (fetch : Fetch) (context : Trade.t) :=
  send fetch
    {| url := BASE_URL ++ str "/trade/execute";
       method := str "POST";
       headers := getHeaders
                  ++ [ (str "Content-Type", str "application/json") ];
       body := Some (JSON_stringify (tradeBody context)) |}
    "Recall Execute Trade API error".

End WithHost.
End Recall.

(* ================================================================== *)
(** * Notions the properties below are stated with *)
(* ================================================================== *)

Module Notions.

(** A JSON value of a request body as the value a validated field holds. *)
Definition to_value (x : option Zod.json) : value :=
  match x with
  | Some (Zod.JStr s) => Str s
  | Some (Zod.JNum q) => Num (Fin q)
  | _ => Undefined
  end.

(** Two request bodies give the same value to every key of a schema. *)
Definition agree_on (sh : Zod.shape) (o1 o2 : list (jsstring * Zod.json))
  : Prop :=
  forall k, In k (map fst sh) -> Zod.get k o1 = Zod.get k o2.

(** The number a run of decimal digits denotes. *)
Definition decimal (digits : jsstring) : N :=
  fold_left (fun acc c => (acc * 10 + (c - 48))%N) digits 0%N.

(** The class [[:\s]] of the three patterns. *)
Definition is_separator (c : N) : bool := (c =? 58)%N || is_space c.

(** Upper case of a word, code unit by code unit. *)
Definition upper (w : jsstring) : jsstring := map Regex.canonicalize w.

(** [w] stands in [text] as it is written there, right after the marker
    in some letter case and a run of colons and white space. *)
Definition written_after (marker : string) (w text : jsstring) : Prop :=
  exists pre word seps post,
    text = pre ++ word ++ seps ++ w ++ post
    /\ upper word = upper (str marker)
    /\ Forall (fun c => is_separator c = true) seps.

(** [mastra?.getAgent('tradingAgent')] *)
Definition tradingAgent (mastra : option Mastra) : option Agent :=
  match mastra with
  | Some m => getAgent m (str "tradingAgent")
  | None => None
  end.

(** An agent call that ends in the error [e]: [agent.stream] rejects with
    it, or the text stream breaks with it. *)
Definition fails_with (agent : Agent) (messages : list Message) (e : exn)
  : Prop :=
  stream agent messages = inl e
  \/ exists response,
       stream agent messages = inr response /\ failure response = Some e.

(** The body of a 500 answer of the webhook to an agent call that failed
    with [e]: [error.message] of an [Error], ["Unknown error"] for
    anything else. *)
Definition reports (b : Webhook.ResponseBody) (e : exn) : Prop :=
  (exists message,
      e = Error message
      /\ b = Webhook.Failed (str "Internal server error") message)
  \/ (exists id,
         e = NotAnError id
         /\ b = Webhook.Failed (str "Internal server error")
                 (str "Unknown error")).

End Notions.

(* ================================================================== *)
(** * More concrete hosts and inputs *)
(* ================================================================== *)

Module MoreExamples.

#[local] Instance errorText : Server.ErrorText := {|
  Server.ZodError_message := fun errors =>
    str "[" ++ Examples.show_int (Z.of_nat (length errors)) ++ str " issues]"
|}.

(** A platform without an API key in its environment.  The two
    serialisers are stand-ins that join the entries as [k=v&k=v] and
    [k:v,k:v]; no property depends on what they print. *)
#[local] Instance platform : Recall.Platform := {|
  Recall.env := fun _ => None;
  Recall.URLSearchParams_toString := fun entries =>
    join (str "&") (map (fun kv => fst kv ++ str "=" ++ snd kv) entries);
  Recall.JSON_stringify := fun entries =>
    join (str ",") (map (fun kv => fst kv ++ str ":" ++ snd kv) entries)
|}.

(** A server that answers every request with the given status and an
    empty object. *)
Definition answering_with (status : Z) (statusText : string) : Recall.Fetch :=
  fun _ => inr {| Recall.status := status;
                  Recall.statusText := str statusText;
                  Recall.json := inr (Zod.JObj []) |}.

Definition quote : Recall.Quote.t :=
  {| Recall.Quote.fromToken := str "USDC";
     Recall.Quote.toToken := str "WETH";
     Recall.Quote.amount := str "100";
     Recall.Quote.fromChain := Some (str "evm");
     Recall.Quote.fromSpecificChain := Some [];
     Recall.Quote.toChain := None;
     Recall.Quote.toSpecificChain := Some (str "base") |}.

(** The test payload with a key no schema declares, in another order. *)
Definition testAlert_extra : Zod.json :=
  Zod.JObj [ (str "note", Zod.JBool true);
             (str "action", Zod.JStr (str "buy"));
             (str "symbol", Zod.JStr (str "BTCUSDT"));
             (str "exchange", Zod.JStr (str "binance"));
             (str "price", Zod.JNum (inject_Z 45000));
             (str "timeframe", Zod.JStr (str "1h"));
             (str "message",
              Zod.JStr (str "RSI below 30, potential buy signal detected")) ].

(** [{symbol: 7, price: "45000", rsi: "low"}]: three offending keys and
    no action. *)
Definition thrice_wrong : Zod.json :=
  Zod.JObj [ (str "symbol", Zod.JNum (inject_Z 7));
             (str "price", Zod.JStr (str "45000"));
             (str "rsi", Zod.JStr (str "low")) ].

(** An agent that fails with a validation error of its own. *)
Definition zod_failing : Agent :=
  {| stream := fun _ =>
       inl (ZodError [ {| Zod.code := Zod.invalid_type;
                          Zod.path := [str "amount"] |} ]) |}.

(** An agent that rejects with a string, which is no [Error]. *)
Definition throwing_string : Agent :=
  {| stream := fun _ => inl (NotAnError 0) |}.

(** A Mastra instance in which no agent is registered. *)
Definition empty_registry : Mastra := {| getAgent := fun _ => None |}.

(** [{symbol, price, action: "alert"}] and [{..., volume: "high"}] *)
Definition alert_action : Zod.json :=
  Zod.JObj [ (str "symbol", Zod.JStr (str "BTCUSDT"));
             (str "price", Zod.JNum (inject_Z 45000));
             (str "action", Zod.JStr (str "alert")) ].

Definition worded_volume : Zod.json :=
  Zod.JObj [ (str "symbol", Zod.JStr (str "BTCUSDT"));
             (str "price", Zod.JNum (inject_Z 45000));
             (str "action", Zod.JStr (str "sell"));
             (str "volume", Zod.JStr (str "high")) ].

End MoreExamples.

(* ================================================================== *)
(** * Facts about strings, numbers and truthiness *)
(* ================================================================== *)

Module JSFacts.

Lemma eqb_spec (a b : jsstring) : reflect (a = b) (JS.eqb a b).
Proof.
  revert b; induction a as [|x a IH]; intros [|y b]; simpl;
    try (constructor; congruence).
  destruct (N.eqb_spec x y) as [->|Hxy]; simpl.
  - destruct (IH b) as [->|Hab]; constructor; congruence.
  - constructor; congruence.
Qed.

Lemma eqb_eq (a b : jsstring) : JS.eqb a b = true <-> a = b.
Proof. destruct (eqb_spec a b); split; congruence. Qed.

Lemma eqb_refl (a : jsstring) : JS.eqb a a = true.
Proof. now apply eqb_eq. Qed.

Lemma ltb_spec (a b : number) : reflect (Lt a b) (ltb a b).
Proof.
  destruct a as [|x| |], b as [|y| |]; simpl; try (constructor; tauto).
  destruct (Qle_bool y x) eqn:E; simpl; constructor.
  - apply Qle_bool_iff in E. now apply Qle_not_lt.
  - apply Qnot_le_lt. intro H. apply Qle_bool_iff in H. congruence.
Qed.

Lemma ltb_Lt (a b : number) : ltb a b = true <-> Lt a b.
Proof. destruct (ltb_spec a b); split; congruence. Qed.

(** [a || b] is [a] when [a] is truthy and [b] otherwise. *)
Lemma or_truthy (a b : value) : ToBoolean a = true -> JS.or a b = a.
Proof. unfold JS.or. now intros ->. Qed.

Lemma or_falsy (a b : value) : ToBoolean a = false -> JS.or a b = b.
Proof. unfold JS.or. now intros ->. Qed.

Lemma falsy_zero (q : Q) : (q == 0)%Q -> ToBoolean (Num (Fin q)) = false.
Proof.
  intro H. simpl. apply Qeq_bool_iff in H. now rewrite H.
Qed.

(** On what it does not let fall through, [??] agrees with [||]. *)
Lemma or_nullish (a b : value) :
  a = Undefined \/ ToBoolean a = true -> JS.or a b = nullish a b.
Proof.
  intros [->|H]; [reflexivity|].
  unfold JS.or. rewrite H. destruct a; simpl in *; congruence.
Qed.

(** A digit is neither white space nor a sign nor the [x] of a prefix. *)
Lemma digit_range (c : N) : is_digit c = true <-> (48 <= c <= 57)%N.
Proof.
  unfold is_digit. rewrite andb_true_iff, !N.leb_le. tauto.
Qed.

Lemma digit_not_space (c : N) : is_digit c = true -> is_space c = false.
Proof.
  intro H. apply digit_range in H. unfold is_space.
  repeat match goal with
         | |- context [(?a <=? ?b)%N] =>
             destruct (N.leb_spec a b); try lia
         | |- context [(?a =? ?b)%N] =>
             destruct (N.eqb_spec a b); try lia
         end; reflexivity.
Qed.

Lemma digit_value_dec (c : N) :
  is_digit c = true -> digit_value 10 c = Some (c - 48)%N.
Proof.
  intro H. unfold digit_value. rewrite H.
  apply digit_range in H.
  destruct (N.ltb_spec (c - 48) 10); [reflexivity | lia].
Qed.

Lemma read_digits_seen (radix : N) (s : jsstring) (acc : N) :
  snd (read_digits radix s acc true) = true.
Proof.
  revert acc; induction s as [|c s IH]; intro acc; simpl; [reflexivity|].
  destruct (digit_value radix c); [apply IH | reflexivity].
Qed.

(** ** Rounding to a double *)

Lemma size_small (n : N) : (n < 2 ^ 53)%N -> (N.size n - 53 = 0)%N.
Proof.
  intro H. destruct (N.eq_dec n 0) as [->|Hn]; [reflexivity|].
  rewrite (N.size_log2 n Hn).
  assert (Hlog : (N.log2 n < 53)%N) by (apply N.log2_lt_pow2; lia).
  lia.
Qed.

(** Up to 2^53 every integer is a double. *)
Lemma round_N_small (n : N) : (n < 2 ^ 53)%N -> round_N n = n.
Proof.
  intro H. unfold round_N. rewrite (size_small n H).
  rewrite N.shiftr_0_r, !N.shiftl_0_r, N.sub_diag. reflexivity.
Qed.

(** The doubles between two powers of two that are 2^53 or more are the
    multiples of a common step, 2^e with [e] the number of bits beyond 53.
    The rounded integer is such a multiple, at most half a step away from
    the integer, and an even multiple when exactly half a step away. *)
Lemma round_N_nearest (n : N) :
  let e := (N.size n - 53)%N in
  exists q : N,
    round_N n = (q * 2 ^ e)%N
    /\ (q <= 2 ^ 53)%N
    /\ (2 * (round_N n - n) <= 2 ^ e)%N
    /\ (2 * (n - round_N n) <= 2 ^ e)%N
    /\ ((2 * (round_N n - n) = 2 ^ e \/ 2 * (n - round_N n) = 2 ^ e)%N ->
        N.even q = true).
Proof.
  intro e. unfold round_N. fold e.
  set (q0 := N.shiftr n e).
  rewrite !N.shiftl_mul_pow2.
  set (P := (2 ^ e)%N).
  set (h := (1 * 2 ^ (e - 1))%N).
  set (r := (n - q0 * P)%N).
  assert (HP : (0 < P)%N)
    by (apply N.neq_0_lt_0, N.pow_nonzero; discriminate).
  assert (Hq0 : q0 = (n / P)%N) by apply N.shiftr_div_pow2.
  assert (Hdiv : (n = P * q0 + n mod P)%N)
    by (rewrite Hq0; apply N.div_mod; lia).
  assert (Hmod : (n mod P < P)%N) by (apply N.mod_lt; lia).
  assert (Hr : (n = q0 * P + r /\ r < P)%N).
  { unfold r. revert Hdiv Hmod. generalize (n mod P)%N as m.
    intros m Hdiv Hmod. rewrite (N.mul_comm P q0) in Hdiv. lia. }
  assert (Hsize : (n < 2 ^ 53 * P)%N).
  { unfold P. rewrite <- N.pow_add_r.
    apply N.lt_le_trans with (2 ^ N.size n)%N; [apply N.size_gt|].
    apply N.pow_le_mono_r; [discriminate|]. unfold e. lia. }
  assert (Hq53 : (q0 < 2 ^ 53)%N).
  { rewrite Hq0. apply N.Div0.div_lt_upper_bound.
    rewrite N.mul_comm. exact Hsize. }
  assert (Hh : (2 * h = P \/ (P = 1 /\ h = 1))%N).
  { destruct (N.eq_dec e 0) as [He|He].
    - right. unfold P, h. rewrite He. split; reflexivity.
    - left. unfold P, h. rewrite N.mul_1_l, <- N.pow_succ_r'.
      f_equal. lia. }
  clearbody r h P q0. clear Hq0 Hdiv Hmod Hsize.
  destruct Hr as [Hn Hr]. subst n.
  destruct (N.ltb_spec h r) as [Hlt|Hge]; cbn [orb andb].
  - exists (q0 + 1)%N. rewrite N.mul_add_distr_r, N.mul_1_l.
    split; [reflexivity|]. split; [lia|].
    split; [lia|]. split; [lia|]. intro Htie. exfalso. lia.
  - destruct (N.eqb_spec r h) as [Heq|Hne]; cbn [orb andb].
    + destruct (N.odd q0) eqn:Hodd.
      * exists (q0 + 1)%N. rewrite N.mul_add_distr_r, N.mul_1_l.
        split; [reflexivity|]. split; [lia|].
        split; [lia|]. split; [lia|]. intros _.
        rewrite N.add_1_r, N.even_succ. exact Hodd.
      * exists q0. split; [reflexivity|]. split; [lia|].
        split; [lia|]. split; [lia|]. intros _.
        rewrite <- N.negb_odd, Hodd. reflexivity.
    + exists q0. split; [reflexivity|]. split; [lia|].
      split; [lia|]. split; [lia|]. intro Htie. exfalso. lia.
Qed.

(** Rounding keeps the leading bit or carries into the next one. *)
Lemma round_N_lower (n : N) : n <> 0%N -> (2 ^ N.log2 n <= round_N n)%N.
Proof.
  intro Hn. unfold round_N.
  set (e := (N.size n - 53)%N).
  set (q := N.shiftr n e).
  assert (He : (e <= N.log2 n)%N).
  { unfold e. rewrite (N.size_log2 n Hn). lia. }
  assert (Hpow : (2 ^ N.log2 n = 2 ^ (N.log2 n - e) * 2 ^ e)%N).
  { rewrite <- N.pow_add_r. f_equal. lia. }
  assert (Hnz : (2 ^ e <> 0)%N) by (apply N.pow_nonzero; discriminate).
  assert (Hq : (2 ^ (N.log2 n - e) <= q)%N).
  { unfold q. rewrite N.shiftr_div_pow2.
    rewrite <- (N.div_mul (2 ^ (N.log2 n - e)) (2 ^ e) Hnz), <- Hpow.
    apply N.Div0.div_le_mono.
    apply N.log2_spec. lia. }
  rewrite N.shiftl_mul_pow2, Hpow.
  apply N.mul_le_mono_r.
  destruct (_ || _); lia.
Qed.

Lemma round_N_large (n : N) : (2 ^ 1024 <= n)%N -> (2 ^ 1024 <= round_N n)%N.
Proof.
  intro H.
  assert (Hpos : (0 < 2 ^ 1024)%N)
    by (apply N.neq_0_lt_0, N.pow_nonzero; discriminate).
  assert (Hn : n <> 0%N) by lia.
  apply N.le_trans with (2 ^ N.log2 n)%N; [|now apply round_N_lower].
  apply N.pow_le_mono_r; [discriminate|].
  rewrite <- (N.log2_pow2 1024) by lia. now apply N.log2_le_mono.
Qed.

Lemma to_double_small (n : N) :
  (n < 2 ^ 53)%N -> to_double false n = num (Z.of_N n).
Proof.
  intro H. unfold to_double. rewrite (round_N_small n H).
  assert (Hlt : (n < 2 ^ 1024)%N).
  { apply N.lt_trans with (2 ^ 53)%N; [exact H|].
    apply N.pow_lt_mono_r; reflexivity. }
  apply N.ltb_lt in Hlt. now rewrite Hlt.
Qed.

Lemma to_double_large (n : N) :
  (2 ^ 1024 <= n)%N -> to_double false n = Infinity.
Proof.
  intro H. unfold to_double.
  pose proof (round_N_large n H) as Hge.
  apply N.ltb_ge in Hge. now rewrite Hge.
Qed.

(** A double read from digits without a sign is a natural number below
    2^1024, or [Infinity]. *)
Lemma to_double_values (n : N) :
  (exists k : N, (k < 2 ^ 1024)%N /\ to_double false n = num (Z.of_N k))
  \/ to_double false n = Infinity.
Proof.
  unfold to_double.
  destruct (N.ltb_spec (round_N n) (2 ^ 1024)) as [Hlt|_];
    [left; now exists (round_N n) | now right].
Qed.

(** ** parseInt on a run of digits *)

Lemma read_digits_decimal (w : jsstring) :
  Forall (fun c => is_digit c = true) w ->
  forall acc,
    read_digits 10 w acc true
    = (fold_left (fun acc c => (acc * 10 + (c - 48))%N) w acc, true).
Proof.
  induction 1 as [|c w Hc _ IH]; intro acc; simpl; [reflexivity|].
  rewrite (digit_value_dec c Hc). apply IH.
Qed.

(** [parseInt] of a non-empty run of decimal digits is the double nearest
    to the number they denote. *)
Lemma parseInt_decimal (ds : jsstring) :
  ds <> [] -> Forall (fun c => is_digit c = true) ds ->
  parseInt ds = to_double false (Notions.decimal ds).
Proof.
  intros Hne Hall. destruct ds as [|c w]; [congruence|].
  inversion Hall as [|? ? Hc Hw]; subst.
  pose proof (proj1 (digit_range c) Hc) as Hr.
  assert (Hbody : parseInt (c :: w)
                  = match read_digits 10 (c :: w) 0 false with
                    | (n, true) => to_double false n
                    | (_, false) => NaN
                    end).
  { assert (H10 : (c = 48 \/ c = 49 \/ c = 50 \/ c = 51 \/ c = 52 \/ c = 53
                   \/ c = 54 \/ c = 55 \/ c = 56 \/ c = 57)%N) by lia.
    destruct w as [|x r].
    - repeat (destruct H10 as [->|H10]; [reflexivity|]). now subst.
    - inversion Hw as [|? ? Hx _]; subst. apply digit_range in Hx.
      assert (H120 : (x =? 120)%N = false) by (apply N.eqb_neq; lia).
      assert (H88 : (x =? 88)%N = false) by (apply N.eqb_neq; lia).
      repeat (destruct H10 as [->|H10];
              [unfold parseInt; cbn [skip_space]; cbv [is_space];
               cbn; rewrite ?H120, ?H88; reflexivity|]).
      subst. unfold parseInt; cbn [skip_space]; cbv [is_space];
        cbn; rewrite ?H120, ?H88; reflexivity. }
  rewrite Hbody. simpl read_digits. rewrite (digit_value_dec c Hc).
  rewrite (read_digits_decimal w Hw). reflexivity.
Qed.

End JSFacts.

(* ================================================================== *)
(** * The matcher against the language of a pattern *)
(* ================================================================== *)

Module RegexFacts.
Import Regex.

Lemma star_loop_self (step : state -> list state) (fuel : nat) (st : state) :
  In st (star_loop step fuel st).
Proof.
  destruct fuel; simpl; [now left|].
  apply in_or_app. right. now left.
Qed.

Section Iteration.

Variable step : state -> list state.

(** An invariant of one iteration is an invariant of the loop. *)
Lemma star_loop_inv (P : state -> Prop) :
  (forall st st', P st -> In st' (step st) -> P st') ->
  forall fuel st st', P st -> In st' (star_loop step fuel st) -> P st'.
Proof.
  intros Hstep. induction fuel as [|fuel IH]; intros st st' HP H; simpl in H.
  - destruct H as [<-|[]]. exact HP.
  - apply in_app_or in H. destruct H as [H|[<-|[]]]; [|exact HP].
    apply in_flat_map in H. destruct H as [mid [H1 H2]].
    destruct (length (snd mid) <? length (snd st)); [|destruct H2].
    eapply IH; [|exact H2]. eapply Hstep; eassumption.
Qed.

Variable L : jsstring -> Prop.

Hypothesis step_sound :
  forall c s c' s', In (c', s') (step (c, s)) -> exists w, s = w ++ s' /\ L w.

Lemma star_loop_sound (fuel : nat) :
  forall c s c' s',
    In (c', s') (star_loop step fuel (c, s)) ->
    exists ws, s = concat ws ++ s' /\ Forall L ws.
Proof.
  induction fuel as [|fuel IH]; intros c s c' s' H; simpl in H.
  - destruct H as [H|[]]. inversion H; subst.
    exists []. split; [reflexivity | constructor].
  - apply in_app_or in H. destruct H as [H|[H|[]]].
    + apply in_flat_map in H. destruct H as [[c1 s1] [H1 H2]].
      simpl in H2. destruct (length s1 <? length s); [|destruct H2].
      apply step_sound in H1. destruct H1 as [w [-> Hw]].
      apply IH in H2. destruct H2 as [ws [-> Hws]].
      exists (w :: ws). simpl. rewrite app_assoc.
      split; [reflexivity | now constructor].
    + inversion H; subst. exists []. split; [reflexivity | constructor].
Qed.

Hypothesis step_complete :
  forall w, L w -> forall c s', exists c', In (c', s') (step (c, w ++ s')).

Lemma star_loop_complete (ws : list jsstring) :
  Forall L ws ->
  forall fuel c s',
    length (concat ws ++ s') <= fuel ->
    exists c', In (c', s') (star_loop step fuel (c, concat ws ++ s')).
Proof.
  induction 1 as [|w ws Hw Hws IH]; intros fuel c s' Hfuel.
  - exists c. apply star_loop_self.
  - destruct w as [|x w]; [now apply IH|].
    match type of Hfuel with
    | length ?t <= _ =>
        assert (E : t = (x :: w) ++ concat ws ++ s')
          by (simpl; now rewrite <- app_assoc);
        rewrite E in Hfuel |- *; clear E
    end.
    rewrite length_app in Hfuel. simpl in Hfuel.
    destruct fuel as [|fuel]; [lia|].
    destruct (step_complete _ Hw c (concat ws ++ s')) as [c1 H1].
    destruct (IH fuel c1 s') as [c' H2]; [lia|].
    exists c'. simpl star_loop. apply in_or_app. left.
    apply in_flat_map. exists (c1, concat ws ++ s'). split; [exact H1|].
    simpl snd.
    match goal with
    | |- In _ (if ?a <? ?b then _ else _) =>
        destruct (Nat.ltb_spec a b) as [_|Hge]
    end; [exact H2|].
    exfalso. simpl in Hge. rewrite ?length_app in Hge, Hfuel. lia.
Qed.

End Iteration.

(** Whatever the matcher returns is the input minus a word of the
    language. *)
Theorem run_sound (r : regex) :
  forall c s c' s',
    In (c', s') (run r (c, s)) -> exists w, s = w ++ s' /\ lang r w.
Proof.
  induction r as [|p|a IHa b IHb|a IHa b IHb|a IHa|a IHa];
    intros c s c' s' H; simpl in H.
  - destruct H as [H|[]]. inversion H; subst. now exists [].
  - destruct s as [|x s]; [destruct H|].
    destruct (p x) eqn:Hp; [|destruct H].
    destruct H as [H|[]]. inversion H; subst.
    exists [x]. split; [reflexivity|]. simpl. eauto.
  - apply in_flat_map in H. destruct H as [[c1 s1] [H1 H2]].
    apply IHa in H1. destruct H1 as [u [-> Hu]].
    apply IHb in H2. destruct H2 as [v [-> Hv]].
    exists (u ++ v). rewrite app_assoc. split; [reflexivity|].
    simpl. eauto.
  - apply in_app_or in H. destruct H as [H|H].
    + apply IHa in H. destruct H as [w [-> Hw]]. exists w. simpl. auto.
    + apply IHb in H. destruct H as [w [-> Hw]]. exists w. simpl. auto.
  - eapply star_loop_sound in H; [|exact IHa].
    destruct H as [ws [-> Hws]]. exists (concat ws). simpl. eauto.
  - apply in_map_iff in H. destruct H as [[c1 s1] [Heq H1]].
    inversion Heq; subst. apply IHa in H1. exact H1.
Qed.

(** Every word of the language at the start of the input is found. *)
Theorem run_complete (r : regex) :
  forall w, lang r w ->
  forall c s', exists c', In (c', s') (run r (c, w ++ s')).
Proof.
  induction r as [|p|a IHa b IHb|a IHa b IHb|a IHa|a IHa];
    intros w Hw c s'; simpl in Hw.
  - subst. exists c. now left.
  - destruct Hw as [x [-> Hp]]. exists c. simpl. rewrite Hp. now left.
  - destruct Hw as [u [v [-> [Hu Hv]]]].
    destruct (IHa u Hu c (v ++ s')) as [c1 H1].
    destruct (IHb v Hv c1 s') as [c2 H2].
    exists c2. simpl. rewrite <- app_assoc.
    apply in_flat_map. eauto.
  - destruct Hw as [Hw|Hw].
    + destruct (IHa w Hw c s') as [c1 H1]. exists c1. simpl.
      apply in_or_app. now left.
    + destruct (IHb w Hw c s') as [c1 H1]. exists c1. simpl.
      apply in_or_app. now right.
  - destruct Hw as [ws [-> Hws]]. simpl.
    eapply star_loop_complete; [exact IHa | exact Hws | apply Nat.le_refl].
  - destruct (IHa w Hw c s') as [c1 H1].
    eexists. simpl. apply in_map_iff. exists (c1, s'). split; [reflexivity|].
    exact H1.
Qed.

(** Once set, group 1 stays set. *)
Lemma run_keeps_group (r : regex) :
  forall st st', fst st <> None -> In st' (run r st) -> fst st' <> None.
Proof.
  induction r as [|p|a IHa b IHb|a IHa b IHb|a IHa|a IHa];
    intros st st' Hst H; simpl in H.
  - destruct H as [<-|[]]. exact Hst.
  - destruct (snd st) as [|x s]; [destruct H|].
    destruct (p x); [|destruct H]. destruct H as [<-|[]]. exact Hst.
  - apply in_flat_map in H. destruct H as [mid [H1 H2]].
    eapply IHb; [|exact H2]. eapply IHa; eassumption.
  - apply in_app_or in H. destruct H as [H|H]; eauto.
  - eapply (star_loop_inv (run a) (fun st => fst st <> None)); eauto.
  - apply in_map_iff in H. destruct H as [mid [<- _]]. simpl. discriminate.
Qed.

(** A pattern that goes through a group on every path sets group 1. *)
Theorem run_sets_group (r : regex) :
  sets_group r = true ->
  forall st st', In st' (run r st) -> fst st' <> None.
Proof.
  induction r as [|p|a IHa b IHb|a IHa b IHb|a IHa|a IHa];
    simpl; intros Hg st st' H; try discriminate.
  - apply in_flat_map in H. destruct H as [mid [H1 H2]].
    apply orb_true_iff in Hg. destruct Hg as [Hg|Hg].
    + eapply run_keeps_group; [|exact H2]. eapply IHa; eassumption.
    + eapply IHb; eassumption.
  - apply andb_true_iff in Hg. destruct Hg as [Ha Hb].
    apply in_app_or in H. destruct H as [H|H]; eauto.
  - apply in_map_iff in H. destruct H as [mid [<- _]]. simpl. discriminate.
Qed.

Lemma firstn_consumed (w s' : jsstring) :
  firstn (length (w ++ s') - length s') (w ++ s') = w.
Proof.
  rewrite length_app.
  replace (length w + length s' - length s') with (length w) by lia.
  rewrite firstn_app, Nat.sub_diag, firstn_all. simpl. apply app_nil_r.
Qed.

(** Group 1 is either left as it was or holds a word of the language of
    a group of the pattern. *)
Theorem run_capture (r : regex) :
  forall c s c' s',
    In (c', s') (run r (c, s)) ->
    c' = c \/ exists g w, In g (groups r) /\ c' = Some w /\ lang g w.
Proof.
  induction r as [|p|a IHa b IHb|a IHa b IHb|a IHa|a IHa];
    intros c s c' s' H; simpl in H.
  - destruct H as [H|[]]. inversion H; subst. now left.
  - destruct s as [|x s]; [destruct H|].
    destruct (p x); [|destruct H].
    destruct H as [H|[]]. inversion H; subst. now left.
  - apply in_flat_map in H. destruct H as [[c1 s1] [H1 H2]].
    apply IHa in H1. apply IHb in H2. simpl.
    destruct H2 as [->|[g [w [Hg [-> Hw]]]]].
    + destruct H1 as [->|[g [w [Hg [-> Hw]]]]]; [now left|].
      right. exists g, w. split; [apply in_or_app; now left | auto].
    + right. exists g, w. split; [apply in_or_app; now right | auto].
  - simpl. apply in_app_or in H. destruct H as [H|H].
    + apply IHa in H. destruct H as [->|[g [w [Hg [-> Hw]]]]]; [now left|].
      right. exists g, w. split; [apply in_or_app; now left | auto].
    + apply IHb in H. destruct H as [->|[g [w [Hg [-> Hw]]]]]; [now left|].
      right. exists g, w. split; [apply in_or_app; now right | auto].
  - simpl.
    apply (star_loop_inv (run a)
             (fun st => fst st = c
                        \/ exists g w, In g (groups a)
                                       /\ fst st = Some w /\ lang g w))
      with (st' := (c', s')) in H; [exact H| |now left].
    intros [c1 s1] [c2 s2] HP Hin. simpl in *.
    apply IHa in Hin. destruct Hin as [->|Hin]; [exact HP | now right].
  - apply in_map_iff in H. destruct H as [[c1 s1] [Heq H1]].
    inversion Heq; subst. right.
    apply run_sound in H1. destruct H1 as [w [-> Hw]].
    exists a, w. simpl. rewrite firstn_consumed. auto.
Qed.

(** ** Searching *)

Lemma match_at_some (r : regex) (s : jsstring) (m : MatchResult) :
  match_at r s = Some m ->
  exists s', In (group1 m, s') (run r (None, s)).
Proof.
  unfold match_at. destruct (run r (None, s)) as [|[cap s'] l]; [discriminate|].
  intro H. inversion H; subst. simpl. exists s'. now left.
Qed.

Lemma match_at_none (r : regex) (s : jsstring) :
  match_at r s = None <-> run r (None, s) = [].
Proof.
  unfold match_at. destruct (run r (None, s)) as [|[cap s'] l];
    split; congruence.
Qed.

Lemma match_at_in (r : regex) (s : jsstring) (st : state) :
  In st (run r (None, s)) -> match_at r s <> None.
Proof.
  unfold match_at. destruct (run r (None, s)) as [|[cap s'] l].
  - intros [].
  - discriminate.
Qed.

Lemma search_some (r : regex) (s : jsstring) (m : MatchResult) :
  search r s = Some m ->
  exists pre t, s = pre ++ t /\ match_at r t = Some m.
Proof.
  induction s as [|x s IH]; simpl.
  - destruct (match_at r []) eqn:E; [|discriminate].
    intro H; inversion H; subst. now exists [], [].
  - destruct (match_at r (x :: s)) eqn:E.
    + intro H; inversion H; subst. now exists [], (x :: s).
    + intro H. destruct (IH H) as [pre [t [-> Ht]]].
      now exists (x :: pre), t.
Qed.

Lemma search_none (r : regex) (s : jsstring) :
  search r s = None ->
  forall pre t, s = pre ++ t -> match_at r t = None.
Proof.
  induction s as [|x s IH]; simpl.
  - destruct (match_at r []) eqn:E; [discriminate|].
    intros _ pre t Heq. symmetry in Heq. apply app_eq_nil in Heq.
    destruct Heq as [_ ->]. exact E.
  - destruct (match_at r (x :: s)) eqn:E; [discriminate|].
    intros H pre t Heq. destruct pre as [|y pre].
    + simpl in Heq. now subst.
    + inversion Heq; subst. now apply (IH H pre).
Qed.

(** The match returned starts at the leftmost position that has one. *)
Lemma search_leftmost (r : regex) (s : jsstring) (m : MatchResult) :
  search r s = Some m ->
  exists pre t,
    s = pre ++ t /\ match_at r t = Some m
    /\ forall pre' t', s = pre' ++ t' -> length pre' < length pre ->
         match_at r t' = None.
Proof.
  induction s as [|x s IH]; simpl.
  - destruct (match_at r []) eqn:E; [|discriminate].
    intro H; inversion H; subst. exists [], [].
    split; [reflexivity|]. split; [exact E|].
    intros pre' t' _ Hlt. simpl in Hlt. lia.
  - destruct (match_at r (x :: s)) eqn:E.
    + intro H; inversion H; subst. exists [], (x :: s).
      split; [reflexivity|]. split; [exact E|].
      intros pre' t' _ Hlt. simpl in Hlt. lia.
    + intro H. destruct (IH H) as (pre & t & -> & Ht & Hleft).
      exists (x :: pre), t.
      split; [reflexivity|]. split; [exact Ht|].
      intros pre' t' Heq Hlt. destruct pre' as [|y pre'].
      * simpl in Heq. now subst t'.
      * inversion Heq; subst. apply (Hleft pre' t'); [assumption|].
        simpl in Hlt. lia.
Qed.

(** [s.match(r)] is [null] exactly when no substring of [s] is in the
    language of [r]. *)
Theorem search_none_iff (r : regex) (s : jsstring) :
  search r s = None <-> ~ occurs r s.
Proof.
  split.
  - intros H [pre [w [post [Heq Hw]]]].
    pose proof (search_none r s H pre (w ++ post) Heq) as Hn.
    destruct (run_complete r w Hw None post) as [c' Hin].
    exact (match_at_in r (w ++ post) (c', post) Hin Hn).
  - intro Hno. destruct (search r s) as [m|] eqn:E; [|reflexivity].
    exfalso. apply Hno.
    destruct (search_some r s m E) as [pre [t [-> Ht]]].
    destruct (match_at_some r t m Ht) as [s' Hin].
    destruct (run_sound r _ _ _ _ Hin) as [w [-> Hw]].
    now exists pre, w, s'.
Qed.

(** What a successful search leaves in group 1. *)
Theorem search_group1 (r : regex) (s : jsstring) (m : MatchResult) :
  sets_group r = true ->
  search r s = Some m ->
  exists g w, In g (groups r) /\ group1 m = Some w /\ lang g w.
Proof.
  intros Hg H.
  destruct (search_some r s m H) as [pre [t [-> Ht]]].
  destruct (match_at_some r t m Ht) as [s' Hin].
  pose proof (run_sets_group r Hg _ _ Hin) as Hsome.
  destruct (run_capture r _ _ _ _ Hin) as [Hc|Hc]; [|exact Hc].
  simpl in Hsome. congruence.
Qed.

End RegexFacts.

(* ================================================================== *)
(** * Facts about schema validation *)
(* ================================================================== *)

Module ZodFacts.
Import Zod.

Lemma get_not_in {A : Type} (k : jsstring) (o : list (jsstring * A)) :
  ~ In k (map fst o) -> get k o = None.
Proof.
  induction o as [|[k' x] o IH]; simpl; intro H; [reflexivity|].
  destruct (JSFacts.eqb_spec k k') as [->|Hne].
  - exfalso. apply H. now left.
  - apply IH. intro Hin. apply H. now right.
Qed.

Lemma get_head {A : Type} (k : jsstring) (x : A) (o : list (jsstring * A)) :
  get k ((k, x) :: o) = Some x.
Proof. simpl. now rewrite JSFacts.eqb_refl. Qed.

Lemma get_tail {A : Type} (k k' : jsstring) (x : A) (o : list (jsstring * A)) :
  k <> k' -> get k ((k', x) :: o) = get k o.
Proof.
  intro H. simpl. destruct (JSFacts.eqb_spec k k'); congruence.
Qed.

(** The validated object has declared keys only. *)
Lemma parse_shape_keys (sh : shape) (o : list (jsstring * json))
      (k : jsstring) :
  In k (map fst (snd (parse_shape sh o))) -> In k (map fst sh).
Proof.
  induction sh as [|[k0 f0] sh IH]; simpl; [tauto|].
  destruct (parse_shape sh o) as [issues vs]. simpl in IH.
  destruct (parse_field f0 (get k0 o)) as [c|[| |]]; simpl; tauto.
Qed.

(** The issues are exactly the declared keys whose value does not parse,
    each under its own path. *)
Lemma parse_shape_issues (sh : shape) (o : list (jsstring * json))
      (c : ZodIssueCode) (k : jsstring) :
  In {| code := c; path := [k] |} (fst (parse_shape sh o))
  <-> exists f, In (k, f) sh /\ parse_field f (get k o) = inl c.
Proof.
  induction sh as [|[k0 f0] sh IH]; simpl.
  - split; [tauto | intros [f [[] _]]].
  - destruct (parse_shape sh o) as [issues vs]. simpl in IH.
    destruct (parse_field f0 (get k0 o)) as [c0|v] eqn:E.
    + simpl. rewrite IH. split.
      * intros [H|[f [Hin Hf]]].
        -- inversion H; subst. exists f0. auto.
        -- exists f. auto.
      * intros [f [[H|Hin] Hf]].
        -- inversion H; subst. left. congruence.
        -- right. exists f. auto.
    + assert (Hfst : fst (match v with
                          | Undefined => (issues, vs)
                          | _ => (issues, (k0, v) :: vs)
                          end) = issues) by (destruct v; reflexivity).
      rewrite Hfst, IH. split.
      * intros [f [Hin Hf]]. exists f. auto.
      * intros [f [[H|Hin] Hf]].
        -- inversion H; subst. congruence.
        -- exists f. auto.
Qed.

(** Without issues, every declared key parsed, and reading it from the
    validated object gives the parsed value. *)
Lemma parse_shape_props (sh : shape) (o : list (jsstring * json)) :
  NoDup (map fst sh) ->
  fst (parse_shape sh o) = [] ->
  forall k f, In (k, f) sh ->
    parse_field f (get k o)
    = inr (match get k (snd (parse_shape sh o)) with
           | Some v => v
           | None => Undefined
           end).
Proof.
  induction sh as [|[k0 f0] sh IH]; simpl; [tauto|].
  intros Hnd Hok k f Hin. inversion Hnd as [|? ? Hk0 Hnd']; subst.
  pose proof (parse_shape_keys sh o k0) as Hkeys.
  destruct (parse_shape sh o) as [issues vs]. simpl in IH, Hkeys.
  destruct (parse_field f0 (get k0 o)) as [c0|v0] eqn:E0.
  { simpl in Hok. discriminate. }
  assert (Hissues : issues = []) by (destruct v0; exact Hok).
  assert (Hvs0 : get k0 vs = None) by (apply get_not_in; tauto).
  destruct Hin as [Hin|Hin].
  - inversion Hin; subst. rewrite E0.
    destruct v0; simpl snd; rewrite ?get_head, ?Hvs0; reflexivity.
  - assert (Hne : k <> k0).
    { intros ->. apply Hk0. apply in_map_iff. now exists (k0, f). }
    rewrite (IH Hnd' Hissues k f Hin).
    destruct v0; simpl snd; rewrite ?(get_tail k k0 _ vs Hne); reflexivity.
Qed.

(** [parse] either reports issues or returns an object in which every
    declared key has a value of its declared type: there is nothing in
    between. *)
Lemma parse_inr (sh : shape) (body : json) (v : object) :
  NoDup (map fst sh) ->
  parse sh body = inr v ->
  exists o, body = JObj o
    /\ forall k f, In (str k, f) sh ->
         parse_field f (get (str k) o) = inr (prop v k).
Proof.
  intros Hnd H. unfold parse in H.
  destruct body as [| | | | |o]; try discriminate.
  exists o. split; [reflexivity|]. intros k f Hin.
  pose proof (parse_shape_props sh o Hnd) as Hp.
  destruct (parse_shape sh o) as [issues vs] eqn:E.
  destruct issues; [|discriminate]. inversion H; subst.
  unfold prop. now apply Hp.
Qed.

Lemma parse_inl (sh : shape) (o : list (jsstring * json))
      (issues : list ZodIssue) :
  parse sh (JObj o) = inl issues ->
  issues = fst (parse_shape sh o) /\ issues <> [].
Proof.
  unfold parse. destruct (parse_shape sh o) as [[|i rest] vs]; [discriminate|].
  intro H. inversion H; subst. split; [reflexivity | discriminate].
Qed.

(** What the three schema types accept. *)
Lemma parse_string (x : option json) (v : value) :
  parse_field string_ x = inr v -> exists s, x = Some (JStr s) /\ v = Str s.
Proof.
  destruct x as [[| | |s| |]|]; simpl; try discriminate.
  intro H; inversion H; eauto.
Qed.

Lemma parse_number (x : option json) (v : value) :
  parse_field number_ x = inr v ->
  exists q, x = Some (JNum q) /\ v = Num (Fin q).
Proof.
  destruct x as [[| |q| | |]|]; simpl; try discriminate.
  intro H; inversion H; eauto.
Qed.

Lemma parse_enum (options : list jsstring) (x : option json) (v : value) :
  parse_field (enum_ options) x = inr v ->
  exists s, x = Some (JStr s) /\ v = Str s /\ In s options.
Proof.
  destruct x as [[| | |s| |]|]; simpl; try discriminate.
  destruct (existsb (JS.eqb s) options) eqn:E; [|discriminate].
  intro H; inversion H; subst. exists s. repeat split.
  apply existsb_exists in E. destruct E as [s' [Hin Heq]].
  apply JSFacts.eqb_eq in Heq. now subst.
Qed.

Lemma parse_optional_string (x : option json) (v : value) :
  parse_field (optional string_) x = inr v ->
  (x = None /\ v = Undefined) \/ exists s, x = Some (JStr s) /\ v = Str s.
Proof.
  destruct x as [[| | |s| |]|]; simpl; try discriminate;
    intro H; inversion H; eauto.
Qed.

Lemma parse_optional_number (x : option json) (v : value) :
  parse_field (optional number_) x = inr v ->
  (x = None /\ v = Undefined)
  \/ exists q, x = Some (JNum q) /\ v = Num (Fin q).
Proof.
  destruct x as [[| |q| | |]|]; simpl; try discriminate;
    intro H; inversion H; eauto.
Qed.

End ZodFacts.

(* ================================================================== *)
(** * The Analysis Extractor *)
(* ================================================================== *)

Module ExtractorFacts.
Import Regex Workflow.

(** A closed text has no substring matching the pattern: run the search. *)
Ltac no_marker := apply RegexFacts.search_none_iff; vm_compute; reflexivity.

(** A response without the marker gets the default. *)
Lemma extract_confidence_default (text : jsstring) :
  ~ occurs confidence_re text -> extract_confidence text = num 50.
Proof.
  intro H. apply RegexFacts.search_none_iff in H.
  unfold extract_confidence. now rewrite H.
Qed.

Lemma extract_action_default (text : jsstring) :
  ~ occurs action_re text -> extract_action text = str "hold".
Proof.
  intro H. apply RegexFacts.search_none_iff in H.
  unfold extract_action. now rewrite H.
Qed.

Lemma extract_risk_default (text : jsstring) :
  ~ occurs risk_re text -> extract_risk text = str "medium".
Proof.
  intro H. apply RegexFacts.search_none_iff in H.
  unfold extract_risk. now rewrite H.
Qed.

(** The words of [\d+] are the non-empty runs of digits. *)
Lemma lang_digits (w : jsstring) :
  lang (Plus digit) w -> w <> [] /\ Forall (fun c => is_digit c = true) w.
Proof.
  simpl. intros [u [v [-> [[c [-> Hc]] [ws [-> Hws]]]]]].
  split; [discriminate|]. simpl. constructor; [exact Hc|].
  induction Hws as [|w ws [d [-> Hd]] _ IH]; simpl; [constructor|].
  now constructor.
Qed.

(** X14.  Whatever the response says, the extracted confidence is a
    natural number below 2^1024 or [Infinity], never [NaN], negative or
    fractional: it is the default, or the double read from the digits in
    front of the [%] sign of the first marker. *)
Theorem extract_confidence_values (text : jsstring) :
  (exists n : N,
      (n < 2 ^ 1024)%N /\ extract_confidence text = num (Z.of_N n))
  \/ extract_confidence text = Infinity.
Proof.
  unfold extract_confidence.
  destruct (search confidence_re text) as [m|] eqn:E.
  - destruct (RegexFacts.search_group1 confidence_re text m eq_refl E)
      as [g [w [Hg [Hw Hlang]]]].
    simpl in Hg. destruct Hg as [<-|[]].
    apply lang_digits in Hlang. destruct Hlang as [Hne Hall].
    unfold capture1. rewrite Hw.
    rewrite (JSFacts.parseInt_decimal w Hne Hall).
    apply JSFacts.to_double_values.
  - left. exists 50%N. split; [|reflexivity].
    apply N.lt_trans with (2 ^ 53)%N; [reflexivity|].
    apply N.pow_lt_mono_r; reflexivity.
Qed.

(** In the three patterns group 1 always takes part in a match. *)
Lemma groups_take_part :
  sets_group confidence_re = true
  /\ sets_group action_re = true
  /\ sets_group risk_re = true.
Proof. repeat split. Qed.

End ExtractorFacts.

(* ================================================================== *)
(** * The Decision Gate *)
(* ================================================================== *)

Module GateFacts.
Import Workflow.

(** Neither disjunct of the skip condition holds of a closed analysis. *)
Ltac passes_gate := intros [H|H]; vm_compute in H; discriminate.

Section WithHost.
Context {host : Host}.

Lemma requireAgent_registered (m : Mastra) (agent : Agent) (w : World) :
  getAgent m (str "tradingAgent") = Some agent ->
  requireAgent (Some m) w = (Return agent, w).
Proof. intro H. unfold requireAgent. now rewrite H. Qed.

(** The test of the [if] is the skip condition of the specification. *)
Lemma gate_test (a : Analysis.t) :
  ltb (Analysis.confidence a) (num 70)
  || JS.eqb (Analysis.recommendedAction a) (str "hold") = true
  <-> Spec.skips a.
Proof.
  rewrite orb_true_iff, JSFacts.ltb_Lt, JSFacts.eqb_eq.
  unfold Spec.skips. tauto.
Qed.

(** The skip branch: one clock read, no call. *)
Lemma executeTrade_skip (a : Analysis.t) (m : Mastra) (agent : Agent)
      (w : World) :
  getAgent m (str "tradingAgent") = Some agent ->
  Spec.skips a ->
  exists r,
    executeTrade (Some a) (Some m) w
    = (Return r, {| ticks := S (ticks w); calls := calls w |})
    /\ Execution.executed r = false
    /\ Execution.tradeId r = None.
Proof.
  intros Hreg Hskip. apply gate_test in Hskip.
  unfold executeTrade, bind.
  rewrite (requireAgent_registered m agent w Hreg), Hskip.
  eexists. split; [reflexivity|]. split; reflexivity.
Qed.

(** The other branch: the call is made, and what comes back decides. *)
Lemma executeTrade_pass (a : Analysis.t) (m : Mastra) (agent : Agent)
      (w : World) :
  getAgent m (str "tradingAgent") = Some agent ->
  ~ Spec.skips a ->
  let messages := [ {| role := str "user"; content := executionPrompt a |} ] in
  let called := {| ticks := ticks w; calls := calls w ++ [messages] |} in
  executeTrade (Some a) (Some m) w
  = match stream agent messages with
    | inl e => (Throw e, called)
    | inr response =>
        match failure response with
        | Some e => (Throw e, called)
        | None =>
            (Return
               {| Execution.executed := true;
                  Execution.tradeId :=
                    Some (str "trade_"
                          ++ Number_toString (num (clock (ticks w))));
                  Execution.message :=
                    str "Trade executed: "
                    ++ Analysis.recommendedAction a ++ str " "
                    ++ Analysis.symbol a ++ str " at $"
                    ++ Number_toString (Analysis.currentPrice a);
                  Execution.timestamp := num (clock (S (ticks w))) |},
             {| ticks := S (S (ticks w));
                calls := calls w ++ [messages] |})
        end
    end.
Proof.
  intros Hreg Hpass messages called.
  assert (Htest : ltb (Analysis.confidence a) (num 70)
                  || JS.eqb (Analysis.recommendedAction a) (str "hold")
                  = false).
  { destruct (ltb (Analysis.confidence a) (num 70)
              || JS.eqb (Analysis.recommendedAction a) (str "hold")) eqn:E;
      [|reflexivity].
    exfalso. apply Hpass. now apply gate_test. }
  unfold executeTrade, bind.
  rewrite (requireAgent_registered m agent w Hreg), Htest.
  unfold call_stream. fold messages.
  destruct (stream agent messages) as [e|response]; [reflexivity|].
  unfold read_all. destruct (failure response); reflexivity.
Qed.

(** Without a Mastra instance, or without the agent in it, the step
    throws before it looks at the analysis. *)
Lemma executeTrade_without_agent (a : Analysis.t) (mastra : option Mastra)
      (w : World) :
  Notions.tradingAgent mastra = None ->
  executeTrade (Some a) mastra w
  = (Throw (Error (str "Trading agent not found")), w).
Proof.
  intro H. unfold executeTrade, bind, requireAgent.
  destruct mastra as [m|]; [|reflexivity].
  simpl in H. now rewrite H.
Qed.

(** C1, as the code has it.  The step looks the trading agent up before
    it tests the analysis: without the agent it throws "Trading agent not
    found" whatever the analysis says.  With the agent registered it
    returns [executed = false] if and only if [recommendedAction] is
    ['hold'] or [confidence] is below 70, and a skip carries no trade
    identifier and calls nobody; otherwise it calls the agent once, and
    returns [executed = true] with the identifier [trade_<clock>] when
    that call streams its answer to the end, and throws the error of the
    call when it fails. *)
Theorem executeTrade_gate (a : Analysis.t) (mastra : option Mastra)
        (w : World) :
  (Notions.tradingAgent mastra = None ->
   executeTrade (Some a) mastra w
   = (Throw (Error (str "Trading agent not found")), w))
  /\ (forall agent,
        Notions.tradingAgent mastra = Some agent ->
        let messages :=
          [ {| role := str "user"; content := executionPrompt a |} ] in
        ((exists r w', executeTrade (Some a) mastra w = (Return r, w')
                       /\ Execution.executed r = false)
         <-> Spec.skips a)
        /\ (Spec.skips a ->
            exists r w', executeTrade (Some a) mastra w = (Return r, w')
                         /\ Execution.executed r = false
                         /\ Execution.tradeId r = None
                         /\ calls w' = calls w)
        /\ (~ Spec.skips a ->
            forall response,
              stream agent messages = inr response ->
              failure response = None ->
              exists r w', executeTrade (Some a) mastra w = (Return r, w')
                           /\ Execution.executed r = true
                           /\ Execution.tradeId r
                              = Some (str "trade_"
                                      ++ Number_toString
                                           (num (clock (ticks w))))
                           /\ calls w' = calls w ++ [messages])
        /\ (~ Spec.skips a ->
            forall e,
              Notions.fails_with agent messages e ->
              executeTrade (Some a) mastra w
              = (Throw e,
                 {| ticks := ticks w; calls := calls w ++ [messages] |}))).
Proof.
  split; [apply executeTrade_without_agent|].
  intros agent Hreg messages.
  destruct mastra as [m|]; [simpl in Hreg | discriminate Hreg].
  split; [split|split; [|split]].
  - intros [r [w' [Hrun Hex]]].
    destruct (ltb (Analysis.confidence a) (num 70)
              || JS.eqb (Analysis.recommendedAction a) (str "hold")) eqn:E.
    + now apply gate_test.
    + exfalso.
      assert (Hpass : ~ Spec.skips a).
      { intro Hs. apply gate_test in Hs. congruence. }
      rewrite (executeTrade_pass a m agent w Hreg Hpass) in Hrun.
      destruct (stream agent _) as [e|response]; [discriminate|].
      destruct (failure response); [discriminate|].
      inversion Hrun; subst. simpl in Hex. discriminate.
  - intro Hskip.
    destruct (executeTrade_skip a m agent w Hreg Hskip) as [r [Hrun [Hex _]]].
    exists r. eexists. split; [exact Hrun | exact Hex].
  - intro Hskip.
    destruct (executeTrade_skip a m agent w Hreg Hskip) as [r [Hrun [Hex Hid]]].
    exists r. eexists. split; [exact Hrun|]. repeat split; assumption.
  - intros Hpass response Hstream Hfail.
    rewrite (executeTrade_pass a m agent w Hreg Hpass).
    fold messages. rewrite Hstream, Hfail. eexists. eexists.
    split; [reflexivity|]. repeat split; reflexivity.
  - intros Hpass e Hfail.
    rewrite (executeTrade_pass a m agent w Hreg Hpass). fold messages.
    destruct Hfail as [->|[response [-> ->]]]; reflexivity.
Qed.

(** C2, as the code has it.  When the analysis passes the gate and the
    execution call fails, because [agent.stream] rejects or because the
    text stream breaks, [executeTrade] throws that very error after the
    one call: no ExecutionResult is returned. *)
Theorem executeTrade_failure_propagates (a : Analysis.t) (m : Mastra)
        (agent : Agent) (w : World) (e : exn) :
  getAgent m (str "tradingAgent") = Some agent ->
  ~ Spec.skips a ->
  (stream agent [ {| role := str "user"; content := executionPrompt a |} ]
   = inl e
   \/ exists response,
        stream agent [ {| role := str "user"; content := executionPrompt a |} ]
        = inr response
        /\ failure response = Some e) ->
  executeTrade (Some a) (Some m) w
  = (Throw e,
     {| ticks := ticks w;
        calls := calls w
                 ++ [[ {| role := str "user";
                          content := executionPrompt a |} ]] |}).
Proof.
  intros Hreg Hpass Hfail.
  rewrite (executeTrade_pass a m agent w Hreg Hpass).
  destruct Hfail as [->|[response [-> ->]]]; reflexivity.
Qed.

End WithHost.

(** The boundary of the gate, with the agent registered and answering:
    [confidence = 69] with ['buy'] is skipped, [confidence = 70] with
    ['buy'] is executed, [confidence = 100] with ['hold'] is skipped. *)
Lemma executeTrade_gate_boundary :
  (exists r w',
      executeTrade (host := Examples.host)
        (Some (Examples.analysis "buy" 69))
        (Some (Examples.registry (Examples.answering [str "Order placed."])))
        Examples.start
      = (Return r, w')
      /\ Execution.executed r = false /\ Execution.tradeId r = None
      /\ calls w' = [])
  /\ (exists r w',
         executeTrade (host := Examples.host)
           (Some (Examples.analysis "buy" 70))
           (Some (Examples.registry
                    (Examples.answering [str "Order placed."])))
           Examples.start
         = (Return r, w')
         /\ Execution.executed r = true
         /\ Execution.tradeId r = Some (str "trade_1700000000000")
         /\ length (calls w') = 1)
  /\ (exists r w',
         executeTrade (host := Examples.host)
           (Some (Examples.analysis "hold" 100))
           (Some (Examples.registry
                    (Examples.answering [str "Order placed."])))
           Examples.start
         = (Return r, w')
         /\ Execution.executed r = false /\ Execution.tradeId r = None
         /\ calls w' = []).
Proof.
  split; [|split].
  - apply (proj1 (proj2 (proj2 (executeTrade_gate (host := Examples.host)
                           (Examples.analysis "buy" 69)
                           (Some (Examples.registry
                                    (Examples.answering [str "Order placed."])))
                           Examples.start)
                          (Examples.answering [str "Order placed."])
                          eq_refl))).
    right. vm_compute. reflexivity.
  - destruct (proj1 (proj2 (proj2 (proj2 (executeTrade_gate
                           (host := Examples.host)
                           (Examples.analysis "buy" 70)
                           (Some (Examples.registry
                                    (Examples.answering [str "Order placed."])))
                           Examples.start)
                          (Examples.answering [str "Order placed."])
                          eq_refl)))
                ltac:(passes_gate)
                {| chunks := [str "Order placed."]; failure := None |}
                eq_refl eq_refl)
      as (r & w' & Hrun & Hex & Hid & Hcalls).
    exists r, w'. split; [exact Hrun|]. split; [exact Hex|].
    split; [exact Hid|]. rewrite Hcalls. reflexivity.
  - apply (proj1 (proj2 (proj2 (executeTrade_gate (host := Examples.host)
                           (Examples.analysis "hold" 100)
                           (Some (Examples.registry
                                    (Examples.answering [str "Order placed."])))
                           Examples.start)
                          (Examples.answering [str "Order placed."])
                          eq_refl))).
    left. reflexivity.
Defined.

(** C1 as stated fails, for not every analysis gets a result.  A hold at
    confidence 100 is to be skipped, yet without a registered agent the
    step returns nothing: it throws before the gate.  A buy at confidence
    70 is not to be skipped, yet with an agent whose stream breaks the
    step returns nothing either. *)
Lemma executeTrade_gate_returns_nothing :
  Spec.skips (Examples.analysis "hold" 100)
  /\ ~ (exists r w',
           executeTrade (host := Examples.host)
             (Some (Examples.analysis "hold" 100))
             (Some MoreExamples.empty_registry) Examples.start
           = (Return r, w'))
  /\ ~ Spec.skips (Examples.analysis "buy" 70)
  /\ ~ (exists r w',
           executeTrade (host := Examples.host)
             (Some (Examples.analysis "buy" 70))
             (Some (Examples.registry Examples.breaking)) Examples.start
           = (Return r, w')).
Proof.
  split; [left; reflexivity|]. split; [|split].
  - intros [r [w' H]]. vm_compute in H. discriminate.
  - passes_gate.
  - intros [r [w' H]]. vm_compute in H. discriminate.
Qed.

(** C2 as stated fails: with an agent that rejects the execution call, an
    analysis that passes the gate makes [executeTrade] throw; it returns
    no result at all, let alone one with [executed = false]. *)
Lemma executeTrade_failure_not_surfaced :
  ~ Spec.skips (Examples.analysis "buy" 85)
  /\ stream Examples.rejecting
       [ {| role := str "user";
            content := executionPrompt (host := Examples.host)
                         (Examples.analysis "buy" 85) |} ]
     = inl (Error (str "429 quota exceeded"))
  /\ ~ (exists r w',
           executeTrade (host := Examples.host)
             (Some (Examples.analysis "buy" 85))
             (Some (Examples.registry Examples.rejecting))
             Examples.start
           = (Return r, w')
           /\ Execution.executed r = false).
Proof.
  split; [|split].
  - passes_gate.
  - reflexivity.
  - intros [r [w' [H _]]]. vm_compute in H. discriminate.
Qed.

(** The error of a rejected call and the error of a stream that breaks
    midway both come out of the step. *)
Lemma executeTrade_failure_propagates_witness :
  fst (executeTrade (host := Examples.host)
         (Some (Examples.analysis "buy" 85))
         (Some (Examples.registry Examples.rejecting)) Examples.start)
  = Throw (Error (str "429 quota exceeded"))
  /\ fst (executeTrade (host := Examples.host)
            (Some (Examples.analysis "sell" 70))
            (Some (Examples.registry Examples.breaking)) Examples.start)
     = Throw (Error (str "socket hang up")).
Proof.
  split.
  - rewrite (executeTrade_failure_propagates (host := Examples.host)
               (Examples.analysis "buy" 85)
               (Examples.registry Examples.rejecting)
               Examples.rejecting Examples.start
               (Error (str "429 quota exceeded")) eq_refl
               ltac:(passes_gate)
               (or_introl eq_refl)).
    reflexivity.
  - rewrite (executeTrade_failure_propagates (host := Examples.host)
               (Examples.analysis "sell" 70)
               (Examples.registry Examples.breaking)
               Examples.breaking Examples.start
               (Error (str "socket hang up")) eq_refl
               ltac:(passes_gate)
               (or_intror (ex_intro _ _ (conj eq_refl eq_refl)))).
    reflexivity.
Defined.

End GateFacts.

(* ================================================================== *)
(** * The Analysis Prompt Builder *)
(* ================================================================== *)

Module PromptFacts.
Import Workflow.

Section WithHost.
Context {host : Host}.

Lemma analysisPrompt_lines (a : Alert.t) :
  analysisPrompt a
  = join nl (Prompt.header ++ alertLines a ++ Prompt.footer).
Proof. reflexivity. Qed.

(** What the template prints for an optional field: the value when it is
    truthy, the placeholder otherwise. *)
Lemma shown_absent (placeholder : string) :
  Prompt.or_else Undefined placeholder = str placeholder.
Proof. reflexivity. Qed.

Lemma shown_empty (placeholder : string) :
  Prompt.or_else (Str []) placeholder = str placeholder.
Proof. reflexivity. Qed.

Lemma shown_zero (q : Q) (placeholder : string) :
  (q == 0)%Q -> Prompt.or_else (Num (Fin q)) placeholder = str placeholder.
Proof.
  intro H. unfold Prompt.or_else.
  rewrite JSFacts.or_falsy; [reflexivity|].
  now apply JSFacts.falsy_zero.
Qed.

(** C8.  Whatever optional fields the alert has, the ALERT DATA block of
    the prompt is the same ten labelled lines in the same order, between
    the same fixed text; a missing strategy, timeframe or exchange reads
    "Not specified", a missing volume, RSI or MACD reads "Not available"
    and a missing message reads "No additional message". *)
Theorem analysisPrompt_uniform (a : Alert.t) :
  exists symbol price action strategy timeframe exchange volume rsi macd
         message : jsstring,
    analysisPrompt a
    = join nl
        (Prompt.header
         ++ [ Prompt.labelled "Symbol" symbol;
              Prompt.labelled "Price" price;
              Prompt.labelled "Action" action;
              Prompt.labelled "Strategy" strategy;
              Prompt.labelled "Timeframe" timeframe;
              Prompt.labelled "Exchange" exchange;
              Prompt.labelled "Volume" volume;
              Prompt.labelled "RSI" rsi;
              Prompt.labelled "MACD" macd;
              Prompt.labelled "Message" message ]
         ++ Prompt.footer)
    /\ (Alert.strategy a = None -> strategy = str "Not specified")
    /\ (Alert.timeframe a = None -> timeframe = str "Not specified")
    /\ (Alert.exchange a = None -> exchange = str "Not specified")
    /\ (Alert.volume a = None -> volume = str "Not available")
    /\ (Alert.rsi a = None -> rsi = str "Not available")
    /\ (Alert.macd a = None -> macd = str "Not available")
    /\ (Alert.message a = None -> message = str "No additional message").
Proof.
  exists (Alert.symbol a),
         (str "$" ++ Number_toString (Alert.price a)),
         (Alert.action a),
         (Prompt.or_else (of_str (Alert.strategy a)) "Not specified"),
         (Prompt.or_else (of_str (Alert.timeframe a)) "Not specified"),
         (Prompt.or_else (of_str (Alert.exchange a)) "Not specified"),
         (Prompt.or_else (of_num (Alert.volume a)) "Not available"),
         (Prompt.or_else (of_num (Alert.rsi a)) "Not available"),
         (Prompt.or_else (of_str (Alert.macd a)) "Not available"),
         (Prompt.or_else (of_str (Alert.message a)) "No additional message").
  split; [reflexivity|].
  repeat split; intros ->; apply shown_absent.
Qed.

(** C9.  An optional field that is given but falsy is printed as if it
    were missing: in the prompt a volume or RSI equal to 0 reads "Not
    available", and an empty strategy, timeframe, exchange, MACD or
    message reads its placeholder, because the template chooses with
    [||]. *)
Theorem analysisPrompt_falsy_placeholder (a : Alert.t) :
  exists symbol price action strategy timeframe exchange volume rsi macd
         message : jsstring,
    analysisPrompt a
    = join nl
        (Prompt.header
         ++ [ Prompt.labelled "Symbol" symbol;
              Prompt.labelled "Price" price;
              Prompt.labelled "Action" action;
              Prompt.labelled "Strategy" strategy;
              Prompt.labelled "Timeframe" timeframe;
              Prompt.labelled "Exchange" exchange;
              Prompt.labelled "Volume" volume;
              Prompt.labelled "RSI" rsi;
              Prompt.labelled "MACD" macd;
              Prompt.labelled "Message" message ]
         ++ Prompt.footer)
    /\ (forall q, Alert.volume a = Some (Fin q) -> (q == 0)%Q ->
        volume = str "Not available")
    /\ (forall q, Alert.rsi a = Some (Fin q) -> (q == 0)%Q ->
        rsi = str "Not available")
    /\ (Alert.strategy a = Some [] -> strategy = str "Not specified")
    /\ (Alert.timeframe a = Some [] -> timeframe = str "Not specified")
    /\ (Alert.exchange a = Some [] -> exchange = str "Not specified")
    /\ (Alert.macd a = Some [] -> macd = str "Not available")
    /\ (Alert.message a = Some [] -> message = str "No additional message").
Proof.
  exists (Alert.symbol a),
         (str "$" ++ Number_toString (Alert.price a)),
         (Alert.action a),
         (Prompt.or_else (of_str (Alert.strategy a)) "Not specified"),
         (Prompt.or_else (of_str (Alert.timeframe a)) "Not specified"),
         (Prompt.or_else (of_str (Alert.exchange a)) "Not specified"),
         (Prompt.or_else (of_num (Alert.volume a)) "Not available"),
         (Prompt.or_else (of_num (Alert.rsi a)) "Not available"),
         (Prompt.or_else (of_str (Alert.macd a)) "Not available"),
         (Prompt.or_else (of_str (Alert.message a)) "No additional message").
  split; [reflexivity|].
  split; [intros q -> Hq; now apply shown_zero|].
  split; [intros q -> Hq; now apply shown_zero|].
  repeat split; intros ->; apply shown_empty.
Qed.

End WithHost.

(** The block of an alert that has the required fields only. *)
Lemma analysisPrompt_uniform_witness :
  exists symbol price action : jsstring,
    analysisPrompt (host := Examples.host) Examples.bare_alert
    = join nl
        (Prompt.header
         ++ [ Prompt.labelled "Symbol" symbol;
              Prompt.labelled "Price" price;
              Prompt.labelled "Action" action;
              Prompt.labelled "Strategy" (str "Not specified");
              Prompt.labelled "Timeframe" (str "Not specified");
              Prompt.labelled "Exchange" (str "Not specified");
              Prompt.labelled "Volume" (str "Not available");
              Prompt.labelled "RSI" (str "Not available");
              Prompt.labelled "MACD" (str "Not available");
              Prompt.labelled "Message" (str "No additional message") ]
         ++ Prompt.footer).
Proof.
  destruct (analysisPrompt_uniform (host := Examples.host) Examples.bare_alert)
    as (symbol & price & action & strategy & timeframe & exchange & volume
        & rsi & macd & message & Heq & Hs & Ht & He & Hv & Hr & Hm & Hg).
  exists symbol, price, action.
  rewrite Heq, (Hs eq_refl), (Ht eq_refl), (He eq_refl), (Hv eq_refl),
    (Hr eq_refl), (Hm eq_refl), (Hg eq_refl).
  reflexivity.
Defined.

(** The prompt of an alert whose optional fields are all [0] or [""]:
    seven placeholders, and neither a 0 nor an empty text after a label. *)
Lemma analysisPrompt_falsy_placeholder_witness :
  exists symbol price action : jsstring,
    analysisPrompt (host := Examples.host) Examples.falsy_alert
    = join nl
        (Prompt.header
         ++ [ Prompt.labelled "Symbol" symbol;
              Prompt.labelled "Price" price;
              Prompt.labelled "Action" action;
              Prompt.labelled "Strategy" (str "Not specified");
              Prompt.labelled "Timeframe" (str "Not specified");
              Prompt.labelled "Exchange" (str "Not specified");
              Prompt.labelled "Volume" (str "Not available");
              Prompt.labelled "RSI" (str "Not available");
              Prompt.labelled "MACD" (str "Not available");
              Prompt.labelled "Message" (str "No additional message") ]
         ++ Prompt.footer).
Proof.
  destruct (analysisPrompt_falsy_placeholder (host := Examples.host)
              Examples.falsy_alert)
    as (symbol & price & action & strategy & timeframe & exchange & volume
        & rsi & macd & message & Heq & Hv & Hr & Hs & Ht & He & Hm & Hg).
  exists symbol, price, action.
  rewrite Heq, (Hv (inject_Z 0) eq_refl ltac:(reflexivity)),
    (Hr (inject_Z 0) eq_refl ltac:(reflexivity)),
    (Hs eq_refl), (Ht eq_refl), (He eq_refl), (Hm eq_refl), (Hg eq_refl).
  reflexivity.
Defined.

End PromptFacts.

(* ================================================================== *)
(** * The analysis step *)
(* ================================================================== *)

Module AnalysisFacts.
Import Regex Workflow.

Section WithHost.
Context {host : Host}.

(** [analyzeAlert] with the agent registered: one call, and what comes
    back decides. *)
Lemma analyzeAlert_run (alert : Alert.t) (m : Mastra) (agent : Agent)
      (w : World) :
  getAgent m (str "tradingAgent") = Some agent ->
  let messages := [ {| role := str "user"; content := analysisPrompt alert |} ] in
  let called := {| ticks := ticks w; calls := calls w ++ [messages] |} in
  analyzeAlert (Some alert) (Some m) w
  = match stream agent messages with
    | inl e => (Throw e, called)
    | inr response =>
        match failure response with
        | Some e => (Throw e, called)
        | None => (Return (parseAnalysis alert (text_of response)), called)
        end
    end.
Proof.
  intros Hreg messages called.
  unfold analyzeAlert, bind.
  rewrite (GateFacts.requireAgent_registered m agent w Hreg).
  unfold call_stream. fold messages.
  destruct (stream agent messages) as [e|response]; [reflexivity|].
  unfold read_all. destruct (failure response); reflexivity.
Qed.

(** Whatever [analyzeAlert] returns was parsed from a response. *)
Lemma analyzeAlert_returns (alert : Alert.t) (mastra : option Mastra)
      (w w' : World) (a : Analysis.t) :
  analyzeAlert (Some alert) mastra w = (Return a, w') ->
  exists text, a = parseAnalysis alert text.
Proof.
  unfold analyzeAlert, bind, requireAgent.
  destruct mastra as [m|]; [|discriminate].
  destruct (getAgent m (str "tradingAgent")) as [agent|]; [|discriminate].
  unfold ret, call_stream.
  destruct (stream agent _) as [e|response]; [discriminate|].
  unfold read_all. destruct (failure response); [discriminate|].
  intro H. inversion H; subst. now exists (text_of response).
Qed.

(** The [timeframe] of the analysis. *)
Lemma parseAnalysis_timeframe (alert : Alert.t) (text : jsstring) :
  Analysis.timeframe (parseAnalysis alert text)
  = match Alert.timeframe alert with
    | Some (c :: s) => c :: s
    | _ => str "1h"
    end.
Proof.
  unfold parseAnalysis. simpl.
  destruct (Alert.timeframe alert) as [[|c s]|]; reflexivity.
Qed.

(** C4.  When the agent's response contains none of the three markers,
    that is no substring matching the confidence, the recommended-action
    or the risk-level pattern, the extractor yields confidence 50, action
    ['hold'] and risk ['medium'], and [analyzeAlert] returns the analysis
    with these values: a result, not an error. *)
Theorem analyzeAlert_defaults (alert : Alert.t) (m : Mastra) (agent : Agent)
        (w : World) (response : TextStream) :
  getAgent m (str "tradingAgent") = Some agent ->
  stream agent [ {| role := str "user"; content := analysisPrompt alert |} ]
  = inr response ->
  failure response = None ->
  ~ occurs confidence_re (text_of response) ->
  ~ occurs action_re (text_of response) ->
  ~ occurs risk_re (text_of response) ->
  (extract_confidence (text_of response),
   extract_action (text_of response),
   extract_risk (text_of response))
  = (num 50, str "hold", str "medium")
  /\ exists a w',
       analyzeAlert (Some alert) (Some m) w = (Return a, w')
       /\ Analysis.confidence a = num 50
       /\ Analysis.recommendedAction a = str "hold"
       /\ Analysis.riskLevel a = str "medium".
Proof.
  intros Hreg Hstream Hfail Hc Ha Hr.
  pose proof (ExtractorFacts.extract_confidence_default _ Hc) as Ec.
  pose proof (ExtractorFacts.extract_action_default _ Ha) as Ea.
  pose proof (ExtractorFacts.extract_risk_default _ Hr) as Er.
  split; [now rewrite Ec, Ea, Er|].
  rewrite (analyzeAlert_run alert m agent w Hreg), Hstream, Hfail.
  eexists. eexists. split; [reflexivity|].
  unfold parseAnalysis. simpl. auto.
Qed.

(** C10.  The analysis [analyzeAlert] returns has the alert's price as
    [currentPrice]; its [timeframe] is ['1h'] when the alert's is absent
    or empty, and the alert's own otherwise.  The step does return once
    the registered agent has streamed its answer. *)
Theorem analyzeAlert_timeframe (alert : Alert.t) (m : Mastra) (agent : Agent)
        (w : World) (response : TextStream) :
  getAgent m (str "tradingAgent") = Some agent ->
  stream agent [ {| role := str "user"; content := analysisPrompt alert |} ]
  = inr response ->
  failure response = None ->
  exists a w',
    analyzeAlert (Some alert) (Some m) w = (Return a, w')
    /\ Analysis.currentPrice a = Alert.price alert
    /\ (Alert.timeframe alert = None \/ Alert.timeframe alert = Some [] ->
        Analysis.timeframe a = str "1h")
    /\ (forall c s, Alert.timeframe alert = Some (c :: s) ->
        Analysis.timeframe a = c :: s).
Proof.
  intros Hreg Hstream Hfail.
  rewrite (analyzeAlert_run alert m agent w Hreg), Hstream, Hfail.
  eexists. eexists. split; [reflexivity|].
  split; [reflexivity|]. rewrite parseAnalysis_timeframe. split.
  - intros [->| ->]; reflexivity.
  - intros c s ->. reflexivity.
Qed.

(** The same two facts for any run of the step that returns, whatever the
    Mastra instance and the agent. *)
Lemma analyzeAlert_timeframe_any (alert : Alert.t) (mastra : option Mastra)
      (w w' : World) (a : Analysis.t) :
  analyzeAlert (Some alert) mastra w = (Return a, w') ->
  Analysis.currentPrice a = Alert.price alert
  /\ Analysis.timeframe a
     = match Alert.timeframe alert with
       | Some (c :: s) => c :: s
       | _ => str "1h"
       end.
Proof.
  intro H. destruct (analyzeAlert_returns alert mastra w w' a H) as [text ->].
  split; [reflexivity | apply parseAnalysis_timeframe].
Qed.

End WithHost.

(** C3.  The extractor does not keep the confidence within 0..100: the
    pattern takes any run of digits, so the response "Confidence: 150%"
    gives 150, and [analyzeAlert] returns an analysis with that
    confidence although its output schema bounds it by 100. *)
Theorem extract_confidence_above_100 :
  extract_confidence (str "Confidence: 150%") = num 150
  /\ exists a w',
       analyzeAlert (host := Examples.host) (Some Examples.alert)
         (Some (Examples.registry
                  (Examples.answering
                     [str "Recommended action: buy. "; str "Confidence: 150%"])))
         Examples.start
       = (Return a, w')
       /\ Analysis.confidence a = num 150
       /\ Lt (num 100) (Analysis.confidence a).
Proof.
  split; [vm_compute; reflexivity|].
  eexists. eexists. split; [vm_compute; reflexivity|].
  split; vm_compute; reflexivity.
Qed.

(** The patterns ignore case and the capture is taken as it stands, so
    "Recommended action: HOLD" yields the action ["HOLD"], which is not
    the ['hold'] the gate compares with: at confidence 90 that analysis
    is not skipped. *)
Lemma uppercase_hold_passes_gate :
  extract_action (str "Recommended action: HOLD. Confidence: 90%")
  = str "HOLD"
  /\ ~ Spec.skips
        (parseAnalysis Examples.alert
           (str "Recommended action: HOLD. Confidence: 90%")).
Proof.
  split; [vm_compute; reflexivity | GateFacts.passes_gate].
Qed.

(** The defaults on a response that says nothing of the three. *)
Lemma analyzeAlert_defaults_witness :
  exists a w',
    analyzeAlert (host := Examples.host) (Some Examples.alert)
      (Some (Examples.registry
               (Examples.answering
                  [str "The market looks "; str "undecided today."])))
      Examples.start
    = (Return a, w')
    /\ Analysis.confidence a = num 50
    /\ Analysis.recommendedAction a = str "hold"
    /\ Analysis.riskLevel a = str "medium".
Proof.
  apply (proj2
           (analyzeAlert_defaults (host := Examples.host) Examples.alert
              (Examples.registry
                 (Examples.answering
                    [str "The market looks "; str "undecided today."]))
              (Examples.answering
                 [str "The market looks "; str "undecided today."])
              Examples.start
              {| chunks := [str "The market looks "; str "undecided today."];
                 failure := None |}
              eq_refl eq_refl eq_refl
              ltac:(ExtractorFacts.no_marker)
              ltac:(ExtractorFacts.no_marker)
              ltac:(ExtractorFacts.no_marker))).
Defined.

(** An alert on the 1h chart keeps it; one with an empty timeframe gets
    the default. *)
Lemma analyzeAlert_timeframe_witness :
  (exists a w',
      analyzeAlert (host := Examples.host) (Some Examples.alert)
        (Some (Examples.registry (Examples.answering [str "Hold."])))
        Examples.start
      = (Return a, w')
      /\ Analysis.currentPrice a = num 45000
      /\ Analysis.timeframe a = str "1h")
  /\ (exists a w',
         analyzeAlert (host := Examples.host) (Some Examples.falsy_alert)
           (Some (Examples.registry (Examples.answering [str "Hold."])))
           Examples.start
         = (Return a, w')
         /\ Analysis.timeframe a = str "1h").
Proof.
  split.
  - destruct (analyzeAlert_timeframe (host := Examples.host) Examples.alert
                (Examples.registry (Examples.answering [str "Hold."]))
                (Examples.answering [str "Hold."]) Examples.start
                {| chunks := [str "Hold."]; failure := None |}
                eq_refl eq_refl eq_refl)
      as (a & w' & Hrun & Hprice & _ & Htf).
    exists a, w'. split; [exact Hrun|]. split; [exact Hprice|].
    apply (Htf 49%N [104%N] eq_refl).
  - destruct (analyzeAlert_timeframe (host := Examples.host)
                Examples.falsy_alert
                (Examples.registry (Examples.answering [str "Hold."]))
                (Examples.answering [str "Hold."]) Examples.start
                {| chunks := [str "Hold."]; failure := None |}
                eq_refl eq_refl eq_refl)
      as (a & w' & Hrun & _ & Hdef & _).
    exists a, w'. split; [exact Hrun|]. apply Hdef. now right.
Defined.

End AnalysisFacts.

(* ================================================================== *)
(** * The webhook: validation and normalisation *)
(* ================================================================== *)

Module WebhookFacts.
Import Zod Webhook.

(** Case analysis on every zero test in the goal. *)
Ltac zero_tests :=
  repeat match goal with
         | |- context [Qeq_bool ?q 0] => destruct (Qeq_bool q 0); simpl
         end.

Lemma schema_keys_distinct : NoDup (map fst tradingViewWebhookSchema).
Proof.
  unfold tradingViewWebhookSchema. simpl map.
  repeat (constructor;
          [ simpl; intro H;
            repeat (destruct H as [H|H]; [discriminate H|]); exact H | ]).
  constructor.
Qed.

Lemma schema_field (k : jsstring) (f f' : field) :
  In (k, f) tradingViewWebhookSchema ->
  In (k, f') tradingViewWebhookSchema ->
  f = f'.
Proof.
  pose proof schema_keys_distinct as Hnd. revert Hnd.
  generalize tradingViewWebhookSchema as sh.
  induction sh as [|[k0 f0] sh IH]; simpl; [tauto|].
  intros Hnd [H|H] [H'|H'].
  - congruence.
  - inversion H; subst. inversion Hnd; subst.
    exfalso. apply H2. apply in_map_iff. now exists (k, f').
  - inversion H'; subst. inversion Hnd; subst.
    exfalso. apply H2. apply in_map_iff. now exists (k, f).
  - inversion Hnd; subst. now apply IH.
Qed.

(** The types of the fields the handler reads from a validated object. *)
Lemma validated_fields (body : json) (v : object) :
  parse tradingViewWebhookSchema body = inr v ->
  (exists s, prop v "symbol" = Str s)
  /\ (exists q, prop v "price" = Num (Fin q))
  /\ (exists s, prop v "action" = Str s /\ In s Spec.actions)
  /\ (prop v "timestamp" = Undefined
      \/ exists q, prop v "timestamp" = Num (Fin q))
  /\ (prop v "bar_time" = Undefined
      \/ exists q, prop v "bar_time" = Num (Fin q))
  /\ (prop v "close" = Undefined \/ exists q, prop v "close" = Num (Fin q)).
Proof.
  intro H.
  destruct (ZodFacts.parse_inr _ body v schema_keys_distinct H) as [o [-> Hf]].
  repeat split.
  - destruct (ZodFacts.parse_string _ _
                (Hf "symbol"%string string_ ltac:(simpl; tauto)))
      as [s [_ Hs]]. eauto.
  - destruct (ZodFacts.parse_number _ _
                (Hf "price"%string number_ ltac:(simpl; tauto)))
      as [q [_ Hq]]. eauto.
  - destruct (ZodFacts.parse_enum _ _ _
                (Hf "action"%string (enum_ Spec.actions) ltac:(simpl; tauto)))
      as [s [_ [Hs Hin]]]. eauto.
  - destruct (ZodFacts.parse_optional_number _ _
                (Hf "timestamp"%string (optional number_)
                    ltac:(simpl; tauto)))
      as [[_ Hu]|[q [_ Hq]]]; eauto.
  - destruct (ZodFacts.parse_optional_number _ _
                (Hf "bar_time"%string (optional number_)
                    ltac:(simpl; tauto)))
      as [[_ Hu]|[q [_ Hq]]]; eauto.
  - destruct (ZodFacts.parse_optional_number _ _
                (Hf "close"%string (optional number_)
                    ltac:(simpl; tauto)))
      as [[_ Hu]|[q [_ Hq]]]; eauto.
Qed.

(** An offending required field makes the schema report an issue under
    that field's path, and [parse] fail with all the issues. *)
Lemma parse_issue (o : list (jsstring * json)) (k : string) (f : field)
      (c : ZodIssueCode) :
  In (str k, f) tradingViewWebhookSchema ->
  parse_field f (get (str k) o) = inl c ->
  In {| code := c; path := [str k] |}
     (fst (parse_shape tradingViewWebhookSchema o))
  /\ parse tradingViewWebhookSchema (JObj o)
     = inl (fst (parse_shape tradingViewWebhookSchema o)).
Proof.
  intros Hin Hf.
  assert (Hissue : In {| code := c; path := [str k] |}
                      (fst (parse_shape tradingViewWebhookSchema o))).
  { apply ZodFacts.parse_shape_issues. now exists f. }
  split; [exact Hissue|].
  unfold parse.
  destruct (parse_shape tradingViewWebhookSchema o) as [[|i rest] vs];
    [destruct Hissue | reflexivity].
Qed.

Lemma string_rejects (x : option json) :
  Spec.not_a_string x -> parse_field string_ x = inl invalid_type.
Proof.
  intro H. destruct x as [[| | |s| |]|]; try reflexivity.
  exfalso. now apply (H s).
Qed.

Lemma number_rejects (x : option json) :
  Spec.not_numeric x -> parse_field number_ x = inl invalid_type.
Proof.
  intro H. destruct x as [[| |q| | |]|]; try reflexivity.
  exfalso. now apply (H q).
Qed.

Lemma enum_rejects (options : list jsstring) (x : option json) :
  Spec.not_among options x ->
  exists c, parse_field (enum_ options) x = inl c.
Proof.
  intro H. destruct x as [[| | |s| |]|]; simpl; eauto.
  destruct (existsb (JS.eqb s) options) eqn:E; eauto.
  exfalso. apply existsb_exists in E. destruct E as [s' [Hin Heq]].
  apply JSFacts.eqb_eq in Heq. subst s'. now apply (H s).
Qed.

Section WithHost.
Context {host : Host}.

(** A body that fails validation is answered with 400 and the issues; the
    world is left as it was: no clock read, no call to the agent. *)
Lemma post_invalid (m : Mastra) (body : json) (w : World)
      (errors : list ZodIssue) :
  parse tradingViewWebhookSchema body = inl errors ->
  post_webhook_tradingview m body w
  = (Return {| status := 400;
               body := Invalid (str "Invalid webhook data") errors |}, w).
Proof.
  intro H. unfold post_webhook_tradingview, try_catch, process, bind.
  now rewrite H.
Qed.

(** [alertData] in one piece: the clock is read only when the timestamp
    falls through to it. *)
Lemma alertData_run (v : object) (w : World) :
  alertData v w
  = (Return
       {| symbol := prop v "symbol";
          price := JS.or (JS.or (prop v "price") (prop v "close"))
                     (Num (num 0));
          action := prop v "action";
          strategy := JS.or (prop v "strategy") (prop v "alert_name");
          timeframe := prop v "timeframe";
          exchange := prop v "exchange";
          timestamp := JS.or (JS.or (prop v "timestamp") (prop v "bar_time"))
                         (Num (num (clock (ticks w))));
          message := prop v "message";
          volume := JS.or (prop v "volume") (prop v "volume_24h");
          rsi := prop v "rsi";
          macd := prop v "macd" |},
     if ToBoolean (JS.or (prop v "timestamp") (prop v "bar_time"))
     then w
     else {| ticks := S (ticks w); calls := calls w |}).
Proof.
  unfold alertData, bind.
  destruct (ToBoolean (JS.or (prop v "timestamp") (prop v "bar_time"))) eqn:E.
  - rewrite (JSFacts.or_truthy _ (Num (num (clock (ticks w)))) E).
    reflexivity.
  - rewrite (JSFacts.or_falsy _ (Num (num (clock (ticks w)))) E).
    reflexivity.
Qed.

End WithHost.

(** When the first alternative is given and truthy, or absent with the
    second one truthy or absent too, [||] and [??] choose alike. *)
Lemma or3_nullish (a b c : value) :
  a = Undefined \/ ToBoolean a = true ->
  b = Undefined \/ ToBoolean b = true ->
  JS.or (JS.or a b) c = nullish (nullish a b) c.
Proof.
  intros [->|Ha] [->|Hb]; unfold JS.or; simpl; rewrite ?Ha, ?Hb; simpl;
    rewrite ?Ha, ?Hb; try reflexivity.
  - destruct b; simpl in *; congruence.
  - destruct a; simpl in *; congruence.
  - destruct a; simpl in *; congruence.
Qed.

End WebhookFacts.

(* ================================================================== *)
(** * The webhook: the claims *)
(* ================================================================== *)

Module WebhookClaims.
Import Zod Webhook WebhookFacts.

Lemma in_symbol : In (str "symbol", string_) tradingViewWebhookSchema.
Proof. simpl. tauto. Qed.

Lemma in_price : In (str "price", number_) tradingViewWebhookSchema.
Proof. simpl. tauto. Qed.

Lemma in_action :
  In (str "action", enum_ Spec.actions) tradingViewWebhookSchema.
Proof. simpl. tauto. Qed.

(** A body with an offending required field fails validation. *)
Lemma parse_offending (body : json) :
  Spec.not_a_string (Spec.field_of body "symbol")
  \/ Spec.not_numeric (Spec.field_of body "price")
  \/ Spec.not_among Spec.actions (Spec.field_of body "action") ->
  exists errors,
    parse tradingViewWebhookSchema body = inl errors
    /\ errors <> []
    /\ forall o, body = JObj o ->
         errors = fst (parse_shape tradingViewWebhookSchema o).
Proof.
  intro H. destruct body as [| | | | |o];
    try (eexists; split; [reflexivity|]; split; discriminate).
  exists (fst (parse_shape tradingViewWebhookSchema o)).
  assert (Hparse : parse tradingViewWebhookSchema (JObj o)
                   = inl (fst (parse_shape tradingViewWebhookSchema o))).
  { simpl Spec.field_of in H. destruct H as [H|[H|H]].
    - exact (proj2 (parse_issue o "symbol" _ _ in_symbol (string_rejects _ H))).
    - exact (proj2 (parse_issue o "price" _ _ in_price (number_rejects _ H))).
    - destruct (enum_rejects _ _ H) as [c Hc].
      exact (proj2 (parse_issue o "action" _ _ in_action Hc)). }
  split; [exact Hparse|]. split.
  - apply ZodFacts.parse_inl in Hparse. tauto.
  - intros o' Heq. now inversion Heq.
Qed.

Section WithHost.
Context {host : Host}.

(** C5, as the code has it.  The normaliser is total on validated input
    and touches nothing but the clock; it coalesces with [||]:
    [price || close || 0], [strategy || alert_name],
    [timestamp || bar_time || Date.now()], [volume || volume_24h], the
    other fields as they are; [price] and [timestamp] always come out as
    numbers; and the result is the one of the [??] reading whenever the
    price, the strategy, the timestamp, the bar time and the volume are
    truthy where given. *)
Theorem alertData_coalesces (body : json) (v : object) (w : World) :
  parse tradingViewWebhookSchema body = inr v ->
  exists a w',
    alertData v w = (Return a, w')
    /\ calls w' = calls w
    /\ price a
       = JS.or (JS.or (prop v "price") (prop v "close")) (Num (num 0))
    /\ strategy a = JS.or (prop v "strategy") (prop v "alert_name")
    /\ timestamp a
       = JS.or (JS.or (prop v "timestamp") (prop v "bar_time"))
           (Num (num (clock (ticks w))))
    /\ volume a = JS.or (prop v "volume") (prop v "volume_24h")
    /\ (exists q, price a = Num (Fin q))
    /\ (exists q, timestamp a = Num (Fin q))
    /\ (Spec.given_is_truthy v "price" ->
        Spec.given_is_truthy v "strategy" ->
        Spec.given_is_truthy v "timestamp" ->
        Spec.given_is_truthy v "bar_time" ->
        Spec.given_is_truthy v "volume" ->
        a = Spec.normalize v (num (clock (ticks w)))).
Proof.
  intro Hparse.
  destruct (validated_fields body v Hparse)
    as (_ & [qp Hp] & _ & Hts & Hbt & Hcl).
  rewrite alertData_run. eexists. eexists.
  split; [reflexivity|]. split.
  { destruct (ToBoolean _); reflexivity. }
  simpl. repeat (split; [reflexivity|]). split; [|split].
  - rewrite Hp. unfold num.
    destruct Hcl as [->|[qc ->]]; unfold JS.or; simpl;
      zero_tests; eexists; reflexivity.
  - unfold num.
    destruct Hts as [->|[qt ->]]; destruct Hbt as [->|[qb ->]];
      unfold JS.or; simpl; zero_tests; eexists; reflexivity.
  - intros Gp Gs Gt Gb Gv. unfold Spec.normalize.
    rewrite (or3_nullish (prop v "timestamp") (prop v "bar_time") _ Gt Gb).
    rewrite (JSFacts.or_nullish (prop v "strategy") _ Gs).
    rewrite (JSFacts.or_nullish (prop v "volume") _ Gv).
    assert (Hprice : JS.or (JS.or (prop v "price") (prop v "close"))
                       (Num (num 0))
                     = nullish (nullish (prop v "price") (prop v "close"))
                         (Num (num 0))).
    { destruct Gp as [Gp|Gp]; [rewrite Hp in Gp; discriminate|].
      unfold JS.or. rewrite Gp, Gp. rewrite Hp. reflexivity. }
    rewrite Hprice. reflexivity.
Qed.

(** C6, as the code has it.  A body in which [symbol] is not a string,
    [price] is not a number or [action] is not one of buy, sell, alert
    fails validation as a whole: [parse] yields issues and no object, and
    the handler answers 400 "Invalid webhook data" with them.  The issues
    name each offending required field by its path; an optional field
    that is absent raises none, and one that is present with the wrong
    type raises one under its path. *)
Theorem validator_rejects (m : Mastra) (body : json) (w : World) :
  Spec.not_a_string (Spec.field_of body "symbol")
  \/ Spec.not_numeric (Spec.field_of body "price")
  \/ Spec.not_among Spec.actions (Spec.field_of body "action") ->
  exists errors,
    parse tradingViewWebhookSchema body = inl errors
    /\ errors <> []
    /\ post_webhook_tradingview m body w
       = (Return {| status := 400;
                    body := Invalid (str "Invalid webhook data") errors |}, w)
    /\ forall o, body = JObj o ->
         (Spec.not_a_string (get (str "symbol") o) ->
          exists c, In {| code := c; path := [str "symbol"] |} errors)
         /\ (Spec.not_numeric (get (str "price") o) ->
             exists c, In {| code := c; path := [str "price"] |} errors)
         /\ (Spec.not_among Spec.actions (get (str "action") o) ->
             exists c, In {| code := c; path := [str "action"] |} errors)
         /\ (forall k f,
               In (k, f) tradingViewWebhookSchema -> is_optional f = true ->
               (get k o = None ->
                forall c, ~ In {| code := c; path := [k] |} errors)
               /\ (forall j c,
                     get k o = Some j -> parse_type (ty f) j = inl c ->
                     In {| code := c; path := [k] |} errors)).
Proof.
  intro H. destruct (parse_offending body H) as (errors & Hparse & Hne & Hshape).
  exists errors. split; [exact Hparse|]. split; [exact Hne|].
  split; [now apply post_invalid|].
  intros o ->. rewrite (Hshape o eq_refl).
  split; [|split; [|split]].
  - intro Hs. exists invalid_type.
    exact (proj1 (parse_issue o "symbol" _ _ in_symbol (string_rejects _ Hs))).
  - intro Hp. exists invalid_type.
    exact (proj1 (parse_issue o "price" _ _ in_price (number_rejects _ Hp))).
  - intro Ha. destruct (enum_rejects _ _ Ha) as [c Hc]. exists c.
    exact (proj1 (parse_issue o "action" _ _ in_action Hc)).
  - intros k f Hk Hopt. split.
    + intros Habsent c Hin.
      apply ZodFacts.parse_shape_issues in Hin.
      destruct Hin as [f' [Hin' Hf']].
      rewrite (schema_field k f' f Hin' Hk) in Hf'.
      rewrite Habsent in Hf'. simpl in Hf'. rewrite Hopt in Hf'.
      discriminate.
    + intros j c Hget Hty.
      apply ZodFacts.parse_shape_issues. exists f. split; [exact Hk|].
      rewrite Hget. exact Hty.
Qed.

(** C7.  A body without [symbol], without [price] or with an [action]
    that is not accepted is answered with 400 "Invalid webhook data", and
    the world after the request is the world before it: the agent was
    not called, not even looked up, and the clock was not read. *)
Theorem invalid_alert_never_reaches_agent (m : Mastra) (body : json)
        (w : World) :
  Spec.field_of body "symbol" = None
  \/ Spec.field_of body "price" = None
  \/ Spec.not_among Spec.actions (Spec.field_of body "action") ->
  exists errors,
    post_webhook_tradingview m body w
    = (Return {| status := 400;
                 body := Invalid (str "Invalid webhook data") errors |}, w)
    /\ errors <> []
    /\ calls (snd (post_webhook_tradingview m body w)) = calls w.
Proof.
  intro H.
  assert (H' : Spec.not_a_string (Spec.field_of body "symbol")
               \/ Spec.not_numeric (Spec.field_of body "price")
               \/ Spec.not_among Spec.actions (Spec.field_of body "action")).
  { destruct H as [H|[H|H]].
    - left. rewrite H. intros s Hs. discriminate.
    - right. left. rewrite H. intros q Hq. discriminate.
    - right. right. exact H. }
  destruct (parse_offending body H') as (errors & Hparse & Hne & _).
  exists errors. rewrite (post_invalid m body w errors Hparse).
  split; [reflexivity|]. split; [exact Hne | reflexivity].
Qed.

End WithHost.

(** C5 as stated fails: for [{symbol, price: 0, action, close: 45000}]
    the [??] reading keeps the price 0 that was given, the code falls
    through to [close]. *)
Lemma alertData_not_nullish :
  exists v a w',
    parse tradingViewWebhookSchema Examples.zero_price = inr v
    /\ alertData (host := Examples.host) v Examples.start = (Return a, w')
    /\ price a = Num (num 45000)
    /\ price (Spec.normalize v (num (@clock Examples.host 0))) = Num (num 0)
    /\ a <> Spec.normalize v (num (@clock Examples.host 0)).
Proof.
  eexists. eexists. eexists.
  split; [vm_compute; reflexivity|].
  split; [vm_compute; reflexivity|].
  split; [reflexivity|]. split; [reflexivity|].
  intro H. apply (f_equal price) in H. vm_compute in H. discriminate.
Qed.

(** The payload of the test script normalised: nothing falsy is given,
    so both readings agree, and the timestamp is the clock's. *)
Lemma alertData_coalesces_witness :
  exists v a w',
    parse tradingViewWebhookSchema Examples.testAlert = inr v
    /\ alertData (host := Examples.host) v Examples.start = (Return a, w')
    /\ (exists q, price a = Num (Fin q))
    /\ (exists q, timestamp a = Num (Fin q))
    /\ a = Spec.normalize v (num (@clock Examples.host 0)).
Proof.
  destruct (parse tradingViewWebhookSchema Examples.testAlert) as [errors|v]
    eqn:Hparse; [vm_compute in Hparse; discriminate|].
  destruct (alertData_coalesces (host := Examples.host) Examples.testAlert v
              Examples.start Hparse)
    as (a & w' & Hrun & _ & _ & _ & _ & _ & Hp & Ht & Hagree).
  exists v, a, w'. split; [reflexivity|]. split; [exact Hrun|].
  split; [exact Hp|]. split; [exact Ht|].
  vm_compute in Hparse. inversion Hparse; subst v.
  apply Hagree; (right; reflexivity) || (left; reflexivity).
Defined.

(** C6 as stated fails: the empty string is not a non-empty string, yet
    [{symbol: "", price: 45000, action: "buy"}] passes validation and is
    answered with 200. *)
Lemma empty_symbol_accepted :
  Spec.not_a_nonempty_string (Spec.field_of Examples.empty_symbol "symbol")
  /\ (exists v, parse tradingViewWebhookSchema Examples.empty_symbol = inr v
                /\ prop v "symbol" = Str [])
  /\ (exists r w',
         post_webhook_tradingview (host := Examples.host)
           (Examples.registry (Examples.answering [str "Hold."]))
           Examples.empty_symbol Examples.start
         = (Return r, w')
         /\ status r = 200).
Proof.
  split; [|split].
  - intros c s H. vm_compute in H. discriminate.
  - eexists. split; vm_compute; reflexivity.
  - eexists. eexists. split; vm_compute; reflexivity.
Qed.

(** [{symbol: "BTCUSDT"}]: the issues name [price] and [action]. *)
Lemma validator_rejects_witness :
  exists errors,
    post_webhook_tradingview (host := Examples.host)
      (Examples.registry (Examples.answering [str "Hold."]))
      Examples.malformed Examples.start
    = (Return {| status := 400;
                 body := Invalid (str "Invalid webhook data") errors |},
       Examples.start)
    /\ (exists c, In {| code := c; path := [str "price"] |} errors)
    /\ (exists c, In {| code := c; path := [str "action"] |} errors).
Proof.
  destruct (validator_rejects (host := Examples.host)
              (Examples.registry (Examples.answering [str "Hold."]))
              Examples.malformed Examples.start
              ltac:(right; left; intros q H; vm_compute in H; discriminate))
    as (errors & _ & _ & Hpost & Hfields).
  destruct (Hfields _ eq_refl) as (_ & Hprice & Haction & _).
  exists errors. split; [exact Hpost|]. split.
  - apply Hprice. intros q H. vm_compute in H. discriminate.
  - apply Haction. intros s _ H. vm_compute in H. discriminate.
Defined.

(** [{symbol: "BTCUSDT"}] again: 400, and not one call in the world. *)
Lemma invalid_alert_never_reaches_agent_witness :
  exists errors,
    post_webhook_tradingview (host := Examples.host)
      (Examples.registry (Examples.answering [str "Hold."]))
      Examples.malformed Examples.start
    = (Return {| status := 400;
                 body := Invalid (str "Invalid webhook data") errors |},
       Examples.start)
    /\ calls (snd (post_webhook_tradingview (host := Examples.host)
                     (Examples.registry (Examples.answering [str "Hold."]))
                     Examples.malformed Examples.start))
       = [].
Proof.
  destruct (invalid_alert_never_reaches_agent (host := Examples.host)
              (Examples.registry (Examples.answering [str "Hold."]))
              Examples.malformed Examples.start
              ltac:(right; left; reflexivity))
    as (errors & Hpost & _ & Hcalls).
  exists errors. split; [exact Hpost | exact Hcalls].
Defined.

End WebhookClaims.

(* ================================================================== *)
(** * The webhook handler from end to end *)
(* ================================================================== *)

Module HandlerFacts.
Import Zod Webhook WebhookFacts.

Section WithHost.
Context {host : Host}.

(** The handler on a body that passed validation, branch by branch. *)
Lemma post_valid (m : Mastra) (req_body : json) (w : World) (v : object) :
  parse tradingViewWebhookSchema req_body = inr v ->
  exists a w1,
    alertData v w = (Return a, w1)
    /\ calls w1 = calls w
    /\ post_webhook_tradingview m req_body w
       = match getAgent m (str "tradingAgent") with
         | None =>
             (Return {| status := 500;
                        body := Failed (str "Internal server error")
                                  (str "Trading agent not found") |}, w1)
         | Some agent =>
             let messages := [ {| role := str "user"; content := prompt a |} ] in
             let called :=
               {| ticks := ticks w1; calls := calls w1 ++ [messages] |} in
             let caught e :=
               match e with
               | ZodError errors =>
                   (Return {| status := 400;
                              body := Invalid (str "Invalid webhook data")
                                        errors |}, called)
               | Error message =>
                   (Return {| status := 500;
                              body := Failed (str "Internal server error")
                                        message |}, called)
               | NotAnError _ =>
                   (Return {| status := 500;
                              body := Failed (str "Internal server error")
                                        (str "Unknown error") |}, called)
               end in
             match stream agent messages with
             | inl e => caught e
             | inr response =>
                 match failure response with
                 | Some e => caught e
                 | None =>
                     (Return
                        {| status := 200;
                           body :=
                             Processed
                               (str "TradingView alert processed successfully")
                               (str "log_"
                                ++ Number_toString (num (clock (ticks w1))))
                               (text_of response) |},
                      {| ticks := S (S (ticks w1));
                         calls := calls w1 ++ [messages] |})
                 end
             end
         end.
Proof.
  intro Hparse.
  pose proof (alertData_run v w) as Hrun.
  eexists. eexists. split; [exact Hrun|]. split.
  { destruct (ToBoolean _); reflexivity. }
  unfold post_webhook_tradingview, try_catch, process, bind.
  rewrite Hparse. unfold ret at 1. rewrite Hrun.
  destruct (getAgent m (str "tradingAgent")) as [agent|]; [|reflexivity].
  unfold ret at 1, call_stream.
  destruct (stream agent _) as [[msg|errors|id]|response]; try reflexivity.
  unfold read_all.
  destruct (failure response) as [[msg|errors|id]|]; reflexivity.
Qed.

(** A response was sent, with one of the three statuses, after no call
    or one. *)
Ltac sent :=
  eexists; eexists; split; [reflexivity|]; simpl;
  split;
  [ auto
  | first [ left; reflexivity | left; assumption
          | right; eexists; reflexivity ] ].


(** X2.  A 200 is sent exactly on the path where the body is valid, the
    agent is registered and its stream ends without error; the response
    then carries the whole text of the stream and the identifier
    [log_<clock>], and the one call made had the prompt of the normalised
    alert as its only message. *)
Theorem post_webhook_success (m : Mastra) (req_body : json) (w : World) :
  (forall v a w1 agent response,
      parse tradingViewWebhookSchema req_body = inr v ->
      alertData v w = (Return a, w1) ->
      getAgent m (str "tradingAgent") = Some agent ->
      stream agent [ {| role := str "user"; content := prompt a |} ]
      = inr response ->
      failure response = None ->
      post_webhook_tradingview m req_body w
      = (Return
           {| status := 200;
              body :=
                Processed (str "TradingView alert processed successfully")
                  (str "log_" ++ Number_toString (num (clock (ticks w1))))
                  (text_of response) |},
         {| ticks := S (S (ticks w1));
            calls := calls w
                     ++ [[ {| role := str "user"; content := prompt a |} ]] |}))
  /\ (forall r w',
        post_webhook_tradingview m req_body w = (Return r, w') ->
        status r = 200 ->
        exists v a w1 agent response,
          parse tradingViewWebhookSchema req_body = inr v
          /\ alertData v w = (Return a, w1)
          /\ getAgent m (str "tradingAgent") = Some agent
          /\ stream agent [ {| role := str "user"; content := prompt a |} ]
             = inr response
          /\ failure response = None).
Proof.
  split.
  - intros v a w1 agent response Hparse Hrun Hreg Hstream Hfail.
    destruct (post_valid m req_body w v Hparse)
      as (a' & w1' & Hrun' & Hcalls & Hpost).
    rewrite Hrun in Hrun'. inversion Hrun'; subst a' w1'.
    rewrite Hpost, Hreg. cbv zeta. rewrite Hstream, Hfail, Hcalls.
    reflexivity.
  - intros r w' Hpost H200.
    destruct (parse tradingViewWebhookSchema req_body) as [errors|v] eqn:Hparse.
    + rewrite (post_invalid m req_body w errors Hparse) in Hpost.
      inversion Hpost; subst. discriminate.
    + destruct (post_valid m req_body w v Hparse)
        as (a & w1 & Hrun & Hcalls & Hpost').
      rewrite Hpost' in Hpost. clear Hpost'.
      destruct (getAgent m (str "tradingAgent")) as [agent|];
        [|inversion Hpost; subst; discriminate].
      cbv zeta in Hpost.
      destruct (stream agent _) as [[msg|errors|id]|response] eqn:Hstream;
        try (inversion Hpost; subst; discriminate).
      destruct (failure response) as [[msg|errors|id]|] eqn:Hfail;
        try (inversion Hpost; subst; discriminate).
      exists v, a, w1, agent, response. auto.
Qed.

(** X3.  The [catch] block asks only whether the error is a [ZodError],
    not where it came from: when the body is valid and the agent call
    fails with a [ZodError], the handler answers 400 "Invalid webhook
    data" with the agent's issues, after the call was made. *)
Theorem agent_validation_error_answers_400 (m : Mastra) (req_body : json)
        (w w1 : World) (v : object) (a : AlertData) (agent : Agent)
        (errors : list ZodIssue) :
  parse tradingViewWebhookSchema req_body = inr v ->
  alertData v w = (Return a, w1) ->
  getAgent m (str "tradingAgent") = Some agent ->
  (stream agent [ {| role := str "user"; content := prompt a |} ]
   = inl (ZodError errors)
   \/ exists response,
        stream agent [ {| role := str "user"; content := prompt a |} ]
        = inr response
        /\ failure response = Some (ZodError errors)) ->
  post_webhook_tradingview m req_body w
  = (Return {| status := 400;
               body := Invalid (str "Invalid webhook data") errors |},
     {| ticks := ticks w1;
        calls := calls w
                 ++ [[ {| role := str "user"; content := prompt a |} ]] |}).
Proof.
  intros Hparse Hrun Hreg Hfail.
  destruct (post_valid m req_body w v Hparse)
    as (a' & w1' & Hrun' & Hcalls & Hpost).
  rewrite Hrun in Hrun'. inversion Hrun'; subst a' w1'.
  rewrite Hpost, Hreg. cbv zeta. rewrite Hcalls.
  destruct Hfail as [->|[response [-> ->]]]; reflexivity.
Qed.

(** X4.  What the error statuses mean.  A 400 comes from a body that
    failed validation, with nothing done, or from an agent call that
    failed with a [ZodError]; a 500 comes only after a valid body, from a
    missing agent (no call made) or from an agent call that failed with
    something else: an [Error], whose message is reported, or a value
    that is no [Error], reported as "Unknown error". *)
Theorem post_webhook_error_statuses (m : Mastra) (req_body : json)
        (w w' : World) (r : Response) :
  post_webhook_tradingview m req_body w = (Return r, w') ->
  (status r = 400 ->
   (exists errors,
       parse tradingViewWebhookSchema req_body = inl errors
       /\ body r = Invalid (str "Invalid webhook data") errors /\ w' = w)
   \/ (exists v agent messages errors,
          parse tradingViewWebhookSchema req_body = inr v
          /\ getAgent m (str "tradingAgent") = Some agent
          /\ calls w' = calls w ++ [messages]
          /\ body r = Invalid (str "Invalid webhook data") errors
          /\ (stream agent messages = inl (ZodError errors)
              \/ exists response,
                   stream agent messages = inr response
                   /\ failure response = Some (ZodError errors))))
  /\ (status r = 500 ->
      exists v,
        parse tradingViewWebhookSchema req_body = inr v
        /\ ((getAgent m (str "tradingAgent") = None
             /\ calls w' = calls w
             /\ body r = Failed (str "Internal server error")
                           (str "Trading agent not found"))
            \/ (exists agent messages e,
                   getAgent m (str "tradingAgent") = Some agent
                   /\ calls w' = calls w ++ [messages]
                   /\ (stream agent messages = inl e
                       \/ exists response,
                            stream agent messages = inr response
                            /\ failure response = Some e)
                   /\ Notions.reports (body r) e))).
Proof.
  intro Hpost.
  destruct (parse tradingViewWebhookSchema req_body) as [errors|v] eqn:Hparse.
  - rewrite (post_invalid m req_body w errors Hparse) in Hpost.
    inversion Hpost; subst. simpl. split; [|discriminate].
    intros _. left. exists errors. auto.
  - destruct (post_valid m req_body w v Hparse)
      as (a & w1 & Hrun & Hcalls & Hpost').
    rewrite Hpost' in Hpost. clear Hpost'.
    destruct (getAgent m (str "tradingAgent")) as [agent|].
    + cbv zeta in Hpost. rewrite Hcalls in Hpost.
      destruct (stream agent _) as [[msg|errors|id]|response] eqn:Hstream.
      * inversion Hpost; subst. simpl. split; [discriminate|].
        intros _. exists v. split; [reflexivity|]. right.
        exists agent. eexists. exists (Error msg).
        split; [reflexivity|]. split; [reflexivity|].
        split; [left; exact Hstream|]. left. now exists msg.
      * inversion Hpost; subst. simpl. split; [|discriminate].
        intros _. right. exists v, agent. eexists. exists errors.
        repeat split; eauto.
      * inversion Hpost; subst. simpl. split; [discriminate|].
        intros _. exists v. split; [reflexivity|]. right.
        exists agent. eexists. exists (NotAnError id).
        split; [reflexivity|]. split; [reflexivity|].
        split; [left; exact Hstream|]. right. now exists id.
      * destruct (failure response) as [[msg|errors|id]|] eqn:Hfail.
        -- inversion Hpost; subst. simpl. split; [discriminate|].
           intros _. exists v. split; [reflexivity|]. right.
           exists agent. eexists. exists (Error msg).
           split; [reflexivity|]. split; [reflexivity|].
           split; [right; exists response; now split|].
           left. now exists msg.
        -- inversion Hpost; subst. simpl. split; [|discriminate].
           intros _. right. exists v, agent. eexists. exists errors.
           repeat split; eauto.
        -- inversion Hpost; subst. simpl. split; [discriminate|].
           intros _. exists v. split; [reflexivity|]. right.
           exists agent. eexists. exists (NotAnError id).
           split; [reflexivity|]. split; [reflexivity|].
           split; [right; exists response; now split|].
           right. now exists id.
        -- inversion Hpost; subst. simpl. split; discriminate.
    + inversion Hpost; subst. simpl. split; [discriminate|].
      intros _. exists v. split; [reflexivity|]. left. auto.
Qed.

End WithHost.

(** The test payload answered by an agent that says "Hold.": the clock
    is read once for the timestamp, so the log identifier is the second
    reading. *)
Lemma post_webhook_success_witness :
  exists w',
    post_webhook_tradingview (host := Examples.host)
      (Examples.registry (Examples.answering [str "Hold."]))
      Examples.testAlert Examples.start
    = (Return
         {| status := 200;
            body := Processed (str "TradingView alert processed successfully")
                      (str "log_1700000000001") (str "Hold.") |}, w')
    /\ length (calls w') = 1.
Proof.
  destruct (parse tradingViewWebhookSchema Examples.testAlert)
    as [errors|v] eqn:Hparse; [vm_compute in Hparse; discriminate|].
  pose proof (alertData_run (host := Examples.host) v Examples.start) as Hrun.
  rewrite (proj1 (post_webhook_success (host := Examples.host)
                    (Examples.registry (Examples.answering [str "Hold."]))
                    Examples.testAlert Examples.start)
             v _ _ (Examples.answering [str "Hold."])
             {| chunks := [str "Hold."]; failure := None |}
             Hparse Hrun eq_refl eq_refl eq_refl).
  vm_compute in Hparse. inversion Hparse; subst v.
  eexists. split; [vm_compute; reflexivity | reflexivity].
Defined.

(** The test payload with an agent that throws a [ZodError] of its own:
    the caller is told that the webhook data is invalid. *)
Lemma agent_validation_error_answers_400_witness :
  exists w',
    post_webhook_tradingview (host := Examples.host)
      (Examples.registry MoreExamples.zod_failing)
      Examples.testAlert Examples.start
    = (Return
         {| status := 400;
            body := Invalid (str "Invalid webhook data")
                      [ {| code := invalid_type;
                           path := [str "amount"] |} ] |}, w').
Proof.
  destruct (parse tradingViewWebhookSchema Examples.testAlert)
    as [errors|v] eqn:Hparse; [vm_compute in Hparse; discriminate|].
  pose proof (alertData_run (host := Examples.host) v Examples.start) as Hrun.
  rewrite (agent_validation_error_answers_400 (host := Examples.host)
             (Examples.registry MoreExamples.zod_failing)
             Examples.testAlert Examples.start _ v _
             MoreExamples.zod_failing
             [ {| code := invalid_type; path := [str "amount"] |} ]
             Hparse Hrun eq_refl (or_introl eq_refl)).
  eexists. reflexivity.
Defined.

(** The test payload with an agent that rejects with a string: a 500
    after a body that was valid and one call, and the error text is
    "Unknown error". *)
Lemma post_webhook_error_statuses_witness :
  exists r w',
    post_webhook_tradingview (host := Examples.host)
      (Examples.registry MoreExamples.throwing_string)
      Examples.testAlert Examples.start
    = (Return r, w')
    /\ status r = 500
    /\ (exists v, parse tradingViewWebhookSchema Examples.testAlert = inr v)
    /\ body r = Failed (str "Internal server error") (str "Unknown error").
Proof.
  destruct (post_webhook_tradingview (host := Examples.host)
              (Examples.registry MoreExamples.throwing_string)
              Examples.testAlert Examples.start) as [[r|e] w'] eqn:Hpost;
    [|vm_compute in Hpost; discriminate].
  assert (H500 : status r = 500)
    by (vm_compute in Hpost; inversion Hpost; reflexivity).
  exists r, w'. split; [reflexivity|]. split; [exact H500|].
  destruct (proj2 (post_webhook_error_statuses (host := Examples.host)
                     (Examples.registry MoreExamples.throwing_string)
                     Examples.testAlert Examples.start w' r Hpost) H500)
    as [v [Hv [[Hnone _]|(agent & messages & e & Hreg & _ & Hfail & Hrep)]]].
  - vm_compute in Hnone. discriminate.
  - split; [now exists v|].
    vm_compute in Hreg. inversion Hreg; subst agent.
    destruct Hfail as [Hs|[response [Hs _]]]; vm_compute in Hs;
      [|discriminate].
    inversion Hs; subst e.
    destruct Hrep as [[message [He _]]|[id [_ Hb]]]; [discriminate|].
    exact Hb.
Defined.

End HandlerFacts.

(* ================================================================== *)
(** * What validation keeps, drops and reports *)
(* ================================================================== *)

Module SchemaFacts.
Import Zod Webhook.

(** Validation looks at the declared keys only. *)
Lemma parse_shape_agree (sh : shape) (o1 o2 : list (jsstring * json)) :
  Notions.agree_on sh o1 o2 -> parse_shape sh o1 = parse_shape sh o2.
Proof.
  induction sh as [|[k f] sh IH]; intro H; [reflexivity|].
  simpl. rewrite IH.
  - rewrite (H k); [reflexivity | now left].
  - intros k' Hk'. apply H. now right.
Qed.

(** What a field parses to is the value that was given. *)
Lemma parse_field_value (f : field) (x : option json) (val : value) :
  parse_field f x = inr val -> val = Notions.to_value x.
Proof.
  destruct f as [[| |options] opt]; destruct x as [[| | | | |]|]; simpl;
    try discriminate; try (destruct opt; discriminate);
    try (intro H; inversion H; reflexivity).
  - destruct opt; [intro H; inversion H; reflexivity | discriminate].
  - destruct opt; [intro H; inversion H; reflexivity | discriminate].
  - destruct (existsb (JS.eqb s) options); [|discriminate].
    intro H; inversion H; reflexivity.
  - destruct opt; [intro H; inversion H; reflexivity | discriminate].
Qed.

(** Every issue sits under the path of one declared key whose value did
    not parse. *)
Lemma parse_shape_issue_form (sh : shape) (o : list (jsstring * json))
      (i : ZodIssue) :
  In i (fst (parse_shape sh o)) ->
  exists k f, path i = [k] /\ In (k, f) sh
              /\ parse_field f (get k o) = inl (code i).
Proof.
  induction sh as [|[k0 f0] sh IH]; simpl; [tauto|].
  destruct (parse_shape sh o) as [issues vs]. simpl in IH.
  destruct (parse_field f0 (get k0 o)) as [c0|v] eqn:E.
  - simpl. intros [<-|Hin].
    + exists k0, f0. simpl. auto.
    + destruct (IH Hin) as (k & f & Hp & Hk & Hf). exists k, f. auto.
  - assert (Hfst : fst (match v with
                        | Undefined => (issues, vs)
                        | _ => (issues, (k0, v) :: vs)
                        end) = issues) by (destruct v; reflexivity).
    rewrite Hfst. intro Hin.
    destruct (IH Hin) as (k & f & Hp & Hk & Hf). exists k, f. auto.
Qed.

Lemma parse_shape_paths_distinct (sh : shape) (o : list (jsstring * json)) :
  NoDup (map fst sh) -> NoDup (map path (fst (parse_shape sh o))).
Proof.
  induction sh as [|[k0 f0] sh IH]; simpl; intro Hnd; [constructor|].
  inversion Hnd as [|? ? Hk0 Hnd']; subst.
  pose proof (parse_shape_issue_form sh o) as Hform.
  destruct (parse_shape sh o) as [issues vs]. simpl in IH, Hform.
  destruct (parse_field f0 (get k0 o)) as [c0|v].
  - simpl. constructor; [|now apply IH].
    intro Hin. apply in_map_iff in Hin. destruct Hin as [i [Hp Hi]].
    destruct (Hform i Hi) as (k & f & Hpath & Hk & _).
    rewrite Hpath in Hp. inversion Hp; subst k.
    apply Hk0. apply in_map_iff. now exists (k0, f).
  - replace (fst (match v with
                  | Undefined => (issues, vs)
                  | _ => (issues, (k0, v) :: vs)
                  end)) with issues by (destruct v; reflexivity).
    now apply IH.
Qed.

Lemma parse_shape_count (sh : shape) (o : list (jsstring * json)) :
  length (fst (parse_shape sh o)) <= length sh.
Proof.
  induction sh as [|[k0 f0] sh IH]; simpl; [lia|].
  destruct (parse_shape sh o) as [issues vs]. simpl in IH.
  destruct (parse_field f0 (get k0 o)) as [c0|[| |]]; simpl; lia.
Qed.

(** An object passes exactly when each declared key parses. *)
Lemma parse_ok_iff (sh : shape) (o : list (jsstring * json)) :
  (exists v, parse sh (JObj o) = inr v)
  <-> forall k f, In (k, f) sh -> exists val, parse_field f (get k o) = inr val.
Proof.
  split.
  - intros [v Hv] k f Hin.
    destruct (parse_field f (get k o)) as [c|val] eqn:E; [|eauto].
    exfalso.
    assert (Hissue : In {| code := c; path := [k] |} (fst (parse_shape sh o)))
      by (apply ZodFacts.parse_shape_issues; eauto).
    unfold parse in Hv.
    destruct (parse_shape sh o) as [[|i rest] vs];
      [destruct Hissue | discriminate].
  - intro Hall.
    assert (Hnone : fst (parse_shape sh o) = []).
    { destruct (fst (parse_shape sh o)) as [|i rest] eqn:E; [reflexivity|].
      exfalso.
      destruct (parse_shape_issue_form sh o i) as (k & f & _ & Hk & Hf).
      { rewrite E. now left. }
      destruct (Hall k f Hk) as [val Hval]. congruence. }
    unfold parse. destruct (parse_shape sh o) as [issues vs].
    simpl in Hnone. subst issues. eauto.
Qed.

Section WithHost.
Context {host : Host}.

(** X5.  Keys the schema does not declare, and the order of the keys,
    make no difference: two bodies that give the same value to each of
    the twenty declared keys pass or fail validation alike and get the
    same response. *)
Theorem undeclared_keys_ignored (m : Mastra) (o1 o2 : list (jsstring * json))
        (w : World) :
  Notions.agree_on Webhook.tradingViewWebhookSchema o1 o2 ->
  parse Webhook.tradingViewWebhookSchema (JObj o1)
  = parse Webhook.tradingViewWebhookSchema (JObj o2)
  /\ Webhook.post_webhook_tradingview m (JObj o1) w
     = Webhook.post_webhook_tradingview m (JObj o2) w.
Proof.
  intro H.
  assert (Hparse : parse Webhook.tradingViewWebhookSchema (JObj o1)
                   = parse Webhook.tradingViewWebhookSchema (JObj o2)).
  { unfold parse. now rewrite (parse_shape_agree _ o1 o2 H). }
  split; [exact Hparse|].
  unfold Webhook.post_webhook_tradingview, Webhook.process.
  now rewrite Hparse.
Qed.

End WithHost.


(** X7.  The issues of a rejected object: there is at least one and at
    most twenty, each is under the one-key path of a declared key whose
    value did not parse, and no key is reported twice. *)
Theorem issues_name_offending_keys (o : list (jsstring * json))
        (errors : list ZodIssue) :
  parse Webhook.tradingViewWebhookSchema (JObj o) = inl errors ->
  1 <= length errors <= 20
  /\ NoDup (map path errors)
  /\ forall i, In i errors ->
       exists k f, path i = [k]
                   /\ In (k, f) Webhook.tradingViewWebhookSchema
                   /\ parse_field f (get k o) = inl (code i).
Proof.
  intro Hparse. apply ZodFacts.parse_inl in Hparse.
  destruct Hparse as [-> Hne]. split; [split|split].
  - destruct (fst (parse_shape Webhook.tradingViewWebhookSchema o));
      [congruence | simpl; lia].
  - exact (parse_shape_count Webhook.tradingViewWebhookSchema o).
  - apply parse_shape_paths_distinct. exact WebhookFacts.schema_keys_distinct.
  - intros i Hi. now apply parse_shape_issue_form.
Qed.

(** X8.  The two servers do not accept the same bodies.  What the full
    handler accepts with an action other than ['alert'] the demo handler
    accepts too; what the demo handler accepts the full handler accepts
    provided none of the fourteen keys only it declares is given. *)
Theorem demo_and_full_schema (o : list (jsstring * json)) :
  (forall v,
      parse Webhook.tradingViewWebhookSchema (JObj o) = inr v ->
      prop v "action" <> Str (str "alert") ->
      exists v', parse Demo.tradingViewWebhookSchema (JObj o) = inr v')
  /\ (forall v',
        parse Demo.tradingViewWebhookSchema (JObj o) = inr v' ->
        (forall k, In k (map fst Webhook.tradingViewWebhookSchema) ->
                   ~ In k (map fst Demo.tradingViewWebhookSchema) ->
                   get k o = None) ->
        exists v, parse Webhook.tradingViewWebhookSchema (JObj o) = inr v).
Proof.
  split.
  - intros v Hparse Haction.
    destruct (ZodFacts.parse_inr _ _ v WebhookFacts.schema_keys_distinct Hparse)
      as [o' [Ho Hf]].
    inversion Ho; subst o'.
    apply parse_ok_iff. intros k f Hin. simpl in Hin.
    destruct Hin as [H|[H|[H|[H|[H|[H|[]]]]]]]; inversion H; subst k f.
    + exists (prop v "symbol").
      apply (Hf "symbol"%string). simpl; tauto.
    + exists (prop v "price").
      apply (Hf "price"%string). simpl; tauto.
    + pose proof (Hf "action"%string (enum_ Spec.actions)
                     ltac:(simpl; tauto)) as Ha.
      destruct (ZodFacts.parse_enum _ _ _ Ha) as [s [Hget [Hs Hin]]].
      rewrite Hget. simpl.
      rewrite Hs in Haction.
      destruct Hin as [<-|[<-|[<-|[]]]];
        [eexists; reflexivity | eexists; reflexivity | congruence].
    + exists (prop v "timeframe").
      apply (Hf "timeframe"%string). simpl; tauto.
    + exists (prop v "exchange").
      apply (Hf "exchange"%string). simpl; tauto.
    + exists (prop v "message").
      apply (Hf "message"%string). simpl; tauto.
  - intros v' Hparse Habsent.
    assert (Hdemo : forall k f, In (k, f) Demo.tradingViewWebhookSchema ->
                      exists val, parse_field f (get k o) = inr val)
      by (apply parse_ok_iff; eauto).
    apply parse_ok_iff. intros k f Hin.
    assert (Hkey : In k (map fst Webhook.tradingViewWebhookSchema))
      by (apply in_map_iff; now exists (k, f)).
    simpl in Hin.
    repeat (destruct Hin as [H|Hin];
            [ inversion H; subst k f;
              first
                [ apply Hdemo; simpl; tauto
                | rewrite (Habsent _ Hkey
                             ltac:(simpl; intro Hd;
                                   repeat (destruct Hd as [Hd|Hd];
                                           [discriminate Hd|]);
                                   exact Hd));
                  eexists; reflexivity
                | idtac ]
            | ]); try destruct Hin.
    (* the action: the demo's two options are among the three *)
    destruct (Hdemo (str "action") (enum_ [str "buy"; str "sell"])
                ltac:(simpl; tauto)) as [val Hval].
    destruct (ZodFacts.parse_enum _ _ _ Hval) as [s [Hget [_ Hs]]].
    rewrite Hget. simpl.
    destruct Hs as [<-|[<-|[]]]; eexists; reflexivity.
Qed.

(** Every declared key has the same value in the two objects. *)
Ltac same_fields :=
  let k := fresh "k" in
  let H := fresh "H" in
  intros k H; simpl in H;
  repeat (destruct H as [<-|H]; [reflexivity|]); destruct H.

(** No declared key is the given one. *)
Ltac undeclared :=
  let H := fresh "H" in
  simpl; intro H; repeat (destruct H as [H|H]; [discriminate H|]); exact H.

(** The test payload, and the same with a key [note] and the keys in
    another order. *)
Lemma undeclared_keys_ignored_witness :
  post_webhook_tradingview (host := Examples.host)
    (Examples.registry (Examples.answering [str "Hold."]))
    MoreExamples.testAlert_extra Examples.start
  = post_webhook_tradingview (host := Examples.host)
      (Examples.registry (Examples.answering [str "Hold."]))
      Examples.testAlert Examples.start.
Proof.
  apply (undeclared_keys_ignored (host := Examples.host)
           (Examples.registry (Examples.answering [str "Hold."]))
           [ (str "note", JBool true);
             (str "action", JStr (str "buy"));
             (str "symbol", JStr (str "BTCUSDT"));
             (str "exchange", JStr (str "binance"));
             (str "price", JNum (inject_Z 45000));
             (str "timeframe", JStr (str "1h"));
             (str "message",
              JStr (str "RSI below 30, potential buy signal detected")) ]
           [ (str "symbol", JStr (str "BTCUSDT"));
             (str "price", JNum (inject_Z 45000));
             (str "action", JStr (str "buy"));
             (str "timeframe", JStr (str "1h"));
             (str "exchange", JStr (str "binance"));
             (str "message",
              JStr (str "RSI below 30, potential buy signal detected")) ]
           Examples.start ltac:(same_fields)).
Defined.


(** [{symbol: 7, price: "45000", rsi: "low"}] *)
Lemma issues_name_offending_keys_witness :
  exists errors,
    parse tradingViewWebhookSchema MoreExamples.thrice_wrong = inl errors
    /\ 1 <= length errors <= 20
    /\ NoDup (map path errors).
Proof.
  destruct (parse tradingViewWebhookSchema MoreExamples.thrice_wrong)
    as [errors|v] eqn:Hparse; [|vm_compute in Hparse; discriminate].
  exists errors. split; [reflexivity|].
  destruct (issues_name_offending_keys _ errors Hparse) as (Hlen & Hnd & _).
  split; assumption.
Defined.

(** The test payload passes both schemas, either way round. *)
Lemma demo_and_full_schema_witness :
  (exists v', parse Demo.tradingViewWebhookSchema Examples.testAlert = inr v')
  /\ (exists v, parse tradingViewWebhookSchema Examples.testAlert = inr v).
Proof.
  assert (Hfull : exists v,
             parse tradingViewWebhookSchema Examples.testAlert = inr v
             /\ prop v "action" <> Str (str "alert")).
  { eexists. split; [vm_compute; reflexivity | vm_compute; discriminate]. }
  destruct Hfull as (v & Hfull & Haction).
  destruct (proj1 (demo_and_full_schema _) v Hfull Haction) as [v' Hdemo].
  split; [now exists v'|].
  apply (proj2 (demo_and_full_schema _) v' Hdemo).
  intros k Hk Hnot. simpl in Hk.
  repeat (destruct Hk as [<-|Hk];
          [first [reflexivity | exfalso; apply Hnot; simpl; tauto]|]).
  destruct Hk.
Defined.

(** Neither schema is the stricter one: ['alert'] passes the full schema
    only, a worded [volume] passes the demo schema only. *)
Lemma demo_and_full_schema_differ :
  (exists v, parse tradingViewWebhookSchema MoreExamples.alert_action = inr v)
  /\ (exists errors,
         parse Demo.tradingViewWebhookSchema MoreExamples.alert_action
         = inl errors)
  /\ (exists v',
         parse Demo.tradingViewWebhookSchema MoreExamples.worded_volume
         = inr v')
  /\ (exists errors,
         parse tradingViewWebhookSchema MoreExamples.worded_volume
         = inl errors).
Proof.
  repeat split; eexists; vm_compute; reflexivity.
Qed.

End SchemaFacts.

(* ================================================================== *)
(** * The test endpoint *)
(* ================================================================== *)

Module ServerFacts.
Import Server.

Section WithHost.
Context {host : Host} {errorText : ErrorText}.


End WithHost.


End ServerFacts.

(* ================================================================== *)
(** * The workflow from end to end *)
(* ================================================================== *)

Module PipelineFacts.
Import Regex Workflow Pipeline.

Section WithHost.
Context {host : Host}.

Lemma logTradeEvent_run (e : Execution.t) (w : World) :
  logTradeEvent (Some e) w
  = (Return {| Logging.logged := true;
               Logging.logId :=
                 str "log_" ++ Number_toString (num (clock (ticks w))) |},
     {| ticks := S (S (ticks w)); calls := calls w |}).
Proof. reflexivity. Qed.

(** The workflow once the analysis is in: gate, perhaps the execution
    call, then the log. *)
Lemma after_analysis (alert : Alert.t) (m : Mastra) (agent : Agent)
      (w : World) (response : TextStream) :
  getAgent m (str "tradingAgent") = Some agent ->
  stream agent [ {| role := str "user"; content := analysisPrompt alert |} ]
  = inr response ->
  failure response = None ->
  tradingWorkflow alert (Some m) w
  = bind (executeTrade (Some (parseAnalysis alert (text_of response)))
            (Some m))
      (fun execution =>
         bind (logTradeEvent (Some execution))
           (fun logging =>
              ret {| analysis := parseAnalysis alert (text_of response);
                     execution := execution;
                     logging := logging |}))
      {| ticks := ticks w;
         calls := calls w
                  ++ [[ {| role := str "user";
                           content := analysisPrompt alert |} ]] |}.
Proof.
  intros Hreg Hstream Hfail.
  unfold tradingWorkflow. unfold bind at 1.
  rewrite (AnalysisFacts.analyzeAlert_run alert m agent w Hreg).
  rewrite Hstream, Hfail. reflexivity.
Qed.

(** An analysis call that fails ends the run there. *)
Lemma analysis_fails (alert : Alert.t) (m : Mastra) (agent : Agent)
      (w : World) (e : exn) :
  getAgent m (str "tradingAgent") = Some agent ->
  (stream agent [ {| role := str "user"; content := analysisPrompt alert |} ]
   = inl e
   \/ exists response,
        stream agent
          [ {| role := str "user"; content := analysisPrompt alert |} ]
        = inr response
        /\ failure response = Some e) ->
  tradingWorkflow alert (Some m) w
  = (Throw e,
     {| ticks := ticks w;
        calls := calls w
                 ++ [[ {| role := str "user";
                          content := analysisPrompt alert |} ]] |}).
Proof.
  intros Hreg Hfail.
  unfold tradingWorkflow. unfold bind at 1.
  rewrite (AnalysisFacts.analyzeAlert_run alert m agent w Hreg).
  destruct Hfail as [->|[response [-> ->]]]; reflexivity.
Qed.

(** Without the agent nothing is called. *)
Lemma agent_missing (alert : Alert.t) (mastra : option Mastra) (w : World) :
  match mastra with
  | Some m => getAgent m (str "tradingAgent") = None
  | None => True
  end ->
  tradingWorkflow alert mastra w
  = (Throw (Error (str "Trading agent not found")), w).
Proof.
  intro H. unfold tradingWorkflow. unfold bind at 1.
  unfold analyzeAlert, requireAgent, bind.
  destruct mastra as [m|]; [rewrite H|]; reflexivity.
Qed.

(** X10.  Without a recommended-action marker, or without a confidence
    marker, in the agent's analysis the workflow does not trade: it
    returns with [executed = false] and no trade identifier, the event is
    logged, and the analysis call is the only call made to the agent. *)
Theorem workflow_holds_without_markers (alert : Alert.t) (m : Mastra)
        (agent : Agent) (w : World) (response : TextStream) :
  getAgent m (str "tradingAgent") = Some agent ->
  stream agent [ {| role := str "user"; content := analysisPrompt alert |} ]
  = inr response ->
  failure response = None ->
  ~ occurs action_re (text_of response)
  \/ ~ occurs confidence_re (text_of response) ->
  exists out w',
    tradingWorkflow alert (Some m) w = (Return out, w')
    /\ analysis out = parseAnalysis alert (text_of response)
    /\ Execution.executed (execution out) = false
    /\ Execution.tradeId (execution out) = None
    /\ Logging.logged (logging out) = true
    /\ calls w'
       = calls w
         ++ [[ {| role := str "user"; content := analysisPrompt alert |} ]].
Proof.
  intros Hreg Hstream Hfail Hmarker.
  assert (Hskip : Spec.skips (parseAnalysis alert (text_of response))).
  { destruct Hmarker as [Ha|Hc].
    - left. simpl. now apply ExtractorFacts.extract_action_default.
    - right. simpl.
      rewrite (ExtractorFacts.extract_confidence_default _ Hc).
      reflexivity. }
  rewrite (after_analysis alert m agent w response Hreg Hstream Hfail).
  unfold bind at 1.
  destruct (GateFacts.executeTrade_skip _ m agent
              {| ticks := ticks w;
                 calls := calls w
                          ++ [[ {| role := str "user";
                                   content := analysisPrompt alert |} ]] |}
              Hreg Hskip) as (r & Hrun & Hex & Hid).
  rewrite Hrun. unfold bind. rewrite logTradeEvent_run.
  eexists. eexists. split; [reflexivity|]. simpl. auto.
Qed.

(** X11.  However a run of the workflow ends, it has called the agent at
    most twice; when it returns, it has made the analysis call and,
    exactly when a trade was executed, the execution call after it, and
    nothing else. *)
Theorem workflow_calls (alert : Alert.t) (mastra : option Mastra)
        (w : World) :
  exists made,
    calls (snd (tradingWorkflow alert mastra w)) = calls w ++ made
    /\ length made <= 2
    /\ forall out,
         fst (tradingWorkflow alert mastra w) = Return out ->
         made
         = [ {| role := str "user"; content := analysisPrompt alert |} ]
           :: (if Execution.executed (execution out)
               then [[ {| role := str "user";
                          content := executionPrompt (analysis out) |} ]]
               else []).
Proof.
  destruct mastra as [m|].
  2: { rewrite (agent_missing alert None w I).
       exists []. split; [simpl; now rewrite app_nil_r|].
       split; [simpl; lia|]. intros out H. discriminate H. }
  destruct (getAgent m (str "tradingAgent")) as [agent|] eqn:Hreg.
  2: { rewrite (agent_missing alert (Some m) w Hreg).
       exists []. split; [simpl; now rewrite app_nil_r|].
       split; [simpl; lia|]. intros out H. discriminate H. }
  destruct (stream agent
              [ {| role := str "user"; content := analysisPrompt alert |} ])
    as [e|response] eqn:Hstream.
  { rewrite (analysis_fails alert m agent w e Hreg (or_introl Hstream)).
    eexists. split; [reflexivity|]. split; [simpl; lia|].
    intros out H. discriminate H. }
  destruct (failure response) as [e|] eqn:Hfail.
  { rewrite (analysis_fails alert m agent w e Hreg
               (or_intror (ex_intro _ response (conj Hstream Hfail)))).
    eexists. split; [reflexivity|]. split; [simpl; lia|].
    intros out H. discriminate H. }
  rewrite (after_analysis alert m agent w response Hreg Hstream Hfail).
  set (a := parseAnalysis alert (text_of response)).
  set (w1 := {| ticks := ticks w;
                calls := calls w
                         ++ [[ {| role := str "user";
                                  content := analysisPrompt alert |} ]] |}).
  destruct (ltb (Analysis.confidence a) (num 70)
            || JS.eqb (Analysis.recommendedAction a) (str "hold")) eqn:Htest.
  - assert (Hskip : Spec.skips a) by now apply GateFacts.gate_test.
    destruct (GateFacts.executeTrade_skip a m agent w1 Hreg Hskip)
      as (r & Hrun & Hex & _).
    unfold bind at 1 3. rewrite Hrun. unfold bind.
    rewrite logTradeEvent_run.
    exists [[ {| role := str "user"; content := analysisPrompt alert |} ]].
    split; [reflexivity|]. split; [simpl; lia|].
    intros out H. simpl in H. inversion H; subst out. simpl.
    now rewrite Hex.
  - assert (Hpass : ~ Spec.skips a).
    { intro Hs. apply GateFacts.gate_test in Hs. congruence. }
    assert (Hrun := GateFacts.executeTrade_pass a m agent w1 Hreg Hpass).
    cbv zeta in Hrun.
    unfold bind at 1 3. rewrite Hrun. clear Hrun.
    exists [ [ {| role := str "user"; content := analysisPrompt alert |} ];
             [ {| role := str "user"; content := executionPrompt a |} ] ].
    destruct (stream agent
                [ {| role := str "user"; content := executionPrompt a |} ])
      as [e|answer].
    { simpl. rewrite <- app_assoc. split; [reflexivity|].
      split; [lia|]. intros out H. discriminate H. }
    destruct (failure answer) as [e|].
    { simpl. rewrite <- app_assoc. split; [reflexivity|].
      split; [lia|]. intros out H. discriminate H. }
    unfold bind. rewrite logTradeEvent_run.
    simpl. rewrite <- app_assoc. split; [reflexivity|]. split; [lia|].
    intros out H. inversion H; subst out. reflexivity.
Qed.

End WithHost.

(** An analysis that names no action: one call, no trade, one log. *)
Lemma workflow_holds_without_markers_witness :
  exists out w',
    tradingWorkflow (host := Examples.host) Examples.alert
      (Some (Examples.registry
               (Examples.answering [str "Strong momentum. Confidence: 95%"])))
      Examples.start
    = (Return out, w')
    /\ Execution.executed (execution out) = false
    /\ Logging.logged (logging out) = true
    /\ length (calls w') = 1.
Proof.
  destruct (workflow_holds_without_markers (host := Examples.host)
              Examples.alert
              (Examples.registry
                 (Examples.answering [str "Strong momentum. Confidence: 95%"]))
              (Examples.answering [str "Strong momentum. Confidence: 95%"])
              Examples.start
              {| chunks := [str "Strong momentum. Confidence: 95%"];
                 failure := None |}
              eq_refl eq_refl eq_refl
              ltac:(left; ExtractorFacts.no_marker))
    as (out & w' & Hrun & _ & Hex & _ & Hlog & Hcalls).
  exists out, w'. split; [exact Hrun|]. split; [exact Hex|].
  split; [exact Hlog|]. rewrite Hcalls. reflexivity.
Defined.

(** An analysis that recommends buying at 85%: two calls. *)
Lemma workflow_calls_witness :
  exists out,
    fst (tradingWorkflow (host := Examples.host) Examples.alert
           (Some (Examples.registry
                    (Examples.answering
                       [str "recommended action: buy, ";
                        str "confidence: 85%, risk level: low"])))
           Examples.start)
    = Return out
    /\ Execution.executed (execution out) = true
    /\ Analysis.riskLevel (analysis out) = str "low"
    /\ length (calls (snd (tradingWorkflow (host := Examples.host)
                             Examples.alert
                             (Some (Examples.registry
                                      (Examples.answering
                                         [str "recommended action: buy, ";
                                          str "confidence: 85%, risk level: low"])))
                             Examples.start)))
       = 2.
Proof.
  destruct (workflow_calls (host := Examples.host) Examples.alert
              (Some (Examples.registry
                       (Examples.answering
                          [str "recommended action: buy, ";
                           str "confidence: 85%, risk level: low"])))
              Examples.start) as (made & Hcalls & _ & Hmade).
  destruct (fst (tradingWorkflow (host := Examples.host) Examples.alert
                   (Some (Examples.registry
                            (Examples.answering
                               [str "recommended action: buy, ";
                                str "confidence: 85%, risk level: low"])))
                   Examples.start)) as [out|e] eqn:Hrun;
    [|vm_compute in Hrun; discriminate].
  assert (Hex : Execution.executed (execution out) = true)
    by (vm_compute in Hrun; inversion Hrun; reflexivity).
  assert (Hrisk : Analysis.riskLevel (analysis out) = str "low")
    by (vm_compute in Hrun; inversion Hrun; reflexivity).
  exists out. split; [reflexivity|]. split; [exact Hex|].
  split; [exact Hrisk|].
  rewrite Hcalls, (Hmade out eq_refl), Hex. reflexivity.
Defined.

End PipelineFacts.

(* ================================================================== *)
(** * What the extractor reads *)
(* ================================================================== *)

Module ExtractorMore.
Import Regex Workflow.

(** A word matches a literal under the [i] flag when the two agree up to
    letter case. *)
Lemma lang_word (l x : jsstring) :
  lang (seq (map chr_i l)) x -> Notions.upper x = Notions.upper l.
Proof.
  revert x; induction l as [|c l IH]; intros x H.
  - simpl in H. now subst.
  - destruct H as (u & v & -> & (c0 & -> & Hc) & Hv).
    apply N.eqb_eq in Hc. simpl. unfold Notions.upper in IH.
    rewrite Hc. f_equal. now apply IH.
Qed.

Lemma run_word (l : jsstring) :
  forall word c rest,
    Notions.upper word = Notions.upper l ->
    run (seq (map chr_i l)) (c, word ++ rest) = [(c, rest)].
Proof.
  induction l as [|x l IH]; intros [|y word] c rest H; simpl in H;
    try discriminate; [reflexivity|].
  inversion H as [[Hy Hword]].
  change (run (seq (map chr_i (x :: l))) (c, (y :: word) ++ rest))
    with (flat_map (run (seq (map chr_i l)))
            (if (canonicalize y =? canonicalize x)%N
             then [(c, word ++ rest)] else [])).
  rewrite Hy, N.eqb_refl. simpl. rewrite (IH word c rest Hword).
  reflexivity.
Qed.

Lemma run_cat_head (a b : regex) (st mid fin : state) (l1 l2 : list state) :
  run a st = mid :: l1 -> run b mid = fin :: l2 ->
  exists l, run (Cat a b) st = fin :: l.
Proof.
  intros Ha Hb. simpl. rewrite Ha. simpl. rewrite Hb. simpl. eauto.
Qed.

Lemma run_group_head (a : regex) (c c' : option jsstring)
      (s s' : jsstring) (l : list state) :
  run a (c, s) = (c', s') :: l ->
  exists l',
    run (Group a) (c, s)
    = (Some (firstn (length s - length s') s), s') :: l'.
Proof. intro H. simpl. rewrite H. simpl. eauto. Qed.

Lemma run_cat_nil (a b : regex) (st : state) :
  run a st = [] -> run (Cat a b) st = [].
Proof. intro Ha. simpl. now rewrite Ha. Qed.

Lemma star_loop_S (step : state -> list state) (fuel : nat) (st : state) :
  star_loop step (S fuel) st
  = flat_map
      (fun st' =>
         if length (snd st') <? length (snd st)
         then star_loop step fuel st' else [])
      (step st)
    ++ [st].
Proof. reflexivity. Qed.

(** The greedy iteration of a class reads the whole run first. *)
Lemma star_class_head (p : N -> bool) (seps rest : jsstring)
      (c : option jsstring) :
  Forall (fun x => p x = true) seps ->
  match rest with [] => True | x :: _ => p x = false end ->
  forall fuel, length (seps ++ rest) <= fuel ->
    exists l, star_loop (run (Chr p)) fuel (c, seps ++ rest) = (c, rest) :: l.
Proof.
  intros Hseps Hrest. induction Hseps as [|x seps Hx _ IH]; intros fuel Hfuel.
  - destruct fuel as [|fuel]; simpl; [eauto|].
    destruct rest as [|y rest]; simpl; [eauto|]. rewrite Hrest. simpl. eauto.
  - destruct fuel as [|fuel]; [simpl in Hfuel; lia|].
    destruct (IH fuel) as [l Hl]; [simpl in Hfuel; lia|].
    assert (Hstep : run (Chr p) (c, (x :: seps) ++ rest)
                    = [(c, seps ++ rest)])
      by (simpl; rewrite Hx; reflexivity).
    rewrite star_loop_S, Hstep. cbn [flat_map snd].
    match goal with
    | |- context [if ?a <? ?b then _ else _] =>
        destruct (Nat.ltb_spec a b) as [_|Hge]; [|simpl in Hge; lia]
    end.
    rewrite Hl. simpl. eauto.
Qed.

(** [\d+] in front of something that is no digit reads all the digits. *)
Lemma plus_digit_head (ds rest : jsstring) (c : option jsstring) :
  ds <> [] -> Forall (fun x => is_digit x = true) ds ->
  match rest with [] => True | x :: _ => is_digit x = false end ->
  exists l, run (Plus digit) (c, ds ++ rest) = (c, rest) :: l.
Proof.
  intros Hne Hds Hrest. destruct ds as [|d ds]; [congruence|].
  inversion Hds as [|? ? Hd Hds']; subst.
  destruct (star_class_head is_digit ds rest c Hds' Hrest
              (length (ds ++ rest)) (Nat.le_refl _)) as [l Hl].
  assert (Hstep : run digit (c, (d :: ds) ++ rest) = [(c, ds ++ rest)])
    by (simpl; rewrite Hd; reflexivity).
  assert (Hstar : run (Star digit) (c, ds ++ rest) = (c, rest) :: l)
    by exact Hl.
  exact (run_cat_head digit (Star digit) _ _ _ _ _ Hstep Hstar).
Qed.

Lemma separator_not_digit (c : N) :
  is_digit c = true -> Notions.is_separator c = false.
Proof.
  intro H. unfold Notions.is_separator.
  rewrite (JSFacts.digit_not_space c H).
  apply JSFacts.digit_range in H.
  destruct (N.eqb_spec c 58); [lia | reflexivity].
Qed.

(** The confidence pattern at the start of its marker. *)
Lemma confidence_at_marker (word seps ds post : jsstring) :
  Notions.upper word = str "CONFIDENCE" ->
  Forall (fun x => Notions.is_separator x = true) seps ->
  ds <> [] -> Forall (fun x => is_digit x = true) ds ->
  exists m,
    match_at confidence_re (word ++ seps ++ ds ++ str "%" ++ post) = Some m
    /\ group1 m = Some ds.
Proof.
  intros Hword Hseps Hne Hds.
  assert (H1 : run (lit_i "confidence")
                 (None, word ++ seps ++ ds ++ str "%" ++ post)
               = [(None, seps ++ ds ++ str "%" ++ post)])
    by (apply run_word; exact Hword).
  assert (H2 : exists l,
             run (Star colon_or_space) (None, seps ++ ds ++ str "%" ++ post)
             = (None, ds ++ str "%" ++ post) :: l).
  { apply (star_class_head _ seps (ds ++ str "%" ++ post) None Hseps).
    - destruct ds as [|d ds]; [congruence|]. inversion Hds; subst.
      now apply separator_not_digit.
    - apply Nat.le_refl. }
  destruct H2 as [l2 H2].
  assert (H3 : exists l,
             run (Group (Plus digit)) (None, ds ++ str "%" ++ post)
             = (Some ds, str "%" ++ post) :: l).
  { destruct (plus_digit_head ds (str "%" ++ post) None Hne Hds eq_refl)
      as [l Hl].
    destruct (run_group_head _ _ _ _ _ _ Hl) as [l' Hl'].
    rewrite (RegexFacts.firstn_consumed ds (str "%" ++ post)) in Hl'.
    eauto. }
  destruct H3 as [l3 H3].
  assert (H4 : run (seq [chr 37]) (Some ds, str "%" ++ post)
               = [(Some ds, post)]) by reflexivity.
  destruct (run_cat_head _ _ _ _ _ _ _ H3 H4) as [l5 H5].
  destruct (run_cat_head _ _ _ _ _ _ _ H2 H5) as [l6 H6].
  destruct (run_cat_head _ _ _ _ _ _ _ H1 H6) as [l7 H7].
  unfold match_at.
  change (run confidence_re (None, word ++ seps ++ ds ++ str "%" ++ post))
    with (run (Cat (lit_i "confidence")
                 (Cat (Star colon_or_space)
                    (Cat (Group (Plus digit)) (seq [chr 37]))))
            (None, word ++ seps ++ ds ++ str "%" ++ post)).
  unfold state in *. rewrite H7. eexists. split; reflexivity.
Qed.

(** No match of the confidence pattern starts at a code unit that is
    neither [c] nor [C]. *)
Lemma confidence_not_here (x : N) (t : jsstring) :
  canonicalize x <> 67%N -> match_at confidence_re (x :: t) = None.
Proof.
  intro Hx. apply RegexFacts.match_at_none.
  change confidence_re
    with (Cat (Cat (chr_i 99) (seq (map chr_i (str "onfidence"))))
            (seq [Star colon_or_space; Group (Plus digit); chr 37])).
  apply run_cat_nil. apply run_cat_nil.
  unfold chr_i. simpl run.
  change (canonicalize 99) with 67%N.
  destruct (N.eqb_spec (canonicalize x) 67); [contradiction | reflexivity].
Qed.

Lemma search_here (r : regex) (s : jsstring) (m : MatchResult) :
  match_at r s = Some m -> search r s = Some m.
Proof. intro H. destruct s; simpl; now rewrite H. Qed.

(** X12.  The confidence is read from the first marker, whatever its
    size: after a text without the letter c, the word "confidence" in any
    letter case, any run of colons and white space, digits and a per cent
    sign make the extractor return the double nearest to the number the
    digits denote; that is the number itself below 2^53, and [Infinity]
    from 2^1024 on. *)
Theorem extract_confidence_reads_marker (pre word seps ds post : jsstring) :
  Forall (fun x => canonicalize x <> 67%N) pre ->
  Notions.upper word = str "CONFIDENCE" ->
  Forall (fun x => Notions.is_separator x = true) seps ->
  ds <> [] -> Forall (fun x => is_digit x = true) ds ->
  let read :=
    extract_confidence (pre ++ word ++ seps ++ ds ++ str "%" ++ post) in
  read = to_double false (Notions.decimal ds)
  /\ ((Notions.decimal ds < 2 ^ 53)%N ->
      read = num (Z.of_N (Notions.decimal ds)))
  /\ ((2 ^ 1024 <= Notions.decimal ds)%N -> read = Infinity).
Proof.
  intros Hpre Hword Hseps Hne Hds read.
  destruct (confidence_at_marker word seps ds post Hword Hseps Hne Hds)
    as (m & Hm & Hg).
  assert (Hsearch : search confidence_re
                      (pre ++ word ++ seps ++ ds ++ str "%" ++ post)
                    = Some m).
  { induction Hpre as [|x pre Hx _ IH].
    - now apply search_here.
    - simpl. rewrite (confidence_not_here x _ Hx). exact IH. }
  assert (Hread : read = to_double false (Notions.decimal ds)).
  { unfold read, extract_confidence. rewrite Hsearch.
    unfold capture1. rewrite Hg. now apply JSFacts.parseInt_decimal. }
  split; [exact Hread|]. rewrite Hread. split.
  - apply JSFacts.to_double_small.
  - apply JSFacts.to_double_large.
Qed.

(** The words of [[:\s]*] are the runs of colons and white space. *)
Lemma lang_separators (v : jsstring) :
  lang (Star colon_or_space) v ->
  Forall (fun c => Notions.is_separator c = true) v.
Proof.
  intros [ws [-> Hws]].
  induction Hws as [|w ws [c [-> Hc]] _ IH]; simpl; [constructor|].
  now constructor.
Qed.

(** A match of [marker[:\s]*(word)] splits the input into the marker,
    the separators, the captured word and the rest. *)
Lemma run_marker_word (l a : regex) (c c' : option jsstring)
      (t s' : jsstring) :
  In (c', s') (run (seq [l; Star colon_or_space; Group a]) (c, t)) ->
  exists u v w,
    t = u ++ v ++ w ++ s' /\ lang l u
    /\ Forall (fun x => Notions.is_separator x = true) v
    /\ lang a w /\ c' = Some w.
Proof.
  intro H. simpl in H.
  apply in_flat_map in H. destruct H as [[c1 s1] [H1 H]].
  apply in_flat_map in H. destruct H as [[c2 s2] [H2 H]].
  apply in_flat_map in H. destruct H as [[c3 s3] [H3 H]].
  destruct H as [H|[]]. inversion H; subst c3 s3.
  apply in_map_iff in H3. destruct H3 as [[c4 s4] [Heq H4]].
  simpl in Heq. inversion Heq; subst c' s4. clear Heq.
  destruct (RegexFacts.run_sound l _ _ _ _ H1) as [u [-> Hu]].
  assert (Hv : exists v, s1 = v ++ s2 /\ lang (Star colon_or_space) v)
    by exact (RegexFacts.run_sound (Star colon_or_space) _ _ _ _ H2).
  destruct Hv as [v [-> Hv]].
  destruct (RegexFacts.run_sound a _ _ _ _ H4) as [w [-> Hw]].
  exists u, v, w. split; [reflexivity|]. split; [exact Hu|].
  split; [now apply lang_separators|]. split; [exact Hw|].
  now rewrite RegexFacts.firstn_consumed.
Qed.

(** What a successful search for such a pattern captures stands in the
    text, after the marker. *)
Lemma search_marker_word (marker : string) (a : regex) (text : jsstring)
      (m : MatchResult) :
  search (seq [lit_i marker; Star colon_or_space; Group a]) text = Some m ->
  Notions.written_after marker (capture1 m) text /\ lang a (capture1 m).
Proof.
  intro H.
  destruct (RegexFacts.search_some _ _ _ H) as [pre [t [-> Ht]]].
  destruct (RegexFacts.match_at_some _ _ _ Ht) as [s' Hin].
  destruct (run_marker_word _ _ _ _ _ _ Hin)
    as (u & v & w & -> & Hu & Hv & Hw & Hcap).
  unfold capture1. rewrite Hcap. split; [|exact Hw].
  exists pre, u, v, s'. split; [reflexivity|].
  split; [now apply lang_word | exact Hv].
Qed.

(** X13.  The action and the risk level come out in the letter case the
    agent wrote them in.  Either the text has no marker and the default
    is returned, or what is returned is the very word that stands in the
    text after a marker, and that word is a spelling of buy, sell or hold
    (of low, medium or high) up to letter case. *)
Theorem extracted_words_spelling (text : jsstring) :
  ((~ occurs action_re text /\ extract_action text = str "hold")
   \/ (Notions.written_after "recommended action" (extract_action text) text
       /\ (Notions.upper (extract_action text) = str "BUY"
           \/ Notions.upper (extract_action text) = str "SELL"
           \/ Notions.upper (extract_action text) = str "HOLD")))
  /\ ((~ occurs risk_re text /\ extract_risk text = str "medium")
      \/ (Notions.written_after "risk level" (extract_risk text) text
          /\ (Notions.upper (extract_risk text) = str "LOW"
              \/ Notions.upper (extract_risk text) = str "MEDIUM"
              \/ Notions.upper (extract_risk text) = str "HIGH"))).
Proof.
  split.
  - unfold extract_action.
    destruct (search action_re text) as [m|] eqn:E.
    + right.
      destruct (search_marker_word "recommended action" _ text m E)
        as [Hat Hlang].
      split; [exact Hat|].
      destruct Hlang as [[H|H]|H]; apply lang_word in H; rewrite H; auto.
    + left. split; [now apply RegexFacts.search_none_iff | reflexivity].
  - unfold extract_risk.
    destruct (search risk_re text) as [m|] eqn:E.
    + right.
      destruct (search_marker_word "risk level" _ text m E) as [Hat Hlang].
      split; [exact Hat|].
      destruct Hlang as [[H|H]|H]; apply lang_word in H; rewrite H; auto.
    + left. split; [now apply RegexFacts.search_none_iff | reflexivity].
Qed.

(** "Overall CONFIDENCE :  150% ...": 150. *)
Lemma extract_confidence_reads_marker_witness :
  extract_confidence (str "Overall CONFIDENCE :  150% after review")
  = num 150.
Proof.
  apply (proj1 (proj2 (extract_confidence_reads_marker
                         (str "Overall ") (str "CONFIDENCE") (str " :  ")
                         (str "150") (str " after review")
                         ltac:(repeat constructor; discriminate)
                         eq_refl
                         ltac:(repeat constructor)
                         ltac:(discriminate)
                         ltac:(repeat constructor)))).
  reflexivity.
Defined.

(** Above 2^53 the digits are rounded: 9007199254740993 reads as
    9007199254740992; and 309 nines read as [Infinity], which passes the
    gate as any confidence of 70 or more does. *)
Lemma extract_confidence_rounds :
  extract_confidence (str "Confidence: 9007199254740993%")
  = num 9007199254740992
  /\ extract_confidence
       (str "Confidence: " ++ repeat 57%N 309 ++ str "%")
     = Infinity
  /\ ltb Infinity (num 70) = false.
Proof.
  split; [vm_compute; reflexivity|].
  split; [vm_compute; reflexivity | reflexivity].
Qed.

End ExtractorMore.

(* ================================================================== *)
(** * The Recall tools *)
(* ================================================================== *)

Module RecallFacts.
Import Recall.

(** What [...(x ? { k: x } : {})] contributes. *)
Lemma in_spread_if (k : string) (x : option jsstring) (k' v : jsstring) :
  In (k', v) (spread_if k x) <-> k' = str k /\ x = Some v /\ v <> [].
Proof.
  unfold spread_if. destruct x as [[|c s]|]; simpl.
  - split; [tauto|]. intros (_ & H & Hne). inversion H; subst. congruence.
  - split.
    + intros [H|[]]. inversion H; subst. repeat split. discriminate.
    + intros (-> & H & _). inversion H; subst. now left.
  - split; [tauto|]. intros (_ & H & _). discriminate.
Qed.

Lemma keys_spread_if (k : string) (x : option jsstring) :
  map fst (spread_if k x) = [] \/ map fst (spread_if k x) = [str k].
Proof. destruct x as [[|c s]|]; simpl; auto. Qed.

(** Keys of a concrete list are pairwise different. *)
Ltac distinct_keys :=
  repeat (constructor;
          [ simpl;
            let H := fresh "H" in
            intro H; repeat (destruct H as [H|H]; [discriminate H|]); exact H
          | ]);
  constructor.

Section WithHost.
Context {host : Host} {platform : Platform}.

(** X15.  The query of the quote tool and the body of the trade tool
    always start with the required arguments, never name a key twice, and
    carry an optional argument exactly when it was given and is not the
    empty string. *)
Theorem optional_arguments_when_non_empty :
  (forall context : Quote.t,
      firstn 3 (quoteParams context)
      = [ (str "fromToken", Quote.fromToken context);
          (str "toToken", Quote.toToken context);
          (str "amount", Quote.amount context) ]
      /\ NoDup (map fst (quoteParams context))
      /\ forall v,
           (In (str "fromChain", v) (quoteParams context)
            <-> Quote.fromChain context = Some v /\ v <> [])
           /\ (In (str "fromSpecificChain", v) (quoteParams context)
               <-> Quote.fromSpecificChain context = Some v /\ v <> [])
           /\ (In (str "toChain", v) (quoteParams context)
               <-> Quote.toChain context = Some v /\ v <> [])
           /\ (In (str "toSpecificChain", v) (quoteParams context)
               <-> Quote.toSpecificChain context = Some v /\ v <> []))
  /\ (forall context : Trade.t,
        firstn 4 (tradeBody context)
        = [ (str "fromToken", Trade.fromToken context);
            (str "toToken", Trade.toToken context);
            (str "amount", Trade.amount context);
            (str "reason", Trade.reason context) ]
        /\ NoDup (map fst (tradeBody context))
        /\ forall v,
             (In (str "slippageTolerance", v) (tradeBody context)
              <-> Trade.slippageTolerance context = Some v /\ v <> [])
             /\ (In (str "fromChain", v) (tradeBody context)
                 <-> Trade.fromChain context = Some v /\ v <> [])
             /\ (In (str "fromSpecificChain", v) (tradeBody context)
                 <-> Trade.fromSpecificChain context = Some v /\ v <> [])
             /\ (In (str "toChain", v) (tradeBody context)
                 <-> Trade.toChain context = Some v /\ v <> [])
             /\ (In (str "toSpecificChain", v) (tradeBody context)
                 <-> Trade.toSpecificChain context = Some v /\ v <> [])).
Proof.
  split; intro context; (split; [reflexivity|]); split.
  - unfold quoteParams. rewrite !map_app.
    destruct (keys_spread_if "fromChain" (Quote.fromChain context)) as [->| ->];
    destruct (keys_spread_if "fromSpecificChain"
                (Quote.fromSpecificChain context)) as [->| ->];
    destruct (keys_spread_if "toChain" (Quote.toChain context)) as [->| ->];
    destruct (keys_spread_if "toSpecificChain"
                (Quote.toSpecificChain context)) as [->| ->];
    distinct_keys.
  - intro v. unfold quoteParams.
    rewrite !in_app_iff, !in_spread_if. simpl.
    intuition (try discriminate; try congruence).
  - unfold tradeBody. rewrite !map_app.
    destruct (keys_spread_if "slippageTolerance"
                (Trade.slippageTolerance context)) as [->| ->];
    destruct (keys_spread_if "fromChain" (Trade.fromChain context)) as [->| ->];
    destruct (keys_spread_if "fromSpecificChain"
                (Trade.fromSpecificChain context)) as [->| ->];
    destruct (keys_spread_if "toChain" (Trade.toChain context)) as [->| ->];
    destruct (keys_spread_if "toSpecificChain"
                (Trade.toSpecificChain context)) as [->| ->];
    distinct_keys.
  - intro v. unfold tradeBody.
    rewrite !in_app_iff, !in_spread_if. simpl.
    intuition (try discriminate; try congruence).
Qed.

(** X16.  No tool looks at the API key before it sends: with
    [RECALL_API_KEY] unset each of the six tools still makes its one
    request, and the request carries the header
    [Authorization: Bearer undefined]. *)
Theorem requests_without_key (fetch : Fetch) (quote : Quote.t)
        (trade : Trade.t) :
  env "RECALL_API_KEY" = None ->
  exists r1 r2 r3 r4 r5 r6,
    snd (getRecallAgent fetch) = [r1]
    /\ snd (getRecallAgentPortfolio fetch) = [r2]
    /\ snd (getRecallAgentBalances fetch) = [r3]
    /\ snd (getRecallAgentTrades fetch) = [r4]
    /\ snd (getRecallTradeQuote fetch quote) = [r5]
    /\ snd (executeRecallTrade fetch trade) = [r6]
    /\ Forall (fun r => Zod.get (str "Authorization") (headers r)
                        = Some (str "Bearer undefined"))
         [r1; r2; r3; r4; r5; r6].
Proof.
  intro Hkey.
  assert (Hauth : Zod.get (str "Authorization") getHeaders
                  = Some (str "Bearer undefined")).
  { unfold getHeaders. rewrite Hkey. reflexivity. }
  assert (Hpost : Zod.get (str "Authorization")
                    (getHeaders
                     ++ [ (str "Content-Type", str "application/json") ])
                  = Some (str "Bearer undefined")).
  { unfold getHeaders. rewrite Hkey. reflexivity. }
  do 6 eexists. repeat (split; [reflexivity|]).
  repeat constructor; assumption.
Qed.

(** X17.  The trade tool posts once, to [/trade/execute], the body built
    from its arguments.  It returns the data of the response exactly when
    [fetch] resolved with a status from 200 to 299 and a body that parses;
    on any other status it throws "Recall Execute Trade API error" with
    the status and its text, whatever the body says. *)
Theorem executeRecallTrade_outcomes (fetch : Fetch) (trade : Trade.t) :
  exists request,
    snd (executeRecallTrade fetch trade) = [request]
    /\ url request = BASE_URL ++ str "/trade/execute"
    /\ method request = str "POST"
    /\ body request = Some (JSON_stringify (tradeBody trade))
    /\ (forall data,
          fst (executeRecallTrade fetch trade) = Return data
          <-> exists response,
                fetch request = inr response
                /\ (200 <= status response <= 299)%Z
                /\ json response = inr data)
    /\ (forall response,
          fetch request = inr response ->
          ~ (200 <= status response <= 299)%Z ->
          fst (executeRecallTrade fetch trade)
          = Throw (Error (str "Recall Execute Trade API error: "
                          ++ Number_toString (num (status response))
                          ++ str " " ++ statusText response))).
Proof.
  pose (request :=
          {| url := BASE_URL ++ str "/trade/execute";
             method := str "POST";
             headers := getHeaders
                        ++ [ (str "Content-Type", str "application/json") ];
             body := Some (JSON_stringify (tradeBody trade)) |}).
  exists request. split; [reflexivity|]. repeat (split; [reflexivity|]).
  change (executeRecallTrade fetch trade)
    with (send fetch request "Recall Execute Trade API error").
  unfold send. cbn [fst]. clearbody request.
  destruct (fetch request) as [e|response] eqn:Hfetch.
  - split.
    + intro data. split; [discriminate|].
      intros (response & H & _). discriminate.
    + intros response H. discriminate.
  - assert (Hok : ok response = true <-> (200 <= status response <= 299)%Z).
    { unfold ok. rewrite andb_true_iff, !Z.leb_le. tauto. }
    destruct (ok response) eqn:E.
    + split.
      * intro data. destruct (json response) as [e|d] eqn:Hjson.
        -- split; [discriminate|].
           intros (response' & H & _ & Hd). inversion H; subst response'.
           congruence.
        -- split.
           ++ intro H. inversion H; subst d.
              exists response. split; [reflexivity|]. split; [|exact Hjson].
              now apply Hok.
           ++ intros (response' & H & _ & Hd). inversion H; subst response'.
              congruence.
      * intros response' H Hnot. inversion H; subst response'.
        exfalso. apply Hnot. now apply Hok.
    + split.
      * intro data. split; [discriminate|].
        intros (response' & H & Hrange & _). inversion H; subst response'.
        apply Hok in Hrange. congruence.
      * intros response' H _. inversion H; subst response'. reflexivity.
Qed.

End WithHost.

(** A quote from the EVM chain to Base with an empty [fromSpecificChain]:
    five entries, the empty one left out. *)
Lemma optional_arguments_when_non_empty_witness :
  In (str "fromChain", str "evm")
     (quoteParams MoreExamples.quote)
  /\ (forall v, ~ In (str "fromSpecificChain", v)
                    (quoteParams MoreExamples.quote))
  /\ map fst (quoteParams MoreExamples.quote)
     = [ str "fromToken"; str "toToken"; str "amount"; str "fromChain";
         str "toSpecificChain" ].
Proof.
  destruct (proj1 (optional_arguments_when_non_empty) MoreExamples.quote)
    as (_ & _ & Hopt).
  split; [|split].
  - apply (proj1 (Hopt (str "evm"))). split; [reflexivity | discriminate].
  - intros v Hin.
    apply (proj1 (proj2 (Hopt v))) in Hin. destruct Hin as [Heq Hne].
    inversion Heq; subst. now apply Hne.
  - reflexivity.
Defined.

(** The profile tool against a server that answers 401. *)
Lemma requests_without_key_witness :
  exists r,
    snd (getRecallAgent (host := Examples.host)
           (platform := MoreExamples.platform)
           (MoreExamples.answering_with 401 "Unauthorized"))
    = [r]
    /\ Zod.get (str "Authorization") (headers r)
       = Some (str "Bearer undefined")
    /\ fst (getRecallAgent (host := Examples.host)
              (platform := MoreExamples.platform)
              (MoreExamples.answering_with 401 "Unauthorized"))
       = Throw (Error (str "Recall API error: 401 Unauthorized")).
Proof.
  destruct (requests_without_key (host := Examples.host)
              (platform := MoreExamples.platform)
              (MoreExamples.answering_with 401 "Unauthorized")
              MoreExamples.quote
              {| Trade.fromToken := str "USDC";
                 Trade.toToken := str "WETH";
                 Trade.amount := str "100";
                 Trade.reason := str "rebalance";
                 Trade.slippageTolerance := None;
                 Trade.fromChain := None;
                 Trade.fromSpecificChain := None;
                 Trade.toChain := None;
                 Trade.toSpecificChain := None |}
              eq_refl)
    as (r1 & r2 & r3 & r4 & r5 & r6 & H1 & _ & _ & _ & _ & _ & Hall).
  exists r1. split; [exact H1|]. split.
  - inversion Hall; assumption.
  - vm_compute. reflexivity.
Defined.

(** A trade against a server that answers 503. *)
Lemma executeRecallTrade_outcomes_witness :
  fst (executeRecallTrade (host := Examples.host)
         (platform := MoreExamples.platform)
         (MoreExamples.answering_with 503 "Service Unavailable")
         {| Trade.fromToken := str "USDC";
            Trade.toToken := str "WETH";
            Trade.amount := str "100";
            Trade.reason := str "rebalance";
            Trade.slippageTolerance := Some [];
            Trade.fromChain := None;
            Trade.fromSpecificChain := None;
            Trade.toChain := None;
            Trade.toSpecificChain := None |})
  = Throw (Error (str "Recall Execute Trade API error: 503 Service Unavailable")).
Proof.
  destruct (executeRecallTrade_outcomes (host := Examples.host)
              (platform := MoreExamples.platform)
              (MoreExamples.answering_with 503 "Service Unavailable")
              {| Trade.fromToken := str "USDC";
                 Trade.toToken := str "WETH";
                 Trade.amount := str "100";
                 Trade.reason := str "rebalance";
                 Trade.slippageTolerance := Some [];
                 Trade.fromChain := None;
                 Trade.fromSpecificChain := None;
                 Trade.toChain := None;
                 Trade.toSpecificChain := None |})
    as (request & _ & _ & _ & _ & _ & Hthrow).
  rewrite (Hthrow {| status := 503;
                     statusText := str "Service Unavailable";
                     json := inr (Zod.JObj []) |} eq_refl
             ltac:(simpl; lia)).
  reflexivity.
Defined.

End RecallFacts.
